(** * hypergo / hyperview: adapter dispatch, template and JSON rendering

    A shallow embedding of the rendering layer of the repository: the
    dispatch facade ([HyperView]), the template adapter, the JSON
    adapter, the view-data object, the HTMX request predicates and the
    template helpers of package [funcs], followed by the properties the
    specification states about them and by further properties of the
    code (numbered X1, X2, ...).

    Conventions of the embedding.
    - An [http.ResponseWriter] is modelled by the recorder the
      repository's tests use ([httptest.ResponseRecorder]): a header
      map, the [wroteHeader] flag, the status [Code] and the [Body].
      [WriteHeader] panics on a status code outside 100..999, as the
      recorder and the server's writer do: the function that called
      it is left at once, and the recorder it hands back is marked
      [panicked], with what was done to it before the call.
    - A response builder is passed on as its caller left it; what a
      callee does to it is not observed after the callee returns.
    - HTTP header names are identified with their canonical form, so
      [Header().Set], [Header().Get] and a direct map assignment are
      insertion and lookup under the same key.
    - Go maps are [gmap]s.  Where the code ranges over a map and the
      order can matter, the iteration order is an explicit argument.
    - Objects reached through pointers that a property depends on
      (registered adapters, view-data objects) live in a store indexed
      by locations.  A page-data map is a reference too: the memory of
      the view data holds the maps apart from the objects, so that
      objects made from one map share it.
    - Logging is not modelled: it writes nothing to the client. *)

From Stdlib Require Import ZArith String Ascii List Lia DecimalString.
From stdpp Require Import base option gmap strings list.

Local Open Scope string_scope.
Local Open Scope Z_scope.

(** ** Go errors

    An error is its message, or a wrapper built by
    [fmt.Errorf("<prefix>%w", err)]; every wrapping verb in the
    modelled code stands at the end of its format string. *)

Module errors.

Inductive error : Type :=
| New (msg : string)
| Wrap (prefix : string) (cause : error).

(** [err.Error()]. *)
Fixpoint Error (e : error) : string :=
  match e with
  | New msg => msg
  | Wrap prefix cause => prefix ++ Error cause
  end.


End errors.

Abbreviation error := errors.error.

(** ** Results of fallible calls *)

Inductive result (A : Type) : Type :=
| Ok (a : A)
| Err (e : error).
Arguments Ok {A} a.
Arguments Err {A} e.

(** How a call that may also panic ends. *)
Inductive outcome : Type :=
| Success
| Failure (e : error)
| Panic (e : error).

(** What cuts a loop short: a returned error, or a panic. *)
Inductive abort : Type :=
| ByError (e : error)
| ByPanic (e : error).

Definition ended (x : abort) : outcome :=
  match x with
  | ByError e => Failure e
  | ByPanic e => Panic e
  end.

(** ** Go's [strings], [path/filepath] and [fmt] helpers *)

Module strings.

Definition nl : string := String "010"%char EmptyString.
Definition tab : string := String "009"%char EmptyString.

(** [strings.LastIndex(s, c)] for a one-byte separator; [-1] when absent. *)
Fixpoint LastIndex (s : string) (c : ascii) : Z :=
  match s with
  | EmptyString => -1
  | String a s' =>
      let i := LastIndex s' c in
      if i =? -1 then (if Ascii.eqb a c then 0 else -1) else i + 1
  end.

(** [s[:i]] and [s[i:]]. *)
Definition slice_to (s : string) (i : Z) : string :=
  substring 0 (Z.to_nat i) s.
Definition slice_from (s : string) (i : Z) : string :=
  substring (Z.to_nat i) (String.length s - Z.to_nat i) s.

Fixpoint HasPrefix (s p : string) : bool :=
  match p, s with
  | EmptyString, _ => true
  | String b p', String a s' => Ascii.eqb a b && HasPrefix s' p'
  | String _ _, EmptyString => false
  end.

Definition HasSuffix (s suf : string) : bool :=
  let n := String.length s in
  let k := String.length suf in
  (k <=? n)%nat && String.eqb (substring (n - k) k s) suf.

(** [strings.TrimSuffix]. *)
Definition TrimSuffix (s suf : string) : string :=
  if HasSuffix s suf
  then substring 0 (String.length s - String.length suf) s
  else s.

(** [strings.Contains]. *)
Fixpoint Contains (s sub : string) : bool :=
  HasPrefix s sub ||
  match s with
  | EmptyString => false
  | String _ s' => Contains s' sub
  end.

(** [strings.Split(s, sep)] for a one-byte separator. *)
Fixpoint Split (s : string) (c : ascii) : list string :=
  match s with
  | EmptyString => [EmptyString]
  | String a s' =>
      if Ascii.eqb a c then EmptyString :: Split s' c
      else match Split s' c with
           | [] => [String a EmptyString]
           | x :: xs => String a x :: xs
           end
  end.

(** [strings.ReplaceAll(s, old, new)] for a one-byte [old]. *)
Fixpoint ReplaceAll (s : string) (c : ascii) (new : string) : string :=
  match s with
  | EmptyString => EmptyString
  | String a s' =>
      if Ascii.eqb a c then new ++ ReplaceAll s' c new
      else String a (ReplaceAll s' c new)
  end.

(** [strings.Join]. *)
Fixpoint Join (l : list string) (sep : string) : string :=
  match l with
  | [] => EmptyString
  | [x] => x
  | x :: xs => x ++ sep ++ Join xs sep
  end.

(** [fmt.Sprintf("%03d", n)] for a non-negative [n]. *)
Definition pad3 (n : nat) : string :=
  let d := NilZero.string_of_uint (Nat.to_uint n) in
  match String.length d with
  | 1%nat => "00" ++ d
  | 2%nat => "0" ++ d
  | _ => d
  end.

End strings.

Module filepath.

(** [filepath.Ext]: scanning back from the end of the path and
    stopping at a separator, the suffix that starts at the first dot
    met; empty when none is met.  That is the suffix from the last
    dot of the element after the last separator. *)
Definition Ext (path : string) : string :=
  let elem := strings.slice_from path (strings.LastIndex path "/" + 1) in
  let i := strings.LastIndex elem "." in
  if i =? -1 then EmptyString else strings.slice_from elem i.

(** [filepath.Rel("", path)]: the path itself for the slash-separated
    relative paths that [fs.WalkDir] hands to its callback (they are
    already clean); an error for a rooted path, which cannot be made
    relative to the current directory. *)
Definition Rel (path : string) : result string :=
  if strings.HasPrefix path "/"
  then Err (errors.New ("Rel: can't make " ++ path ++ " relative to ."))
  else Ok path.

End filepath.


(** ** The part of [net/http] the code calls *)

Module http.

Definition StatusOK : Z := 200.
Definition StatusFound : Z := 302.
Definition StatusSeeOther : Z := 303.
Definition StatusUnauthorized : Z := 401.
Definition StatusForbidden : Z := 403.
Definition StatusNotFound : Z := 404.
Definition StatusMethodNotAllowed : Z := 405.
Definition StatusInternalServerError : Z := 500.
Definition StatusServiceUnavailable : Z := 503.

(** [http.Header]: header name to its values. *)
Abbreviation Header := (gmap string (list string)).

(** [h.Get(key)]: the first value, or the empty string. *)
Definition Get (h : Header) (key : string) : string :=
  match h !! key with
  | Some (v :: _) => v
  | _ => EmptyString
  end.

(** An inbound request: what the modelled code reads of it. *)
Record Request : Type := mkRequest {
  Method : string;
  URLPath : string;
  ReqHeader : Header;
}.

(** The response recorder.  [panicked] tells that a call made on it
    ended in a panic: the code after that call did not run. *)
Record ResponseWriter : Type := mkWriter {
  HeaderMap : Header;
  wroteHeader : bool;
  Code : Z;
  Body : string;
  panicked : bool;
}.

(** [httptest.NewRecorder()]. *)
Definition NewRecorder : ResponseWriter :=
  mkWriter ∅ false 200 EmptyString false.

(** [w.Header().Set(key, value)]. *)
Definition SetHeader (key value : string) (w : ResponseWriter) : ResponseWriter :=
  mkWriter (<[key := [value]]> (HeaderMap w)) (wroteHeader w) (Code w) (Body w)
    (panicked w).

(** [w.Header()[key] = values]. *)
Definition AssignHeader (key : string) (values : list string) (w : ResponseWriter)
  : ResponseWriter :=
  mkWriter (<[key := values]> (HeaderMap w)) (wroteHeader w) (Code w) (Body w)
    (panicked w).

(** [w.Header().Del(key)]. *)
Definition DelHeader (key : string) (w : ResponseWriter) : ResponseWriter :=
  mkWriter (delete key (HeaderMap w)) (wroteHeader w) (Code w) (Body w) (panicked w).

(** [checkWriteHeaderCode]: the status codes that [WriteHeader]
    takes; it panics on every other code ("invalid WriteHeader code"). *)
Definition checkWriteHeaderCode (code : Z) : bool :=
  (100 <=? code) && (code <=? 999).

(** [w.WriteHeader(code)]: only the first call sets the status; that
    call checks the code first and panics ([None]) on a code it does
    not take, before anything of the recorder is changed.  A later call
    returns at once, whatever the code. *)
Definition WriteHeader (code : Z) (w : ResponseWriter) : option ResponseWriter :=
  if wroteHeader w then Some w
  else if checkWriteHeaderCode code
       then Some (mkWriter (HeaderMap w) true code (Body w) (panicked w))
       else None.

(** Whether [w.WriteHeader(code)] returns. *)
Definition accepts (code : Z) (w : ResponseWriter) : bool :=
  checkWriteHeaderCode code || wroteHeader w.

(** The recorder a function hands back when a call it made on [w]
    panicked. *)
Definition panic (w : ResponseWriter) : ResponseWriter :=
  mkWriter (HeaderMap w) (wroteHeader w) (Code w) (Body w) true.

(** [w.Write(b)]: an implicit [WriteHeader(200)] when no status was
    written yet, which takes its code, then the bytes are appended.
    The recorder's [Write] never fails. *)
Definition Write (b : string) (w : ResponseWriter) : ResponseWriter :=
  let w1 := default w (WriteHeader StatusOK w) in
  mkWriter (HeaderMap w1) (wroteHeader w1) (Code w1) (Body w1 ++ b) (panicked w1).

(** [fmt.Fprintln(w, s)]. *)
Definition Fprintln (s : string) (w : ResponseWriter) : ResponseWriter :=
  Write (s ++ strings.nl) w.

(** [http.Error(w, msg, code)]. *)
Definition Error (w : ResponseWriter) (msg : string) (code : Z) : ResponseWriter :=
  let w1 := DelHeader "Content-Length" w in
  let w2 := SetHeader "Content-Type" "text/plain; charset=utf-8" w1 in
  let w3 := SetHeader "X-Content-Type-Options" "nosniff" w2 in
  match WriteHeader code w3 with
  | Some w4 => Fprintln msg w4
  | None => panic w3
  end.

(** What [http.Redirect] does to the target before it is sent: a
    relative target is resolved against the request path and cleaned,
    non-ASCII bytes are escaped; and the HTML escaping of the link in
    the body.  Both are the library's business and are left open. *)
Class URLRules : Type := {
  location : string -> string -> string;
  htmlEscape : string -> string;
}.

Definition dquote : string := String "034"%char EmptyString.

(** [http.Redirect(w, r, url, code)] for [code = StatusFound]. *)
Definition Redirect `{URLRules} (w : ResponseWriter) (r : Request) (url : string)
    (code : Z) : ResponseWriter :=
  let url' := location (URLPath r) url in
  let hadCT := bool_decide (is_Some (HeaderMap w !! "Content-Type")) in
  let w1 := SetHeader "Location" url' w in
  let w2 :=
    if negb hadCT && (String.eqb (Method r) "GET" || String.eqb (Method r) "HEAD")
    then SetHeader "Content-Type" "text/html; charset=utf-8" w1
    else w1 in
  match WriteHeader code w2 with
  | Some w3 =>
      if negb hadCT && String.eqb (Method r) "GET"
      then Fprintln ("<a href=" ++ dquote ++ htmlEscape url' ++ dquote ++ ">"
                     ++ "Found" ++ "</a>." ++ strings.nl) w3
      else w3
  | None => panic w2
  end.

End http.

(** ** Package [response]: view data and the response builder *)

Module response.

(** Addresses of view-data objects, and of page-data maps. *)
Abbreviation loc := nat.
Abbreviation mapref := nat.

(** The values a page-data map ([map[string]any]) holds, as far as the
    modelled code tells them apart: strings, numbers, booleans,
    field-error maps, the pointer to a view-data object, and values
    with no JSON encoding (functions, channels). *)
Inductive any : Type :=
| Str (s : string)
| Int (n : Z)
| Bool (b : bool)
| StrMap (m : gmap string string)
| DataPtr (v : loc)
| Func (name : string).

Abbreviation PageData := (gmap string any).

(** [type Data struct], as a method reads it through its receiver:
    the fields, [pageData] being the map the field refers to.  A nil
    [request] or [pageData] is [None]. *)
Record Data : Type := mkData {
  title : string;
  request : option http.Request;
  pageData : option PageData;
  csrfToken : string;
  environment : string;
}.

(** [type Data struct], as it lies in memory: a Go map is a reference,
    so the field [pageData] holds the address of a map, [None] for
    nil. *)
Record object : Type := mkObject {
  objTitle : string;
  objRequest : option http.Request;
  pageMap : option mapref;
  objCsrfToken : string;
  objEnvironment : string;
}.

(** The memory: the view-data objects and the page-data maps.  Objects
    with the same [pageMap] share one map: what is written through one
    of them is read through the others. *)
Record heap : Type := mkHeap {
  objects : gmap loc object;
  maps : gmap mapref PageData;
}.

#[global] Instance heap_empty : Empty heap := mkHeap ∅ ∅.

(** The map at an address; an address that holds nothing yet reads as
    the empty map. *)
Definition deref (h : heap) (m : mapref) : PageData := default ∅ (maps h !! m).

(** [h !! v]: the object at [v] as its methods read it. *)
#[global] Instance heap_lookup : Lookup loc Data heap := λ v h,
  o ← objects h !! v;
  Some (mkData (objTitle o) (objRequest o) (deref h <$> pageMap o)
          (objCsrfToken o) (objEnvironment o)).

Definition setObject (v : loc) (o : object) (h : heap) : heap :=
  mkHeap (<[v := o]> (objects h)) (maps h).
Definition setMap (m : mapref) (pd : PageData) (h : heap) : heap :=
  mkHeap (objects h) (<[m := pd]> (maps h)).
Definition setPageMap (o : object) (pm : option mapref) : object :=
  mkObject (objTitle o) (objRequest o) pm (objCsrfToken o) (objEnvironment o).

(** The map addresses in use: those that hold a map and those that an
    object refers to. *)
Definition used (h : heap) : gset mapref :=
  dom (maps h) ∪ list_to_set (omap (λ vo, pageMap (snd vo)) (map_to_list (objects h))).

(** A map literal [map[string]any{...}]: a new map at an unused
    address. *)
Definition makeMap (pd : PageData) (h : heap) : mapref * heap :=
  let m := fresh (used h) in (m, setMap m pd h).

(** [initData]. *)
Definition initData (data : option PageData) : PageData :=
  let data := match data with
              | None => ∅
              | Some m => m
              end in
  let data := match data !! "Error" with
              | Some _ => data
              | None => <["Error" := Str EmptyString]> data
              end in
  let data := match data !! "Errors" with
              | Some _ => data
              | None => <["Errors" := StrMap ∅]> data
              end in
  data.

(** [initData] in memory: a map that is not nil is completed in place
    and stays where it is; for nil a new map is made. *)
Definition initDataAt (pm : option mapref) (h : heap) : mapref * heap :=
  match pm with
  | None => makeMap (initData None) h
  | Some m => (m, setMap m (initData (Some (deref h m))) h)
  end.

(** [NewData]: a new object at an unused address.  Its map is the map
    it is given, completed in place: the caller, and every object made
    from the same map, share it with the new object. *)
Definition NewData (pageData : option mapref) (h : heap) : loc * heap :=
  let '(m, h) := initDataAt pageData h in
  let v := fresh (dom (objects h)) in
  (v, setObject v (mkObject EmptyString None (Some m) EmptyString EmptyString) h).

(** [Data.SetTitle]. *)
Definition SetTitle (v : loc) (t : string) (h : heap) : option heap :=
  o ← objects h !! v;
  Some (setObject v
          (mkObject t (objRequest o) (pageMap o) (objCsrfToken o) (objEnvironment o)) h).

(** [Data.SetRequest]. *)
Definition SetRequest (v : loc) (r : http.Request) (h : heap) : option heap :=
  o ← objects h !! v;
  Some (setObject v
          (mkObject (objTitle o) (Some r) (pageMap o) (objCsrfToken o)
             (objEnvironment o)) h).

(** [Data.Data]: the map handed to the template; the object keeps it.
    [None] is the nil-pointer panic. *)
Definition Data_Data (v : loc) (h : heap) : option (PageData * heap) :=
  o ← objects h !! v;
  let '(m, h) := initDataAt (pageMap o) h in
  let pd := <["View" := DataPtr v]> (deref h m) in
  Some (pd, setMap m pd (setObject v (setPageMap o (Some m)) h)).

(** [Data.AddErrors]; writing to a nil map panics. *)
Definition AddErrors (v : loc) (msg : string) (fieldErrors : gmap string string)
    (h : heap) : option heap :=
  o ← objects h !! v;
  m ← pageMap o;
  Some (setMap m (<["Errors" := StrMap fieldErrors]> (<["Error" := Str msg]> (deref h m)))
          h).

(** [Data.Get]. *)
Definition Get (d : Data) (key : string) : any :=
  match default ∅ (pageData d) !! key with
  | Some val => val
  | None => Str EmptyString
  end.

(** [Data.GetString]. *)
Definition GetString (d : Data) (key : string) : string :=
  match Get d key with
  | Str s => s
  | _ => EmptyString
  end.

(** [Data.Error] and [Data.HasError]. *)
Definition Error (d : Data) : string := GetString d "Error".
Definition HasError (d : Data) : bool := negb (String.eqb (Error d) EmptyString).

(** [Data.Errors] and [Data.HasErrors]. *)
Definition Errors (d : Data) : gmap string string :=
  match Get d "Errors" with
  | StrMap m => m
  | _ => ∅
  end.
Definition HasErrors (d : Data) : bool := negb (bool_decide (Errors d = ∅)).

(** Modelled from the spec: the [Response] builder of package
    [response], whose struct and setters are not among the sources
    (only its HTMX and cache-header setters are).  Section 3 of the
    specification gives its fields: template path, layout name, status
    code with 0 for unset, header mapping from string to string, page
    data, error message and field errors; the latter two are kept in
    the page data under ["Error"] and ["Errors"] as [AddErrors] does.
    [view] is the address of the view-data object the response
    materialises. *)
Record Response : Type := mkResponse {
  templatePath : string;
  templateLayout : string;
  statusCode : Z;
  headers : gmap string string;
  respTitle : string;
  respData : PageData;
  view : loc;
}.

(** Modelled from the spec: [NewResponse], absent from the sources; a
    new builder has nothing set. *)
Definition NewResponse (v : loc) : Response :=
  mkResponse EmptyString EmptyString 0 ∅ EmptyString ∅ v.

(** The getters [TemplatePath], [TemplateLayout], [StatusCode] and
    [Headers] are the projections. *)

(** Modelled from the spec: [Path], absent from the sources; sets the
    template path and returns the builder. *)
Definition Path (path : string) (resp : Response) : Response :=
  mkResponse path (templateLayout resp) (statusCode resp) (headers resp)
    (respTitle resp) (respData resp) (view resp).

(** Modelled from the spec: [Layout], absent from the sources; sets the
    layout name. *)
Definition Layout (layout : string) (resp : Response) : Response :=
  mkResponse (templatePath resp) layout (statusCode resp) (headers resp)
    (respTitle resp) (respData resp) (view resp).

(** Modelled from the spec: [Status], absent from the sources; the
    plain setter of the numeric status. *)
Definition Status (status : Z) (resp : Response) : Response :=
  mkResponse (templatePath resp) (templateLayout resp) status (headers resp)
    (respTitle resp) (respData resp) (view resp).

(** Modelled from the spec: the named status setters, absent from the
    sources: server-error is 500, not-found 404, forbidden 403,
    unauthorized 401. *)
Definition StatusError : Response -> Response := Status http.StatusInternalServerError.
Definition StatusNotFound : Response -> Response := Status http.StatusNotFound.
Definition StatusForbidden : Response -> Response := Status http.StatusForbidden.
Definition StatusUnauthorized : Response -> Response := Status http.StatusUnauthorized.

(** Modelled from the spec: [Header], absent from the sources; attaches
    a single header key and value. *)
Definition SetHeader (key value : string) (resp : Response) : Response :=
  mkResponse (templatePath resp) (templateLayout resp) (statusCode resp)
    (<[key := value]> (headers resp)) (respTitle resp) (respData resp) (view resp).

(** Modelled from the spec: [Errors], absent from the sources; attaches
    an error message and a mapping from field names to messages. *)
Definition SetErrors (msg : string) (fieldErrors : gmap string string)
    (resp : Response) : Response :=
  mkResponse (templatePath resp) (templateLayout resp) (statusCode resp) (headers resp)
    (respTitle resp)
    (<["Errors" := StrMap fieldErrors]> (<["Error" := Str msg]> (respData resp)))
    (view resp).

(** Modelled from the spec: [Data], absent from the sources; attaching
    page data merges it in, new keys overwrite existing ones. *)
Definition AddData (data : PageData) (resp : Response) : Response :=
  mkResponse (templatePath resp) (templateLayout resp) (statusCode resp) (headers resp)
    (respTitle resp) (data ∪ respData resp) (view resp).

(** Modelled from the spec: [HTTPHeader], absent from the sources; the
    header mapping as an [http.Header]. *)
Definition HTTPHeader (resp : Response) : http.Header :=
  (λ v, [v]) <$> headers resp.

(** Modelled from the spec: [ViewData], absent from the sources,
    followed by [Data.Data] above: the map of the response's view-data
    object, which holds the page data of the response. *)
Definition ViewData_Data (r : http.Request) (resp : Response) : PageData :=
  <["View" := DataPtr (view resp)]> (initData (Some (respData resp))).

End response.

(** ** Packages [htmx] and [request]: request predicates *)

Module htmx.

Definition HXRequest : string := "HX-Request".
Definition HXBoosted : string := "HX-Boosted".
Definition HXRedirect : string := "HX-Redirect".

(** Modelled from the spec: package [htmx] is not among the sources,
    only the test of its predicates is.  The specification has them
    read two independent boolean-ish request headers, and the test
    sets these to ["true"]: a header counts as set when it carries
    that value. *)
Definition headerSet (r : http.Request) (name : string) : bool :=
  String.eqb (http.Get (http.ReqHeader r) name) "true".

(** Modelled from the spec: is HTMX but not boosted, the AND-NOT
    combination of the two headers. *)
Definition IsHtmxRequest (r : http.Request) : bool :=
  headerSet r HXRequest && negb (headerSet r HXBoosted).

(** Modelled from the spec: the boosted header alone. *)
Definition IsBoostedRequest (r : http.Request) : bool :=
  headerSet r HXBoosted.

(** Modelled from the spec: is any HTMX, the OR of the two headers. *)
Definition IsAnyHtmxRequest (r : http.Request) : bool :=
  headerSet r HXRequest || headerSet r HXBoosted.

End htmx.

Module request.

(** Modelled from the spec: [request.IsXMLHttpRequest] is not among the
    sources; the specification has it read the [X-Requested-With]
    header, which the test sets to ["XMLHttpRequest"]. *)
Definition IsXMLHttpRequest (r : http.Request) : bool :=
  String.eqb (http.Get (http.ReqHeader r) "X-Requested-With") "XMLHttpRequest".

End request.

(** ** json.go: the envelope and its writers *)

Module json.

(** The [Data any] of an envelope: nil, or a page-data map. *)
Inductive payload : Type :=
| Nil
| Map (m : response.PageData).

(** [type Envelope struct]. *)
Record Envelope : Type := mkEnvelope {
  Status : string;
  Message : string;
  Data : payload;
  Code : Z;
}.

(** What [JSONWithHeaders] is asked to serialise. *)
Inductive value : Type :=
| OfEnvelope (e : Envelope)
| OfStrings (m : gmap string string).

(** [encoding/json] has no encoding for function values (nor for
    channels); every other value of [any] has one. *)
Definition supported (v : response.any) : bool :=
  match v with
  | response.Func _ => false
  | _ => true
  end.

Definition serialisable (v : value) : bool :=
  match v with
  | OfEnvelope e =>
      match Data e with
      | Nil => true
      | Map m => bool_decide (map_Forall (λ _ x, supported x = true) m)
      end
  | OfStrings _ => true
  end.

(** The text the encoder produces for a value it supports is the
    library's business and is left open. *)
Class Encoder : Type := {
  indent : value -> string;   (* json.MarshalIndent(v, "", "\t") *)
  compact : value -> string;  (* json.Marshal(v) *)
}.

Definition unsupported : error := errors.New "json: unsupported type: func()".

(** [json.MarshalIndent] and [json.Marshal]. *)
Definition MarshalIndent `{Encoder} (v : value) : result string :=
  if serialisable v then Ok (indent v) else Err unsupported.
Definition Marshal `{Encoder} (v : value) : result string :=
  if serialisable v then Ok (compact v) else Err unsupported.

Section Writers.
Context `{Encoder}.

(** The loop [for key, value := range header { w.Header()[key] = value }]. *)
Definition assignAll (header : http.Header) (w : http.ResponseWriter)
  : http.ResponseWriter :=
  map_fold (λ key values w, http.AssignHeader key values w) w header.

(** [JSONWithHeaders].  When [WriteHeader] panics the function does not
    return: the error next to the panicked recorder stands for nothing. *)
Definition JSONWithHeaders (w : http.ResponseWriter) (status : Z) (data : value)
    (headers : list http.Header) : http.ResponseWriter * option error :=
  match MarshalIndent data with
  | Err err => (w, Some err)
  | Ok js =>
      let js := js ++ strings.nl in
      let w := foldl (λ w header, assignAll header w) w headers in
      let w := http.SetHeader "Content-Type" "application/json; charset=UTF-8" w in
      match http.WriteHeader status w with
      | Some w => (http.Write js w, None)
      | None => (http.panic w, None)
      end
  end.

(** [JSONSuccess]. *)
Definition JSONSuccess (w : http.ResponseWriter) (data : payload)
    (headers : list http.Header) : http.ResponseWriter * option error :=
  let envelope := mkEnvelope "success" "Success" data http.StatusOK in
  JSONWithHeaders w http.StatusOK (OfEnvelope envelope) headers.

(** [JSONSuccessWithStatus]. *)
Definition JSONSuccessWithStatus (w : http.ResponseWriter) (status : Z) (data : payload)
    (headers : list http.Header) : http.ResponseWriter * option error :=
  let envelope := mkEnvelope "success" "Success" data status in
  JSONWithHeaders w status (OfEnvelope envelope) headers.

(** [JSONFailure]. *)
Definition JSONFailure (w : http.ResponseWriter) (data : payload) (message : string)
    (status : Z) (headers : list http.Header) : http.ResponseWriter * option error :=
  let envelope := mkEnvelope "fail" message data status in
  JSONWithHeaders w status (OfEnvelope envelope) headers.

(** [JSONError]; the envelope's [Data] stays nil. *)
Definition JSONError (w : http.ResponseWriter) (message : string) (status : Z)
    (headers : list http.Header) : http.ResponseWriter * option error :=
  let envelope := mkEnvelope "error" message Nil status in
  JSONWithHeaders w status (OfEnvelope envelope) headers.


End Writers.

End json.

(** ** The JSON adapter *)

Module JSONAdapter.
Section Methods.
Context `{json.Encoder}.

(** [(v *JSONAdapter) Init]. *)
Definition Init : option error := None.

(** [RenderSystemError].  A nil header is an empty one. *)
Definition RenderSystemError (w : http.ResponseWriter) (r : http.Request)
    (err : error) (resp : response.Response) : http.ResponseWriter :=
  let '(w, e) := json.JSONError w (errors.Error err) http.StatusInternalServerError [∅] in
  match e with
  | Some e => http.Error w (errors.Error e) http.StatusInternalServerError
  | None => w
  end.

(** [Render]. *)
Definition Render (w : http.ResponseWriter) (r : http.Request)
    (resp : response.Response) : http.ResponseWriter :=
  let resp :=
    if response.statusCode resp =? 0 then response.Status http.StatusOK resp else resp in
  if response.statusCode resp >? 299 then
    let '(w, err) :=
      json.JSONFailure w (json.Map (response.ViewData_Data r resp)) "Failure"
        (response.statusCode resp) [response.HTTPHeader resp] in
    match err with
    | Some err => RenderSystemError w r err resp
    | None => w
    end
  else
    let '(w, err) :=
      json.JSONSuccessWithStatus w (response.statusCode resp)
        (json.Map (response.ViewData_Data r resp)) [response.HTTPHeader resp] in
    match err with
    | Some err => RenderSystemError w r err resp
    | None => w
    end.

(** The fixed error renderers. *)
Definition renderFixed (w : http.ResponseWriter) (message : string) (status : Z)
  : http.ResponseWriter :=
  let '(w, err) := json.JSONFailure w json.Nil message status [∅] in
  match err with
  | Some err => http.Error w (errors.Error err) http.StatusInternalServerError
  | None => w
  end.

Definition RenderForbidden (w : http.ResponseWriter) : http.ResponseWriter :=
  renderFixed w "Forbidden" http.StatusForbidden.
Definition RenderMaintenance (w : http.ResponseWriter) : http.ResponseWriter :=
  renderFixed w "Maintenance" http.StatusServiceUnavailable.
Definition RenderMethodNotAllowed (w : http.ResponseWriter) : http.ResponseWriter :=
  renderFixed w "Method not allowed" http.StatusMethodNotAllowed.
Definition RenderNotFound (w : http.ResponseWriter) : http.ResponseWriter :=
  renderFixed w "Not found" http.StatusNotFound.
Definition RenderUnauthorized (w : http.ResponseWriter) : http.ResponseWriter :=
  renderFixed w "Unauthorized" http.StatusUnauthorized.

End Methods.
End JSONAdapter.

(** ** Package [constants] *)

Module constants.
Definition RootFSID : string := "__ROOT__".
Definition ViewsDir : string := "views".
Definition PartialsDir : string := "partials".
Definition LayoutsDir : string := "layouts".
Definition SystemDir : string := "system".
End constants.

(** ** [io/fs] and [html/template], as the adapter uses them *)

Module fs.

(** One call of the [fs.WalkDir] callback: the path, whether the entry
    is a directory, and the error the walk reports for it, if any. *)
Record WalkStep : Type := mkStep {
  path : string;
  IsDir : bool;
  walkErr : option error;
}.

(** [fs.WalkDir(fsys, root, fn)] on the sequence of entries it visits:
    [fn] is called on each in turn and the first error it returns ends
    the walk.  The state [fn] updates is threaded through and is kept
    as it stands when the walk ends. *)
Fixpoint walk {S E : Type} (fn : S -> WalkStep -> S * option E)
    (steps : list WalkStep) (s : S) : S * option E :=
  match steps with
  | [] => (s, None)
  | step :: rest =>
      match fn s step with
      | (s', Some e) => (s', Some e)
      | (s', None) => walk fn rest s'
      end
  end.

End fs.

Module template.

(** The file systems and the template engine are outside the
    repository.  [Open] tells whether [fsys.Open(name)] succeeds,
    [WalkDir] gives the entries [fs.WalkDir] visits under a root;
    [New] is [template.New(name).Funcs(funcMap)]; [ParseFS] is handed
    [None] when the file system is nil; [ExecuteTemplate] returns what
    it wrote to the buffer together with its error, if any. *)
Class Engine : Type := {
  FS : Type;
  Template : Type;
  Open : FS -> string -> bool;
  WalkDir : FS -> string -> list fs.WalkStep;
  New : string -> gset string -> Template;
  Clone : Template -> result Template;
  ParseFS : Template -> option FS -> string -> result Template;
  ExecuteTemplate : Template -> string -> response.PageData -> string * option error;
}.

End template.

(** ** The template adapter (adapter_template.go, adapter_template_render.go) *)

Module TemplateAdapter.
Section Methods.
Context `{template.Engine}.

(** What [debug.Stack()] returns when [RenderSystemError] runs. *)
Variable debug_Stack : string.

(** [type TemplateAdapter struct]. *)
Record TemplateAdapter : Type := mkAdapter {
  extension : string;
  fileSystemMap : gmap string template.FS;
  funcMap : gset string;
  templates : gmap string template.Template;
}.

(** [type TemplateViewAdapterOptions struct]. *)
Record TemplateViewAdapterOptions : Type := mkOptions {
  Extension : string;
  FileSystemMap : gmap string template.FS;
  Funcs : gset string;
}.

(** [NewTemplateViewAdapter]; [base] is the package-level function map
    the options are merged into. *)
Definition NewTemplateViewAdapter (base : gset string)
    (opts : TemplateViewAdapterOptions) : TemplateAdapter :=
  let extension :=
    if String.eqb (Extension opts) EmptyString then ".gtml" else Extension opts in
  mkAdapter extension (FileSystemMap opts) (base ∪ Funcs opts) ∅.

Definition setTemplates (a : TemplateAdapter)
    (t : gmap string template.Template) : TemplateAdapter :=
  mkAdapter (extension a) (fileSystemMap a) (funcMap a) t.

(** The callback [processPartials] of [loadPartials]. *)
Definition processPartials (a : TemplateAdapter) (fsys : template.FS)
    (baseTemplate : template.Template) (step : fs.WalkStep)
  : template.Template * option error :=
  match fs.walkErr step with
  | Some err => (baseTemplate, Some err)
  | None =>
      if negb (fs.IsDir step) && String.eqb (filepath.Ext (fs.path step)) (extension a)
      then match template.ParseFS baseTemplate (Some fsys) (fs.path step) with
           | Err err => (baseTemplate, Some err)
           | Ok t => (t, None)
           end
      else (baseTemplate, None)
  end.

(** The loop over the file systems in [loadPartials], in the order
    [order] in which the map is ranged over. *)
Fixpoint loadPartialsFrom (a : TemplateAdapter) (order : list (string * template.FS))
    (baseTemplate : template.Template) : result template.Template :=
  match order with
  | [] => Ok baseTemplate
  | (_, fsys) :: rest =>
      if template.Open fsys constants.PartialsDir then
        match fs.walk (processPartials a fsys)
                (template.WalkDir fsys constants.PartialsDir) baseTemplate with
        | (_, Some err) => Err err
        | (baseTemplate, None) => loadPartialsFrom a rest baseTemplate
        end
      else loadPartialsFrom a rest baseTemplate
  end.

(** [loadPartials]. *)
Definition loadPartials (a : TemplateAdapter) (order : list (string * template.FS))
  : result template.Template :=
  loadPartialsFrom a order (template.New "base" (funcMap a)).

(** The callback [processDirectory] of [Init]; the state is the
    template cache [a.templates].  [template.Must] panics. *)
Definition processDirectory (a : TemplateAdapter) (fsID : string) (fsys : template.FS)
    (baseTemplate : template.Template) (cache : gmap string template.Template)
    (step : fs.WalkStep) : gmap string template.Template * option abort :=
  match fs.walkErr step with
  | Some err => (cache, Some (ByError err))
  | None =>
      if negb (fs.IsDir step) && String.eqb (filepath.Ext (fs.path step)) (extension a)
      then
        match filepath.Rel (fs.path step) with
        | Err err => (cache, Some (ByError err))
        | Ok relPath =>
            let pageName := strings.TrimSuffix relPath (filepath.Ext relPath) in
            let pageName :=
              if negb (String.eqb fsID constants.RootFSID)
              then fsID ++ ":" ++ pageName else pageName in
            match template.Clone baseTemplate with
            | Err err => (cache, Some (ByPanic err))
            | Ok clone =>
                match template.ParseFS clone (Some fsys) (fs.path step) with
                | Err err => (cache, Some (ByError err))
                | Ok tmpl => (<[pageName := tmpl]> cache, None)
                end
            end
        end
      else (cache, None)
  end.

(** The loop over the file systems in [Init]. *)
Fixpoint processAll (a : TemplateAdapter) (order : list (string * template.FS))
    (baseTemplate : template.Template) (cache : gmap string template.Template)
  : gmap string template.Template * outcome :=
  match order with
  | [] => (cache, Success)
  | (fsID, fsys) :: rest =>
      if template.Open fsys constants.ViewsDir then
        match fs.walk (processDirectory a fsID fsys baseTemplate)
                (template.WalkDir fsys constants.ViewsDir) cache with
        | (cache, Some stop) => (cache, ended stop)
        | (cache, None) => processAll a rest baseTemplate cache
        end
      else processAll a rest baseTemplate cache
  end.

(** [Init], with the orders in which its two loops range over
    [a.fileSystemMap].  The adapter is updated in place: the result
    holds it as [Init] leaves it, also when [Init] fails. *)
Definition InitIn (partialsOrder viewsOrder : list (string * template.FS))
    (a : TemplateAdapter) : TemplateAdapter * outcome :=
  let a := setTemplates a ∅ in
  match loadPartials a partialsOrder with
  | Err err => (a, Failure (errors.Wrap "error loading partials. " err))
  | Ok baseTemplate =>
      let '(cache, res) := processAll a viewsOrder baseTemplate (templates a) in
      (setTemplates a cache, res)
  end.

(** [Init] under the iteration order of the model's maps. *)
Definition Init (a : TemplateAdapter) : TemplateAdapter * outcome :=
  InitIn (map_to_list (fileSystemMap a)) (map_to_list (fileSystemMap a)) a.

(** [viewsPath]. *)
Definition viewsPath (path : list string) : string :=
  constants.ViewsDir ++ "/" ++ strings.Join path "/".

(** [handleError]. *)
Definition handleError (w : http.ResponseWriter) (r : http.Request)
    (err : option error) : http.ResponseWriter :=
  match err with
  | Some err => http.Error w (errors.Error err) http.StatusInternalServerError
  | None => w
  end.

(** [getTemplate]. *)
Definition getTemplate (a : TemplateAdapter) (resp : response.Response)
  : result template.Template :=
  match templates a !! response.templatePath resp with
  | None =>
      Err (errors.New ("template not found: " ++ response.templatePath resp))
  | Some pageTmpl =>
      match template.Clone pageTmpl with
      | Err err => Err (errors.Wrap "error cloning template: " err)
      | Ok tmpl =>
          let layoutPath :=
            constants.LayoutsDir ++ "/" ++ response.templateLayout resp ++ extension a in
          match template.ParseFS tmpl (fileSystemMap a !! constants.RootFSID) layoutPath with
          | Err err => Err (errors.Wrap "error parsing layout: " err)
          | Ok tmpl => Ok tmpl
          end
      end
  end.

(** The loop [for key, value := range resp.Headers() { w.Header().Set(key, value) }]. *)
Definition setAll (headers : gmap string string) (w : http.ResponseWriter)
  : http.ResponseWriter :=
  map_fold (λ key value w, http.SetHeader key value w) w headers.

(** [execTemplate].  [buf.WriteTo(w)] cannot fail on the recorder. *)
Definition execTemplate (a : TemplateAdapter) (w : http.ResponseWriter)
    (r : http.Request) (resp : response.Response) (tmpl : template.Template)
  : http.ResponseWriter :=
  let '(buf, err) :=
    template.ExecuteTemplate tmpl "layout" (response.ViewData_Data r resp) in
  match err with
  | Some err =>
      let path := viewsPath [constants.SystemDir; "server-error"] in
      if String.eqb (response.templatePath resp) path then
        http.Error w (errors.Error (errors.Wrap "error executing template: " err))
          http.StatusInternalServerError
      else
        handleError w r (Some (errors.Wrap "error executing template: " err))
  | None =>
      let w := setAll (response.headers resp) w in
      match http.WriteHeader (response.statusCode resp) w with
      | Some w => http.Write buf w
      | None => http.panic w
      end
  end.

(** [Render]. *)
Definition Render (a : TemplateAdapter) (w : http.ResponseWriter)
    (r : http.Request) (resp : response.Response) : http.ResponseWriter :=
  match getTemplate a resp with
  | Err err => handleError w r (Some err)
  | Ok tmpl => execTemplate a w r resp tmpl
  end.

(** The fixed error pages: the system template when it is cached, the
    plain-text fallback otherwise. *)
Definition renderSystemPage (a : TemplateAdapter) (w : http.ResponseWriter)
    (r : http.Request) (resp : response.Response)
    (name text : string) (code : Z) : http.ResponseWriter :=
  let path := viewsPath [constants.SystemDir; name] in
  match templates a !! path with
  | Some _ => Render a w r (response.Path path resp)
  | None => http.Error w text code
  end.

Definition RenderForbidden a w r resp :=
  renderSystemPage a w r resp "403" "Forbidden" http.StatusForbidden.
Definition RenderMaintenance a w r resp :=
  renderSystemPage a w r resp "503" "Maintenance" http.StatusServiceUnavailable.
Definition RenderMethodNotAllowed a w r resp :=
  renderSystemPage a w r resp "405" "Method Not Allowed" http.StatusMethodNotAllowed.
Definition RenderNotFound a w r resp :=
  renderSystemPage a w r resp "404" "Not Found" http.StatusNotFound.
Definition RenderUnauthorized a w r resp :=
  renderSystemPage a w r resp "401" "Unauthorized" http.StatusUnauthorized.

(** The text [lineErrors] that [RenderSystemError] builds from the
    lines of the stack trace. *)
Fixpoint traceLines (i : nat) (lines : list string) : string :=
  match lines with
  | [] => EmptyString
  | line :: rest =>
      let line := strings.ReplaceAll line "009" "    " in
      ("--- traceLine" ++ strings.pad3 i ++ ": " ++ line ++ strings.nl)
      ++ traceLines (S i) rest
  end.

(** [RenderSystemError]. *)
Definition RenderSystemError (a : TemplateAdapter) (w : http.ResponseWriter)
    (r : http.Request) (err : error) (resp : response.Response)
  : http.ResponseWriter :=
  let lineErrors := traceLines 0 (strings.Split debug_Stack "010") in
  let path := viewsPath [constants.SystemDir; "500"] in
  match templates a !! path with
  | Some _ =>
      let resp :=
        response.StatusError
          (response.SetErrors (errors.Error err) {[ "LineErrors" := lineErrors ]}
             (response.Path path resp)) in
      Render a w r resp
  | None => http.Error w (errors.Error err) http.StatusInternalServerError
  end.

End Methods.
End TemplateAdapter.

(** ** The adapter interface (adapter.go) *)

Module adapter.

(** [type Adapter interface].  A method returns the receiver as it
    leaves it, next to what it did to the response writer. *)
Class Adapter (A : Type) : Type := {
  Init : A -> A * outcome;
  Render : A -> http.ResponseWriter -> http.Request -> response.Response
           -> A * http.ResponseWriter;
  RenderForbidden : A -> http.ResponseWriter -> http.Request -> response.Response
                    -> A * http.ResponseWriter;
  RenderMaintenance : A -> http.ResponseWriter -> http.Request -> response.Response
                      -> A * http.ResponseWriter;
  RenderMethodNotAllowed : A -> http.ResponseWriter -> http.Request -> response.Response
                           -> A * http.ResponseWriter;
  RenderNotFound : A -> http.ResponseWriter -> http.Request -> response.Response
                   -> A * http.ResponseWriter;
  RenderSystemError : A -> http.ResponseWriter -> http.Request -> error
                      -> response.Response -> A * http.ResponseWriter;
  RenderUnauthorized : A -> http.ResponseWriter -> http.Request -> response.Response
                       -> A * http.ResponseWriter;
}.

(** A value of the interface type: an implementation and its state. *)
Record Object : Type := mkObject {
  impl : Type;
  methods : Adapter impl;
  self : impl;
}.

(** Adapters are held through pointers: the objects live in a store. *)
Abbreviation ref := nat.
Abbreviation store := (gmap ref Object).

(** The template adapter implements the interface. *)
#[export] Instance TemplateAdapter_Adapter `{template.Engine} (debug_Stack : string)
  : Adapter TemplateAdapter.TemplateAdapter := {
  Init a := TemplateAdapter.Init a;
  Render a w r resp := (a, TemplateAdapter.Render a w r resp);
  RenderForbidden a w r resp := (a, TemplateAdapter.RenderForbidden a w r resp);
  RenderMaintenance a w r resp := (a, TemplateAdapter.RenderMaintenance a w r resp);
  RenderMethodNotAllowed a w r resp :=
    (a, TemplateAdapter.RenderMethodNotAllowed a w r resp);
  RenderNotFound a w r resp := (a, TemplateAdapter.RenderNotFound a w r resp);
  RenderSystemError a w r err resp :=
    (a, TemplateAdapter.RenderSystemError debug_Stack a w r err resp);
  RenderUnauthorized a w r resp := (a, TemplateAdapter.RenderUnauthorized a w r resp);
}.

(** [type JSONAdapter struct{}] implements the interface. *)
#[export] Instance JSONAdapter_Adapter `{json.Encoder} : Adapter unit := {
  Init v := (v, match JSONAdapter.Init with Some e => Failure e | None => Success end);
  Render v w r resp := (v, JSONAdapter.Render w r resp);
  RenderForbidden v w r resp := (v, JSONAdapter.RenderForbidden w);
  RenderMaintenance v w r resp := (v, JSONAdapter.RenderMaintenance w);
  RenderMethodNotAllowed v w r resp := (v, JSONAdapter.RenderMethodNotAllowed w);
  RenderNotFound v w r resp := (v, JSONAdapter.RenderNotFound w);
  RenderSystemError v w r err resp := (v, JSONAdapter.RenderSystemError w r err resp);
  RenderUnauthorized v w r resp := (v, JSONAdapter.RenderUnauthorized w);
}.

End adapter.

(** ** The dispatch facade *)

Module HyperView.

(** [type HyperView struct]; the fields that only the constructor
    reads (file systems, function map), the logger and the lock are
    left out. *)
Record HyperView : Type := mkHyperView {
  adapters : gmap string adapter.ref;
  baseLayout : string;
  systemLayout : string;
}.

Definition setAdapters (s : HyperView) (m : gmap string adapter.ref) : HyperView :=
  mkHyperView m (baseLayout s) (systemLayout s).

(** A method call through the interface value at [a].  [None] is the
    panic of a call through a nil interface. *)
Definition call {R : Type} (σ : adapter.store) (a : adapter.ref)
    (method : forall A : Type, adapter.Adapter A -> A -> A * R)
  : option (adapter.store * R) :=
  match σ !! a with
  | None => None
  | Some (adapter.mkObject A M self) =>
      let '(self', res) := method A M self in
      Some (<[a := adapter.mkObject A M self']> σ, res)
  end.

(** [RegisterAdapter]. *)
Definition RegisterAdapter (name : string) (a : adapter.ref)
    (s : HyperView) (σ : adapter.store)
  : HyperView * option (adapter.store * outcome) :=
  let s := setAdapters s (<[name := a]> (adapters s)) in
  (s, a' ← adapters s !! name; call σ a' (λ A M self, adapter.Init self)).

(** [Adapter]: the pair [(adapter, ok)] as an option. *)
Definition Adapter (s : HyperView) (name : string) : option adapter.ref :=
  adapters s !! name.

(** [adapterFor]. *)
Definition adapterFor (s : HyperView) (w : http.ResponseWriter) (key : string)
  : option adapter.ref * http.ResponseWriter :=
  let key := if String.eqb key EmptyString then "html" else key in
  match Adapter s key with
  | None => (None, http.Error w "Adapter not found" http.StatusInternalServerError)
  | Some a => (Some a, w)
  end.

(** [RenderAs]. *)
Definition RenderAs (s : HyperView) (σ : adapter.store) (w : http.ResponseWriter)
    (r : http.Request) (adapterKey : string) (resp : response.Response)
  : option (adapter.store * http.ResponseWriter) :=
  match adapterFor s w adapterKey with
  | (Some a, w) =>
      let resp :=
        if String.eqb (response.templateLayout resp) EmptyString
        then response.Layout (baseLayout s) resp else resp in
      call σ a (λ A M self, adapter.Render self w r resp)
  | (None, w) => Some (σ, w)
  end.

(** [Render]. *)
Definition Render (s : HyperView) (σ : adapter.store) (w : http.ResponseWriter)
    (r : http.Request) (resp : response.Response)
  : option (adapter.store * http.ResponseWriter) :=
  let idx := strings.LastIndex (response.templatePath resp) "." in
  let '(ext, resp) :=
    if negb (idx =? -1)
    then (strings.slice_from (response.templatePath resp) idx,
          response.Path (strings.slice_to (response.templatePath resp) idx) resp)
    else (EmptyString, resp) in
  if String.eqb (http.Get (response.HTTPHeader resp) "Content-Type") "application/json"
  then RenderAs s σ w r "json" resp
  else if String.eqb ext EmptyString || String.eqb ext ".html"
  then RenderAs s σ w r "html" resp
  else RenderAs s σ w r (strings.slice_from ext 1) resp.

(** [NewResponse] and [NewSystemResponse]; [v] is the address of the
    new response's view data. *)
Definition NewResponse (s : HyperView) (v : response.loc) (layout : string)
  : response.Response :=
  response.Layout layout (response.NewResponse v).
Definition NewSystemResponse (s : HyperView) (v : response.loc) : response.Response :=
  response.Layout (systemLayout s) (response.NewResponse v).

(** [RenderNotFoundAs] and [RenderSystemErrorAs]. *)
Definition RenderNotFoundAs (s : HyperView) (σ : adapter.store)
    (w : http.ResponseWriter) (r : http.Request) (adapterKey : string)
    (v : response.loc) : option (adapter.store * http.ResponseWriter) :=
  match adapterFor s w adapterKey with
  | (Some a, w) =>
      call σ a (λ A M self,
        adapter.RenderNotFound self w r (response.StatusNotFound (NewSystemResponse s v)))
  | (None, w) => Some (σ, w)
  end.

Definition RenderSystemErrorAs (s : HyperView) (σ : adapter.store)
    (w : http.ResponseWriter) (r : http.Request) (adapterKey : string) (err : error)
    (v : response.loc) : option (adapter.store * http.ResponseWriter) :=
  match adapterFor s w adapterKey with
  | (Some a, w) =>
      call σ a (λ A M self,
        adapter.RenderSystemError self w r err
          (response.StatusError (NewSystemResponse s v)))
  | (None, w) => Some (σ, w)
  end.

Section Redirect.
Context `{http.URLRules} `{json.Encoder}.

(** [HxRedirect]. *)
Definition HxRedirect (s : HyperView) (w : http.ResponseWriter) (url : string)
  : http.ResponseWriter :=
  let w := http.SetHeader htmx.HXRedirect url w in
  match http.WriteHeader http.StatusSeeOther w with
  | Some w => http.Write "redirecting..." w
  | None => http.panic w
  end.

(** [Redirect].  The error of [json.Marshal] is dropped; the bytes are
    then nil and nothing is appended. *)
Definition Redirect (s : HyperView) (w : http.ResponseWriter) (r : http.Request)
    (url : string) : http.ResponseWriter :=
  if htmx.IsHtmxRequest r then HxRedirect s w url
  else if request.IsXMLHttpRequest r then
    let w := http.SetHeader "Content-Type" "application/json" w in
    match http.WriteHeader http.StatusOK w with
    | Some w =>
        let data : gmap string string :=
          {[ "status" := "redirect"; "message" := "redirecting..."; "url" := url ]} in
        let jsonBytes :=
          match json.Marshal (json.OfStrings data) with
          | Ok b => b
          | Err _ => EmptyString
          end in
        http.Write jsonBytes w
    | None => http.panic w
    end
  else http.Redirect w r url http.StatusFound.

End Redirect.

End HyperView.

(** ** Package [funcs]: the template helpers *)

Module funcs.

(** How a helper that indexes or slices ends: with its value, with an
    error, or with the runtime panic of an index or a slice bound out
    of range. *)
Inductive run (A : Type) : Type :=
| Value (a : A)
| Error (e : error)
| Crash.
Arguments Value {A} a.
Arguments Error {A} e.
Arguments Crash {A}.

(** A value handed through a variadic [...any] parameter, as the
    helpers tell them apart by type assertion: a string, a boolean, or
    something else. *)
Inductive arg : Type :=
| AStr (s : string)
| ABool (b : bool)
| AInt (n : Z)
| ANil.

(** [fmt.Sprintf("%d", i)] for a non-negative [i]. *)
Definition decimal (i : nat) : string := NilZero.string_of_uint (Nat.to_uint i).

(** The loop of [ClassMap]: [classMap[i]] is asserted to be a string,
    then [classMap[i+1]] to be a boolean. *)
Fixpoint classMapLoop (classMap : list arg) (classes : list string)
  : run (list string) :=
  match classMap with
  | [] => Value classes
  | first :: rest =>
      match first with
      | AStr className =>
          match rest with
          | [] => Crash
          | ABool condition :: rest' =>
              classMapLoop rest'
                (if condition then (classes ++ [className])%list else classes)
          | _ :: _ => Error (errors.New "expected second argument to be a boolean")
          end
      | _ => Error (errors.New "expected first argument to be a string")
      end
  end.

(** [ClassMap]. *)
Definition ClassMap (classMap : list arg) : run string :=
  if negb (Nat.eqb (length classMap mod 2) 0)
  then Error (errors.New "ClassMap expects an even number of arguments")
  else match classMapLoop classMap [] with
       | Value classes => Value (strings.Join classes " ")
       | Error e => Error e
       | Crash => Crash
       end.

(** [Truncate]; [len(s)] and [n] are integers, and [s[:n]] panics for a
    negative [n]. *)
Definition Truncate (s : string) (n : Z) : run string :=
  if Z.of_nat (String.length s) <=? n then Value s
  else if n <? 0 then Crash
  else Value (strings.slice_to s n ++ "...").

(** What [Slugify] writes for one byte.  Ranging over the string yields
    a rune of at most [unicode.MaxASCII] exactly for each byte below
    128; every other byte belongs to a rune above it (or to an invalid
    sequence, read as U+FFFD) and is skipped. *)
Definition isUpperByte (n : nat) : bool := ((65 <=? n) && (n <=? 90))%nat.
Definition isLowerByte (n : nat) : bool := ((97 <=? n) && (n <=? 122))%nat.
Definition isDigitByte (n : nat) : bool := ((48 <=? n) && (n <=? 57))%nat.
Definition isSpaceByte (n : nat) : bool :=
  (((9 <=? n) && (n <=? 13)) || (n =? 32))%nat.

Definition slugByte (c : ascii) : option ascii :=
  let n := nat_of_ascii c in
  if (127 <? n)%nat then None
  else if isUpperByte n then Some (ascii_of_nat (n + 32))
  else if isLowerByte n then Some c
  else if isDigitByte n || (n =? 95)%nat || (n =? 45)%nat then Some c
  else if isSpaceByte n then Some "-"%char
  else None.

(** [Slugify]. *)
Fixpoint Slugify (s : string) : string :=
  match s with
  | EmptyString => EmptyString
  | String c s' =>
      match slugByte c with
      | Some b => String b (Slugify s')
      | None => Slugify s'
      end
  end.

(** [strings.TrimSpace] removes leading and trailing Unicode white
    space; which runes count is the library's business and is left
    open. *)
Class Spaces : Type := {
  TrimSpace : string -> string;
}.

(** [IsBlank] and [NotBlank]. *)
Definition IsBlank `{Spaces} (s : string) : bool :=
  Nat.eqb (String.length (TrimSpace s)) 0.
Definition NotBlank `{Spaces} (s : string) : bool := negb (IsBlank s).

(** The loop of [Srcset]: [i] is the index of the next width.  Slicing
    at [strings.LastIndex(src, ".")] panics when [src] has no dot. *)
Fixpoint srcsetLoop (src : string) (i : nat) (widths : list string) (srcset : string)
  : run string :=
  match widths with
  | [] => Value srcset
  | w :: rest =>
      let srcset := if (0 <? i)%nat then srcset ++ ", " else srcset in
      let idx := strings.LastIndex src "." in
      if idx <? 0 then Crash
      else
        let ext := strings.slice_from src idx in
        let w :=
          if negb (strings.HasSuffix w "w") && negb (strings.HasSuffix w "x")
          then w ++ "w" else w in
        srcsetLoop src (S i) rest (srcset ++ strings.slice_to src idx ++ "-" ++ w ++ ext)
  end.

(** [Srcset]. *)
Definition Srcset `{Spaces} (src : string) (widths : list string) : run string :=
  if String.eqb (TrimSpace src) EmptyString then Value EmptyString
  else srcsetLoop src 0 widths EmptyString.

(** A value of the map that [InputAttrs] returns: a text, or the map of
    the remaining attributes. *)
Inductive field : Type :=
| Text (s : string)
| Attrs (m : gmap string string).

(** The loop of [attrsToMap] from position [i] on; the state is the
    pair of [data] and [attributes]. *)
Fixpoint attrsLoop (specialAttrs : gmap string string) (i : nat) (attrs : list arg)
    (data : gmap string field) (attributes : gmap string string)
  : run (gmap string field * gmap string string) :=
  match attrs with
  | [] => Value (data, attributes)
  | first :: rest =>
      match first with
      | AStr key =>
          match rest with
          | [] => Crash
          | second :: rest' =>
              let value := match second with
                           | AStr s => s
                           | _ => EmptyString
                           end in
              match specialAttrs !! key with
              | Some sk =>
                  attrsLoop specialAttrs (i + 2) rest' (<[sk := Text value]> data) attributes
              | None =>
                  attrsLoop specialAttrs (i + 2) rest' data (<[key := value]> attributes)
              end
          end
      | _ =>
          Error (errors.New ("[InputAttrs] attribute key at position " ++ decimal i
                             ++ " is not a string"))
      end
  end.

(** [attrsToMap]. *)
Definition attrsToMap (data : gmap string field) (specialAttrs : gmap string string)
    (attrs : list arg) : run (gmap string field) :=
  let data := match data !! "Hyperscript" with
              | Some _ => data
              | None => <["Hyperscript" := Text EmptyString]> data
              end in
  let data := match data !! "Class" with
              | Some _ => data
              | None => <["Class" := Text EmptyString]> data
              end in
  let specialAttrs :=
    match specialAttrs !! "class" with
    | Some _ => specialAttrs
    | None =>
        <["hyperscript" := "Hyperscript"]>
          (<["_" := "Hyperscript"]> (<["class" := "Class"]> specialAttrs))
    end in
  match attrsLoop specialAttrs 0 attrs data ∅ with
  | Value (data, attributes) => Value (<["Attributes" := Attrs attributes]> data)
  | Error e => Error e
  | Crash => Crash
  end.

(** [InputAttrs]. *)
Definition InputAttrs (nameID : string) (attrs : list arg) : run (gmap string field) :=
  if negb (Nat.eqb (length attrs mod 2) 0)
  then Error (errors.New
    "InputAttrs expects attributes as key/value pairs, received odd number of arguments")
  else
    let data : gmap string field :=
      {[ "NameID" := Text nameID; "Error" := Text EmptyString;
         "Hint" := Text EmptyString; "Label" := Text EmptyString;
         "Type" := Text "text" ]} in
    let specialAttrs : gmap string string :=
      {[ "error" := "Error"; "hint" := "Hint"; "label" := "Label"; "type" := "Type" ]} in
    attrsToMap data specialAttrs attrs.

End funcs.

(** ** Package [response]: the other methods of [Data] and the cache headers *)

Module viewdata.

(** [Data.AddData]: the loop assigns into the map [v.pageData] refers
    to, which panics on a nil map; with nothing to add the loop body
    never runs. *)
Definition AddData (v : response.loc) (data : response.PageData) (h : response.heap)
  : option response.heap :=
  o ← response.objects h !! v;
  match response.pageMap o with
  | Some m => Some (response.setMap m (data ∪ response.deref h m) h)
  | None => if bool_decide (data = ∅) then Some h else None
  end.

(** [Data.AddDataItem]. *)
Definition AddDataItem (v : response.loc) (key : string) (value : response.any)
    (h : response.heap) : option response.heap :=
  o ← response.objects h !! v;
  m ← response.pageMap o;
  Some (response.setMap m (<[key := value]> (response.deref h m)) h).

(** [Data.Title]. *)
Definition Title (d : response.Data) : string := response.title d.


(** [HxRedirect] of response_htmx.go. *)
Definition HxRedirect (path : string) (resp : response.Response) : response.Response :=
  response.SetHeader htmx.HXRedirect path resp.

End viewdata.

(** ** The facade: the error pages and [Reinit] *)

Module pages.

(** The shape shared by the [Render...As] methods of the error pages:
    look the adapter up, then call the page's method on it. *)
Definition renderAs (s : HyperView.HyperView) (σ : adapter.store)
    (w : http.ResponseWriter) (adapterKey : string)
    (method : forall A : Type, adapter.Adapter A -> A -> http.ResponseWriter
                               -> A * http.ResponseWriter)
  : option (adapter.store * http.ResponseWriter) :=
  match HyperView.adapterFor s w adapterKey with
  | (Some a, w) => HyperView.call σ a (λ A M self, method A M self w)
  | (None, w) => Some (σ, w)
  end.

(** [RenderMaintenanceAs]. *)
Definition RenderMaintenanceAs (s : HyperView.HyperView) (σ : adapter.store)
    (w : http.ResponseWriter) (r : http.Request) (adapterKey : string)
    (v : response.loc) : option (adapter.store * http.ResponseWriter) :=
  renderAs s σ w adapterKey (λ A M self w,
    adapter.RenderMaintenance self w r
      (response.Status http.StatusServiceUnavailable (HyperView.NewSystemResponse s v))).

(** [RenderForbiddenAs]. *)
Definition RenderForbiddenAs (s : HyperView.HyperView) (σ : adapter.store)
    (w : http.ResponseWriter) (r : http.Request) (adapterKey : string)
    (v : response.loc) : option (adapter.store * http.ResponseWriter) :=
  renderAs s σ w adapterKey (λ A M self w,
    adapter.RenderForbidden self w r
      (response.StatusForbidden (HyperView.NewSystemResponse s v))).

(** [RenderMethodNotAllowedAs]. *)
Definition RenderMethodNotAllowedAs (s : HyperView.HyperView) (σ : adapter.store)
    (w : http.ResponseWriter) (r : http.Request) (adapterKey : string)
    (v : response.loc) : option (adapter.store * http.ResponseWriter) :=
  renderAs s σ w adapterKey (λ A M self w,
    adapter.RenderMethodNotAllowed self w r
      (response.Status http.StatusMethodNotAllowed (HyperView.NewSystemResponse s v))).

(** [RenderUnauthorizedAs]. *)
Definition RenderUnauthorizedAs (s : HyperView.HyperView) (σ : adapter.store)
    (w : http.ResponseWriter) (r : http.Request) (adapterKey : string)
    (v : response.loc) : option (adapter.store * http.ResponseWriter) :=
  renderAs s σ w adapterKey (λ A M self w,
    adapter.RenderUnauthorized self w r
      (response.StatusUnauthorized (HyperView.NewSystemResponse s v))).

(** The loop of [Reinit] over the adapters, in the order [order] in
    which the registry is ranged over. *)
Fixpoint ReinitIn (order : list adapter.ref) (σ : adapter.store)
  : option (adapter.store * outcome) :=
  match order with
  | [] => Some (σ, Success)
  | a :: rest =>
      match HyperView.call σ a (λ A M self, adapter.Init self) with
      | None => None
      | Some (σ, Success) => ReinitIn rest σ
      | Some (σ, err) => Some (σ, err)
      end
  end.

(** [Reinit] under the iteration order of the model's maps. *)
Definition Reinit (s : HyperView.HyperView) (σ : adapter.store)
  : option (adapter.store * outcome) :=
  ReinitIn (snd <$> map_to_list (HyperView.adapters s)) σ.

End pages.

(** ** Concrete engines, encoders and adapters

    Small instances of the open interfaces, used to run the model on
    concrete inputs. *)

Module samples.

(** A file system given by the entries a walk visits under each root
    directory and by the files whose parsing fails. *)
Record listFS : Type := mkListFS {
  dirs : list (string * list fs.WalkStep);
  unparsable : list string;
}.

Definition entries (fsys : listFS) (root : string) : option (list fs.WalkStep) :=
  snd <$> List.find (λ d, String.eqb (fst d) root) (dirs fsys).

(** A template is the list of the files parsed into it.  Executing it
    fails, after some output, when [views/broken.tmpl] is among them. *)
#[export] Instance listEngine : template.Engine := {
  template.FS := listFS;
  template.Template := list string;
  template.Open fsys name := bool_decide (is_Some (entries fsys name));
  template.WalkDir fsys root := default [] (entries fsys root);
  template.New _ _ := [];
  template.Clone t := Ok t;
  template.ParseFS t fsys p :=
    match fsys with
    | None => Err (errors.New ("open " ++ p ++ ": file does not exist"))
    | Some fsys =>
        if bool_decide (p ∈ unparsable fsys)
        then Err (errors.New ("template: " ++ p ++ ": unexpected EOF"))
        else Ok (t ++ [p])%list
    end;
  template.ExecuteTemplate t name data :=
    if bool_decide ("views/broken.tmpl" ∈ t)
    then ("<html><head>", Some (errors.New "template: no template for partial"))
    else ("<html>" ++ strings.Join t ";" ++ "</html>", None);
}.

(** An encoder that writes the status tag and the message of an
    envelope, and the number of entries of a string map. *)
#[export] Instance tagEncoder : json.Encoder := {
  json.indent v :=
    match v with
    | json.OfEnvelope e => json.Status e ++ ": " ++ json.Message e
    | json.OfStrings m => "strings: " ++ strings.pad3 (size m)
    end;
  json.compact v :=
    match v with
    | json.OfEnvelope e => json.Status e ++ ": " ++ json.Message e
    | json.OfStrings m => "strings: " ++ strings.pad3 (size m)
    end;
}.

(** Targets are sent as they are given. *)
#[export] Instance plainURLs : http.URLRules := {
  http.location _ url := url;
  http.htmlEscape url := url;
}.

(** [type mockViewAdapter struct] of hypergo_test.go: the state is the
    flag [renderCalled]. *)
#[export] Instance mockViewAdapter : adapter.Adapter bool := {
  adapter.Init ma := (ma, Success);
  adapter.Render ma w r resp := (true, w);
  adapter.RenderForbidden ma w r resp := (ma, w);
  adapter.RenderMaintenance ma w r resp := (ma, w);
  adapter.RenderMethodNotAllowed ma w r resp := (ma, w);
  adapter.RenderNotFound ma w r resp := (ma, w);
  adapter.RenderSystemError ma w r err resp := (ma, w);
  adapter.RenderUnauthorized ma w r resp := (ma, w);
}.

Definition mock (renderCalled : bool) : adapter.Object :=
  adapter.mkObject bool mockViewAdapter renderCalled.

(** A GET request with the given headers. *)
Definition get (hs : list (string * string)) : http.Request :=
  http.mkRequest "GET" "/" (list_to_map ((λ kv, (fst kv, [snd kv])) <$> hs)).

(** A root file system with a layout, two pages, the system error page
    and one partial; [views/broken.tmpl] parses but fails to execute. *)
Definition file (p : string) : fs.WalkStep := fs.mkStep p false None.
Definition dir (p : string) : fs.WalkStep := fs.mkStep p true None.

Definition siteFS (unparsable : list string) : listFS :=
  mkListFS
    [ ("partials", [dir "partials"; file "partials/nav.tmpl"]);
      ("views", [dir "views"; file "views/broken.tmpl"; file "views/home.tmpl";
                 dir "views/layouts"; file "views/layouts/base.tmpl";
                 dir "views/system"; file "views/system/500.tmpl"]) ]
    unparsable.

Definition siteAdapter (unparsable : list string)
  : TemplateAdapter.TemplateAdapter :=
  TemplateAdapter.NewTemplateViewAdapter ∅
    (TemplateAdapter.mkOptions ".tmpl"
       {[ constants.RootFSID := siteFS unparsable ]} ∅).

(** The adapter after a successful [Init]. *)
Definition site : TemplateAdapter.TemplateAdapter :=
  fst (TemplateAdapter.Init (siteAdapter [])).

End samples.

(** ** The specification's statements, as definitions

    Where a property of the specification describes a computation, it
    is written down here in the specification's words, to be compared
    with the code. *)

Module claimed.

Section Recovery.
Context `{template.Engine}.

(** The system error page that [RenderSystemError] renders. *)
Definition systemErrorPage : string :=
  TemplateAdapter.viewsPath [constants.SystemDir; "500"].

(** Execution-failure recovery as section 4.4 words it: render the
    system error page instead, unless the failing template is that
    page, in which case answer with a raw plain-text 500. *)
Definition recover (debug_Stack : string) (a : TemplateAdapter.TemplateAdapter)
    (w : http.ResponseWriter) (r : http.Request) (resp : response.Response)
    (err : error) : http.ResponseWriter :=
  if String.eqb (response.templatePath resp) systemErrorPage
  then http.Error w (errors.Error err) http.StatusInternalServerError
  else TemplateAdapter.RenderSystemError debug_Stack a w r err resp.

End Recovery.

Section Routing.
Context `{json.Encoder}.

(** The response after the default status is applied. *)
Definition defaulted (resp : response.Response) : response.Response :=
  if response.statusCode resp =? 0 then response.Status http.StatusOK resp else resp.

(** The envelope section 4.5 assigns to a response: "fail" above 299,
    "success" otherwise, with the status as code and the page data as
    payload. *)
Definition envelope (r : http.Request) (resp : response.Response) : json.Envelope :=
  let resp := defaulted resp in
  let data := json.Map (response.ViewData_Data r resp) in
  if response.statusCode resp >? 299
  then json.mkEnvelope "fail" "Failure" data (response.statusCode resp)
  else json.mkEnvelope "success" "Success" data (response.statusCode resp).

(** Status routing of the JSON adapter: the client receives the status
    and that envelope. *)
Definition routed (w : http.ResponseWriter) (r : http.Request)
    (resp : response.Response) : Prop :=
  let w' := JSONAdapter.Render w r resp in
  http.Code w' = response.statusCode (defaulted resp)
  /\ http.Body w'
     = http.Body w ++ json.indent (json.OfEnvelope (envelope r resp)) ++ strings.nl.

End Routing.

(** The extension of a template path and the path without it. *)
Definition extension (path : string) : string :=
  let idx := strings.LastIndex path "." in
  if idx =? -1 then EmptyString else strings.slice_from path idx.

Definition stem (path : string) : string :=
  let idx := strings.LastIndex path "." in
  if idx =? -1 then path else strings.slice_to path idx.


(** Handing a response to the adapter registered under [key]: the
    adapter renders it, with the base layout if it has none; with no
    such adapter the client gets the 500 diagnostic. *)
Definition handOff (s : HyperView.HyperView) (σ : adapter.store)
    (w : http.ResponseWriter) (r : http.Request) (key : string)
    (resp : response.Response) : option (adapter.store * http.ResponseWriter) :=
  match HyperView.adapters s !! key with
  | None =>
      Some (σ, http.Error w "Adapter not found" http.StatusInternalServerError)
  | Some a =>
      let resp :=
        if String.eqb (response.templateLayout resp) EmptyString
        then response.Layout (HyperView.baseLayout s) resp else resp in
      HyperView.call σ a (λ A M self, adapter.Render self w r resp)
  end.



Section Registry.
Context `{template.Engine}.

(** The registry key [Init] gives to a views file. *)
Definition pageKey (fsID path : string) : string :=
  let pageName := strings.TrimSuffix path (filepath.Ext path) in
  if negb (String.eqb fsID constants.RootFSID) then fsID ++ ":" ++ pageName
  else pageName.



End Registry.

End claimed.

(** ** Concrete inputs *)

Module inputs.
Import samples.

(** A page that renders, a page whose execution fails, and the
    template [getTemplate] builds for the latter. *)
Definition homeResp : response.Response :=
  response.Layout "base" (response.Path "views/home" (response.NewResponse 0)).
Definition brokenResp : response.Response :=
  response.Layout "base" (response.Path "views/broken" (response.NewResponse 0)).
Definition brokenTmpl : list string :=
  ["partials/nav.tmpl"; "views/broken.tmpl"; "layouts/base.tmpl"].
Definition missingResp : response.Response :=
  response.Layout "base" (response.Path "views/nope" (response.NewResponse 0)).

(** A 404 response whose page data holds a function value. *)
Definition callbackResp : response.Response :=
  response.StatusNotFound
    (response.AddData {[ "cb" := response.Func "callback" ]} (response.NewResponse 0)).

(** A 404 response with plain page data. *)
Definition notFoundResp : response.Response :=
  response.StatusNotFound
    (response.AddData {[ "item" := response.Str "book" ]} (response.NewResponse 0)).

(** A facade with the mock registered as "html" and as "json", as in
    TestViewService_Render, and one with "html" alone. *)
Definition twoMocks : HyperView.HyperView :=
  HyperView.mkHyperView {[ "html" := 0%nat; "json" := 1%nat ]} "base" "base".
Definition twoMocksStore : adapter.store :=
  {[ 0%nat := mock false; 1%nat := mock false ]}.
Definition htmlOnly : HyperView.HyperView :=
  HyperView.mkHyperView {[ "html" := 0%nat ]} "base" "base".
Definition htmlOnlyStore : adapter.store := {[ 0%nat := mock false ]}.


(** A facade with nothing registered, and a store that holds, at
    address 7, a template adapter whose [views/home.tmpl] does not
    parse. *)
Definition emptyFacade : HyperView.HyperView :=
  HyperView.mkHyperView ∅ "base" "base".
Definition failingStore : adapter.store :=
  {[ 7%nat := adapter.mkObject TemplateAdapter.TemplateAdapter
                (adapter.TemplateAdapter_Adapter "goroutine 1 [running]:")
                (siteAdapter ["views/home.tmpl"]) ]}.

(** The view-data object built from a nil page-data map. *)
Definition nilData : response.loc * response.heap := response.NewData None ∅.

(** A template path that ends in a dot. *)
Definition dotResp : response.Response :=
  response.Path "sample." (response.NewResponse 0).

End inputs.

(** ** Vocabulary of the further properties *)

Module described.

(** Argument lists made of pairs: a class name and its condition, an
    attribute key and its value. *)
Definition classPairs (pairs : list (string * bool)) : list funcs.arg :=
  flat_map (λ p, [funcs.AStr (fst p); funcs.ABool (snd p)]) pairs.

Definition attrPairs (pairs : list (string * funcs.arg)) : list funcs.arg :=
  flat_map (λ p, [funcs.AStr (fst p); snd p]) pairs.

(** The class names whose condition holds, in the order given. *)
Definition active (pairs : list (string * bool)) : list string :=
  fst <$> List.filter (λ p, snd p) pairs.

(** The bytes a slug is made of. *)
Definition slugAlphabet (c : ascii) : bool :=
  let n := nat_of_ascii c in
  funcs.isLowerByte n || funcs.isDigitByte n || (n =? 95)%nat || (n =? 45)%nat.

Fixpoint allBytes (P : ascii -> bool) (s : string) : bool :=
  match s with
  | EmptyString => true
  | String c s' => P c && allBytes P s'
  end.

(** A width with its descriptor: "w" unless it ends in "w" or "x"; and
    the entry of a srcset for it. *)
Definition descriptor (w : string) : string :=
  if negb (strings.HasSuffix w "w") && negb (strings.HasSuffix w "x")
  then w ++ "w" else w.

Definition srcsetEntry (src w : string) : string :=
  let idx := strings.LastIndex src "." in
  strings.slice_to src idx ++ "-" ++ descriptor w ++ strings.slice_from src idx.

(** The text an attribute value contributes: itself when it is a
    string, the empty string otherwise. *)
Definition text (v : funcs.arg) : string :=
  match v with
  | funcs.AStr s => s
  | _ => EmptyString
  end.

(** The special attributes of an input field, with the field of the
    result each one fills. *)
Definition inputSpecials : gmap string string :=
  {[ "error" := "Error"; "hint" := "Hint"; "label" := "Label"; "type" := "Type";
     "class" := "Class"; "_" := "Hyperscript"; "hyperscript" := "Hyperscript" ]}.

(** The text of the last pair that fills the field [sk], and of the
    last pair with the plain attribute key [k]. *)
Definition lastFor (pairs : list (string * funcs.arg)) (sk : string) : option string :=
  (λ p, text (snd p))
    <$> List.find (λ p, bool_decide (inputSpecials !! fst p = Some sk)) (rev pairs).

Definition lastPlain (pairs : list (string * funcs.arg)) (k : string) : option string :=
  (λ p, text (snd p))
    <$> List.find (λ p, bool_decide (fst p = k ∧ inputSpecials !! k = None)) (rev pairs).

(** One round of the loop of [attrsToMap] on a (key, value) pair. *)
Definition attrStep (specialAttrs : gmap string string)
    (state : gmap string funcs.field * gmap string string) (p : string * funcs.arg)
  : gmap string funcs.field * gmap string string :=
  match specialAttrs !! fst p with
  | Some sk => (<[sk := funcs.Text (text (snd p))]> (fst state), snd state)
  | None => (fst state, <[fst p := text (snd p)]> (snd state))
  end.

(** Two objects whose page data is one and the same map. *)
Definition sharesMap (h : response.heap) (v v' : response.loc) : Prop :=
  exists m : response.mapref,
    response.pageMap <$> response.objects h !! v = Some (Some m)
    /\ response.pageMap <$> response.objects h !! v' = Some (Some m).

(** An object whose page data is the map at [m]. *)
Definition refersTo (h : response.heap) (v : response.loc) (m : response.mapref) : Prop :=
  response.pageMap <$> response.objects h !! v = Some (Some m).

(** Headers merged in the order given: a later map overrides an
    earlier one, and all override [base]. *)
Definition merged (headers : list http.Header) (base : http.Header) : http.Header :=
  foldl (λ acc header, header ∪ acc) base headers.


(** The page the template adapter produces for a response: the output
    of the template, when the template is found, is combined with its
    layout and executes without error. *)
Definition page `{template.Engine} (a : TemplateAdapter.TemplateAdapter)
    (r : http.Request) (resp : response.Response) : option string :=
  match TemplateAdapter.getTemplate a resp with
  | Ok tmpl =>
      match template.ExecuteTemplate tmpl "layout" (response.ViewData_Data r resp) with
      | (buf, None) => Some buf
      | (_, Some _) => None
      end
  | Err _ => None
  end.

(** The recorder [w] after a JSON envelope was sent on it under the
    envelope's code. *)
Definition sentJSON `{json.Encoder} (w : http.ResponseWriter) (e : json.Envelope)
  : http.ResponseWriter :=
  http.mkWriter
    (<["Content-Type" := ["application/json; charset=UTF-8"]]> (http.HeaderMap w))
    true (json.Code e)
    (http.Body w ++ json.indent (json.OfEnvelope e) ++ strings.nl)
    (http.panicked w).

(** The registry key that [adapterFor] looks up for an adapter key. *)
Definition keyOf (adapterKey : string) : string :=
  if String.eqb adapterKey EmptyString then "html" else adapterKey.

(** The six error pages of the facade with their status codes, each as
    the call on a facade, a store, a recorder and an adapter key. *)
Definition errorPages (r : http.Request) (err : error) (v : response.loc)
  : list (Z * (HyperView.HyperView -> adapter.store -> http.ResponseWriter -> string
               -> option (adapter.store * http.ResponseWriter))) :=
  [ (http.StatusNotFound, λ s σ w key, HyperView.RenderNotFoundAs s σ w r key v);
    (http.StatusInternalServerError,
       λ s σ w key, HyperView.RenderSystemErrorAs s σ w r key err v);
    (http.StatusServiceUnavailable, λ s σ w key, pages.RenderMaintenanceAs s σ w r key v);
    (http.StatusForbidden, λ s σ w key, pages.RenderForbiddenAs s σ w r key v);
    (http.StatusMethodNotAllowed,
       λ s σ w key, pages.RenderMethodNotAllowedAs s σ w r key v);
    (http.StatusUnauthorized, λ s σ w key, pages.RenderUnauthorizedAs s σ w r key v) ].

(** A registry that only gained keys. *)
Definition grows {V : Type} (cache cache' : gmap string V) : Prop :=
  forall k : string, is_Some (cache !! k) -> is_Some (cache' !! k).

End described.

(** ** Further concrete instances *)

Module moreSamples.

(** Trimming of the ASCII blanks; it agrees with [strings.TrimSpace] on
    ASCII text. *)
Fixpoint trimLeft (s : string) : string :=
  match s with
  | EmptyString => EmptyString
  | String c s' => if funcs.isSpaceByte (nat_of_ascii c) then trimLeft s' else s
  end.

Fixpoint trimRight (s : string) : string :=
  match s with
  | EmptyString => EmptyString
  | String c s' =>
      match trimRight s' with
      | EmptyString =>
          if funcs.isSpaceByte (nat_of_ascii c) then EmptyString
          else String c EmptyString
      | t => String c t
      end
  end.

#[export] Instance asciiSpaces : funcs.Spaces := {
  funcs.TrimSpace s := trimRight (trimLeft s);
}.

(** A view-data object with a nil page-data map, at address 3. *)
Definition zeroData : response.Data :=
  response.mkData EmptyString None None EmptyString EmptyString.
Definition zeroHeap : response.heap :=
  response.mkHeap
    {[ 3%nat := response.mkObject EmptyString None None EmptyString EmptyString ]} ∅.

(** A view-data object as [NewData] builds it from a map with one
    entry, at address 3; its map is at address 0. *)
Definition itemData : response.Data :=
  response.mkData EmptyString None
    (Some (response.initData (Some {[ "item" := response.Str "book" ]})))
    EmptyString EmptyString.
Definition itemHeap : response.heap :=
  response.mkHeap
    {[ 3%nat := response.mkObject EmptyString None (Some 0%nat) EmptyString EmptyString ]}
    {[ 0%nat := response.initData (Some {[ "item" := response.Str "book" ]}) ]}.

(** Two view-data objects made by [NewData] from one map with one
    entry: the map is at address 0, the objects at 0 and 1. *)
Definition oneMap : response.heap :=
  snd (response.makeMap {[ "item" := response.Str "book" ]} ∅).
Definition twoViews : response.heap :=
  snd (response.NewData (Some 0%nat) (snd (response.NewData (Some 0%nat) oneMap))).


(** The JSON adapter registered as "json" at address 6. *)
Definition jsonFacade : HyperView.HyperView :=
  HyperView.mkHyperView {[ "json" := 6%nat ]} "base" "base".
Definition jsonStore : adapter.store :=
  {[ 6%nat := adapter.mkObject unit (@adapter.JSONAdapter_Adapter samples.tagEncoder) tt ]}.

(** Two template adapters at the addresses 1 and 2, the first with an
    unparsable [views/home.tmpl], the second on which [Init] never
    ran. *)
Definition pairStore : adapter.store :=
  {[ 1%nat := adapter.mkObject TemplateAdapter.TemplateAdapter
                (adapter.TemplateAdapter_Adapter "goroutine 1 [running]:")
                (samples.siteAdapter ["views/home.tmpl"]);
     2%nat := adapter.mkObject TemplateAdapter.TemplateAdapter
                (adapter.TemplateAdapter_Adapter "goroutine 1 [running]:")
                (samples.siteAdapter []) ]}.

(** A response for a page in a directory whose name has a dot. *)
Definition versionedResp : response.Response :=
  response.Path "v1.2/page" (response.NewResponse 0).

End moreSamples.

(** * Properties *)

(** ** The recorder *)

Section Recorder.
Implicit Types (w : http.ResponseWriter) (msg : string) (code : Z).

(** A call of [WriteHeader] that returns. *)
Lemma WriteHeader_accepted w code :
  http.accepts code w = true ->
  http.WriteHeader code w
  = Some (http.mkWriter (http.HeaderMap w) true
            (if http.wroteHeader w then http.Code w else code) (http.Body w)
            (http.panicked w)).
Proof.
  unfold http.accepts, http.WriteHeader. destruct w as [hm [] c b p]; [done|].
  cbn [http.wroteHeader]. rewrite orb_false_r. by intros ->.
Qed.

(** A call of [WriteHeader] that panics. *)
Lemma WriteHeader_refused w code :
  http.accepts code w = false -> http.WriteHeader code w = None.
Proof.
  unfold http.accepts, http.WriteHeader. intros [Hcode Hw]%orb_false_iff.
  by rewrite Hw, Hcode.
Qed.

Lemma Write_spec w b :
  http.Write b w
  = http.mkWriter (http.HeaderMap w) true
      (if http.wroteHeader w then http.Code w else http.StatusOK) (http.Body w ++ b)
      (http.panicked w).
Proof.
  unfold http.Write. rewrite (WriteHeader_accepted w http.StatusOK) by done.
  by destruct (http.wroteHeader w).
Qed.

Lemma Write_after_WriteHeader w code b :
  http.accepts code w = true ->
  match http.WriteHeader code w with
  | Some w1 => http.Write b w1
  | None => http.panic w
  end
  = http.mkWriter (http.HeaderMap w) true
      (if http.wroteHeader w then http.Code w else code) (http.Body w ++ b)
      (http.panicked w).
Proof. intros Hcode. by rewrite WriteHeader_accepted, Write_spec. Qed.

(** What [http.Error] leaves in the recorder, when its status code is
    taken. *)
Lemma Error_spec w msg code :
  http.accepts code w = true ->
  http.Error w msg code
  = http.mkWriter
      (<["X-Content-Type-Options" := ["nosniff"]]>
         (<["Content-Type" := ["text/plain; charset=utf-8"]]>
            (delete "Content-Length" (http.HeaderMap w))))
      true
      (if http.wroteHeader w then http.Code w else code)
      (http.Body w ++ msg ++ strings.nl)
      (http.panicked w).
Proof.
  intros Hcode. unfold http.Error, http.Fprintln. cbv zeta.
  by rewrite Write_after_WriteHeader.
Qed.

Lemma Error_Code w msg code :
  http.accepts code w = true ->
  http.Code (http.Error w msg code) = if http.wroteHeader w then http.Code w else code.
Proof. intros Hcode. by rewrite Error_spec. Qed.

Lemma Error_Body w msg code :
  http.accepts code w = true ->
  http.Body (http.Error w msg code) = http.Body w ++ msg ++ strings.nl.
Proof. intros Hcode. by rewrite Error_spec. Qed.

End Recorder.

(** ** Strings *)

Lemma HasPrefix_app (p s : string) : strings.HasPrefix (p ++ s) p = true.
Proof.
  induction p as [|a p IH]; simpl; [by destruct s|].
  by rewrite Ascii.eqb_refl, IH.
Qed.

Lemma Contains_app_l (p s : string) : strings.Contains (p ++ s) p = true.
Proof. destruct p; simpl; [by destruct s|]. by rewrite Ascii.eqb_refl, HasPrefix_app. Qed.

Lemma Contains_app_r (t p s : string) :
  strings.Contains s p = true -> strings.Contains (t ++ s) p = true.
Proof.
  intros Hs. induction t as [|a t IH]; simpl; [done|].
  rewrite IH. apply orb_true_r.
Qed.

(** ** The template adapter: rendering *)

Section TemplateRender.
Context `{template.Engine}.
Implicit Types (a : TemplateAdapter.TemplateAdapter) (w : http.ResponseWriter)
  (r : http.Request) (resp : response.Response).

(** Copying the custom headers touches the header map only. *)
Lemma setAll_spec (headers : gmap string string) w :
  TemplateAdapter.setAll headers w
  = http.mkWriter (((λ v, [v]) <$> headers) ∪ http.HeaderMap w)
      (http.wroteHeader w) (http.Code w) (http.Body w) (http.panicked w).
Proof.
  unfold TemplateAdapter.setAll.
  apply (map_fold_weak_ind (λ w' m, w' = http.mkWriter
    (((λ v, [v]) <$> m) ∪ http.HeaderMap w) (http.wroteHeader w) (http.Code w) (http.Body w)
    (http.panicked w))).
  - rewrite fmap_empty, (left_id_L ∅ (∪)). by destruct w.
  - intros k v m w' Hk ->. unfold http.SetHeader; simpl.
    by rewrite fmap_insert, insert_union_l.
Qed.

(** C5.  A response whose template path is not a key of the registry:
    [getTemplate] fails with the error "template not found: <path>",
    and [Render] answers with [http.Error] at status 500, so the
    recorder's status becomes 500 (it keeps a status written earlier,
    and is never set to 200 by this call) and the body gains the
    diagnostic line and nothing else. *)
Theorem Render_template_not_found a w r resp :
  TemplateAdapter.templates a !! response.templatePath resp = None ->
  let msg := "template not found: " ++ response.templatePath resp in
  let w' := TemplateAdapter.Render a w r resp in
  TemplateAdapter.getTemplate a resp = Err (errors.New msg)
  /\ strings.Contains msg "template not found" = true
  /\ w' = http.Error w msg http.StatusInternalServerError
  /\ http.wroteHeader w' = true
  /\ http.Code w' = (if http.wroteHeader w then http.Code w else 500)
  /\ http.Body w' = http.Body w ++ msg ++ strings.nl.
Proof.
  intros Hmiss msg w'.
  assert (Hget : TemplateAdapter.getTemplate a resp = Err (errors.New msg)).
  { unfold TemplateAdapter.getTemplate. by rewrite Hmiss. }
  assert (Hw : w' = http.Error w msg http.StatusInternalServerError).
  { subst w'. unfold TemplateAdapter.Render. by rewrite Hget. }
  split; [done|]. split.
  { apply (Contains_app_l "template not found" (": " ++ response.templatePath resp)). }
  split; [done|]. rewrite Hw, Error_spec by done. done.
Qed.

(** C3.  The template is executed into a buffer before anything is
    written.  When execution succeeds, the custom headers are set, then
    the status code is written and the buffer is appended to the body,
    in that order; [WriteHeader] takes a status code from 100 to 999
    and panics on any other (the unset status 0 among them), after the
    headers were set and before a status or a byte is written.  When
    execution fails, whatever the buffer holds is dropped: the recorder
    is left as [http.Error] leaves it, with no custom header set, the
    body extended by the diagnostic line only, and the status 500. *)
Theorem execTemplate_buffered a w r resp tmpl buf err :
  template.ExecuteTemplate tmpl "layout" (response.ViewData_Data r resp) = (buf, err) ->
  http.wroteHeader w = false ->
  let w' := TemplateAdapter.execTemplate a w r resp tmpl in
  match err with
  | None =>
      http.HeaderMap w' = ((λ v, [v]) <$> response.headers resp) ∪ http.HeaderMap w
      /\ if http.checkWriteHeaderCode (response.statusCode resp)
         then http.wroteHeader w' = true
              /\ http.Code w' = response.statusCode resp
              /\ http.Body w' = http.Body w ++ buf
              /\ http.panicked w' = http.panicked w
         else http.panicked w' = true
              /\ http.wroteHeader w' = false
              /\ http.Code w' = http.Code w
              /\ http.Body w' = http.Body w
  | Some e =>
      w' = http.Error w ("error executing template: " ++ errors.Error e)
             http.StatusInternalServerError
      /\ http.Code w' = 500
      /\ http.Body w'
         = http.Body w ++ ("error executing template: " ++ errors.Error e) ++ strings.nl
  end.
Proof.
  intros Hexec Hfresh w'. subst w'. unfold TemplateAdapter.execTemplate.
  rewrite Hexec. destruct err as [e|].
  - assert (Hboth : forall b : bool,
      (if b then http.Error w (errors.Error (errors.Wrap "error executing template: " e))
                  http.StatusInternalServerError
       else TemplateAdapter.handleError w r
              (Some (errors.Wrap "error executing template: " e)))
      = http.Error w ("error executing template: " ++ errors.Error e) 500)
      by (by intros []).
    rewrite Hboth. split; [done|]. by rewrite Error_spec, Hfresh.
  - cbv zeta. rewrite setAll_spec.
    destruct (http.checkWriteHeaderCode (response.statusCode resp)) eqn:Hcode.
    + rewrite Write_after_WriteHeader
        by (unfold http.accepts; by rewrite Hcode).
      cbn [http.HeaderMap http.wroteHeader http.Code http.Body http.panicked].
      by rewrite Hfresh.
    + rewrite WriteHeader_refused
        by (unfold http.accepts; cbn [http.wroteHeader]; by rewrite Hcode, Hfresh).
      by rewrite Hfresh.
Qed.

(** A render ends in one of three ways: the page is complete, under the
    status of the response; or [WriteHeader] panicked on that status
    and nothing was written; or the client receives a 500 with one
    diagnostic line. *)
Lemma Render_complete_or_500 a w r resp :
  http.wroteHeader w = false ->
  let w' := TemplateAdapter.Render a w r resp in
  (exists tmpl buf,
     TemplateAdapter.getTemplate a resp = Ok tmpl
     /\ template.ExecuteTemplate tmpl "layout" (response.ViewData_Data r resp)
        = (buf, None)
     /\ if http.checkWriteHeaderCode (response.statusCode resp)
        then http.Code w' = response.statusCode resp
             /\ http.Body w' = http.Body w ++ buf
        else http.panicked w' = true
             /\ http.wroteHeader w' = false
             /\ http.Body w' = http.Body w)
  \/ (exists msg, http.Code w' = 500 /\ http.Body w' = http.Body w ++ msg ++ strings.nl).
Proof.
  intros Hfresh w'. subst w'. unfold TemplateAdapter.Render.
  destruct (TemplateAdapter.getTemplate a resp) as [tmpl|e] eqn:Hget.
  - unfold TemplateAdapter.execTemplate.
    destruct (template.ExecuteTemplate tmpl "layout" _) as [buf [e|]] eqn:Hexec.
    + right. exists ("error executing template: " ++ errors.Error e).
      destruct (String.eqb _ _); unfold TemplateAdapter.handleError;
        by rewrite Error_spec, Hfresh.
    + left. exists tmpl, buf. split; [done|]. split; [done|].
      cbv zeta. rewrite setAll_spec.
      destruct (http.checkWriteHeaderCode (response.statusCode resp)) eqn:Hcode.
      * rewrite Write_after_WriteHeader
          by (unfold http.accepts; by rewrite Hcode).
        cbn [http.wroteHeader http.Code http.Body]. by rewrite Hfresh.
      * rewrite WriteHeader_refused
          by (unfold http.accepts; cbn [http.wroteHeader]; by rewrite Hcode, Hfresh).
        by rewrite Hfresh.
  - right. exists (errors.Error e). unfold TemplateAdapter.handleError.
    by rewrite Error_spec, Hfresh.
Qed.

End TemplateRender.

Lemma Render_template_not_found_witness :
  TemplateAdapter.templates samples.site !! response.templatePath inputs.missingResp = None
  /\ http.Code (TemplateAdapter.Render samples.site http.NewRecorder (samples.get [])
                  inputs.missingResp) = 500.
Proof.
  assert (Hmiss : TemplateAdapter.templates samples.site
                    !! response.templatePath inputs.missingResp = None)
    by (vm_compute; reflexivity).
  split; [exact Hmiss|].
  exact (proj1 (proj2 (proj2 (proj2 (proj2
    (Render_template_not_found samples.site http.NewRecorder (samples.get [])
       inputs.missingResp Hmiss)))))).
Defined.

Lemma execTemplate_buffered_witness :
  http.Code (TemplateAdapter.execTemplate samples.site http.NewRecorder (samples.get [])
               inputs.brokenResp inputs.brokenTmpl) = 500
  /\ http.Body (TemplateAdapter.execTemplate samples.site http.NewRecorder (samples.get [])
                  inputs.brokenResp inputs.brokenTmpl)
     = "error executing template: template: no template for partial" ++ strings.nl.
Proof.
  pose proof (execTemplate_buffered samples.site http.NewRecorder (samples.get [])
    inputs.brokenResp inputs.brokenTmpl "<html><head>"
    (Some (errors.New "template: no template for partial"))
    ltac:(vm_compute; reflexivity) eq_refl) as (_ & Hcode & Hbody).
  split; [exact Hcode | exact Hbody].
Defined.


(** The sample page under the status 200, and under the unset status 0
    of a new response: the page is sent whole, or [WriteHeader] panics
    and nothing is sent. *)
Example Render_sample_status :
  let render resp :=
    TemplateAdapter.Render samples.site http.NewRecorder (samples.get []) resp in
  http.Code (render (response.Status http.StatusOK inputs.homeResp)) = 200
  /\ strings.HasPrefix
       (http.Body (render (response.Status http.StatusOK inputs.homeResp))) "<html>" = true
  /\ http.panicked (render (response.Status http.StatusOK inputs.homeResp)) = false
  /\ http.panicked (render inputs.homeResp) = true
  /\ http.wroteHeader (render inputs.homeResp) = false
  /\ http.Body (render inputs.homeResp) = EmptyString.
Proof. repeat split; vm_compute; reflexivity. Qed.
(** ** Execution failure: the error page is never rendered *)

(** C2, at the failing input.  The sample site caches the system error
    page [views/system/500], and the page [views/broken] fails to
    execute: the adapter answers with the plain-text diagnostic, not
    with the rendered error page that the claim describes. *)
Lemma execTemplate_not_recover :
  TemplateAdapter.execTemplate samples.site http.NewRecorder (samples.get [])
    inputs.brokenResp inputs.brokenTmpl
  <> claimed.recover "goroutine 1 [running]:" samples.site http.NewRecorder (samples.get [])
       inputs.brokenResp
       (errors.Wrap "error executing template: "
          (errors.New "template: no template for partial")).
Proof.
  intros Heq. apply (f_equal http.Body) in Heq. vm_compute in Heq. discriminate Heq.
Qed.

Section ExecFailure.
Context `{template.Engine}.

(** C2, the defect.  Whenever the template executes with an error the
    adapter answers with a raw plain-text 500 that carries the message
    "error executing template: <error>": for the guarded path
    [views/system/server-error] and for every other path alike.  The
    guard separates two branches that do the same: [handleError] is
    [http.Error] and never calls [RenderSystemError], so the system
    error page is not rendered for any failing template, whatever the
    registry holds. *)
Theorem execTemplate_failure_plain_500 (a : TemplateAdapter.TemplateAdapter)
    (w : http.ResponseWriter) (r : http.Request) (resp : response.Response)
    (tmpl : template.Template) (buf : string) (e : error) :
  template.ExecuteTemplate tmpl "layout" (response.ViewData_Data r resp) = (buf, Some e) ->
  TemplateAdapter.execTemplate a w r resp tmpl
  = http.Error w ("error executing template: " ++ errors.Error e)
      http.StatusInternalServerError
  /\ forall a', TemplateAdapter.execTemplate a' w r resp tmpl
                = TemplateAdapter.execTemplate a w r resp tmpl.
Proof.
  intros Hexec. unfold TemplateAdapter.execTemplate. rewrite Hexec. split.
  - by destruct (String.eqb _ _).
  - done.
Qed.

End ExecFailure.

Lemma execTemplate_failure_plain_500_witness :
  TemplateAdapter.execTemplate samples.site http.NewRecorder (samples.get [])
    inputs.brokenResp inputs.brokenTmpl
  = http.Error http.NewRecorder
      "error executing template: template: no template for partial" 500.
Proof.
  exact (proj1 (execTemplate_failure_plain_500 samples.site http.NewRecorder
    (samples.get []) inputs.brokenResp inputs.brokenTmpl "<html><head>"
    (errors.New "template: no template for partial") ltac:(vm_compute; reflexivity))).
Defined.

(** ** The JSON adapter *)

Section JSON.
Context `{json.Encoder}.
Implicit Types (w : http.ResponseWriter) (r : http.Request) (resp : response.Response).

Lemma assignAll_spec (header : http.Header) w :
  json.assignAll header w
  = http.mkWriter (header ∪ http.HeaderMap w) (http.wroteHeader w) (http.Code w)
      (http.Body w) (http.panicked w).
Proof.
  unfold json.assignAll.
  apply (map_fold_weak_ind (λ w' m, w' = http.mkWriter (m ∪ http.HeaderMap w)
    (http.wroteHeader w) (http.Code w) (http.Body w) (http.panicked w))).
  - rewrite (left_id_L ∅ (∪)). by destruct w.
  - intros k v m w' Hk ->. unfold http.AssignHeader; simpl. by rewrite insert_union_l.
Qed.

(** [JSONWithHeaders] on a fresh recorder: the error and nothing
    written; or the document sent; or the panic of [WriteHeader], after
    the headers were assigned. *)
Lemma JSONWithHeaders_spec w status (v : json.value) (header : http.Header) :
  http.wroteHeader w = false ->
  json.JSONWithHeaders w status v [header]
  = if json.serialisable v
    then
      if http.checkWriteHeaderCode status
      then (http.mkWriter
              (<["Content-Type" := ["application/json; charset=UTF-8"]]>
                 (header ∪ http.HeaderMap w))
              true status (http.Body w ++ json.indent v ++ strings.nl)
              (http.panicked w), None)
      else (http.mkWriter
              (<["Content-Type" := ["application/json; charset=UTF-8"]]>
                 (header ∪ http.HeaderMap w))
              false (http.Code w) (http.Body w) true, None)
    else (w, Some json.unsupported).
Proof.
  intros Hfresh. unfold json.JSONWithHeaders, json.MarshalIndent.
  destruct (json.serialisable v); [|done].
  cbv zeta. cbn [foldl]. rewrite assignAll_spec.
  destruct (http.checkWriteHeaderCode status) eqn:Hcode.
  - rewrite WriteHeader_accepted by (unfold http.accepts; by rewrite Hcode).
    rewrite Write_spec. cbn [http.SetHeader http.HeaderMap http.wroteHeader http.Code
      http.Body http.panicked]. by rewrite Hfresh.
  - rewrite WriteHeader_refused
      by (unfold http.accepts; cbn [http.SetHeader http.wroteHeader];
          by rewrite Hcode, Hfresh).
    unfold http.panic. cbn [http.SetHeader http.HeaderMap http.wroteHeader http.Code
      http.Body]. by rewrite Hfresh.
Qed.

(** What the JSON adapter's [Render] leaves in a fresh recorder. *)
Lemma Render_unfold w r resp :
  http.wroteHeader w = false ->
  JSONAdapter.Render w r resp
  = if json.serialisable (json.OfEnvelope (claimed.envelope r resp))
    then
      if http.checkWriteHeaderCode (response.statusCode (claimed.defaulted resp))
      then http.mkWriter
             (<["Content-Type" := ["application/json; charset=UTF-8"]]>
                (response.HTTPHeader (claimed.defaulted resp) ∪ http.HeaderMap w))
             true (response.statusCode (claimed.defaulted resp))
             (http.Body w ++ json.indent (json.OfEnvelope (claimed.envelope r resp))
              ++ strings.nl)
             (http.panicked w)
      else http.mkWriter
             (<["Content-Type" := ["application/json; charset=UTF-8"]]>
                (response.HTTPHeader (claimed.defaulted resp) ∪ http.HeaderMap w))
             false (http.Code w) (http.Body w) true
    else http.mkWriter
           (<["Content-Type" := ["application/json; charset=UTF-8"]]>
              (∅ ∪ http.HeaderMap w))
           true 500
           (http.Body w
            ++ json.indent (json.OfEnvelope
                 (json.mkEnvelope "error" (errors.Error json.unsupported) json.Nil 500))
            ++ strings.nl)
           (http.panicked w).
Proof.
  intros Hfresh. unfold JSONAdapter.Render, claimed.envelope.
  change (if response.statusCode resp =? 0
          then response.Status http.StatusOK resp else resp)
    with (claimed.defaulted resp).
  generalize (claimed.defaulted resp). intros resp'.
  unfold json.JSONFailure, json.JSONSuccessWithStatus, JSONAdapter.RenderSystemError,
    json.JSONError.
  destruct (response.statusCode resp' >? 299);
    rewrite JSONWithHeaders_spec by done;
    match goal with |- context [json.serialisable ?v] =>
      destruct (json.serialisable v) end;
    try (by destruct (http.checkWriteHeaderCode (response.statusCode resp')));
    by rewrite JSONWithHeaders_spec by done.
Qed.

(** C4, amended.  On a fresh recorder the JSON adapter defaults status
    0 to 200 and, when the envelope can be serialised and the status is
    one that [WriteHeader] takes (100 to 999), sends the "success"
    envelope for a status up to 299 and the "fail" envelope above, with
    the page data as payload and the status both as the envelope's code
    and as the HTTP status.  For any other status (1 to 99, a negative
    one, 1000 and above) [WriteHeader] panics after the headers were
    set: no status and no byte is sent.  When the page data cannot be
    serialised the adapter sends the "error" envelope with status
    500. *)
Theorem Render_status_routing w r resp :
  http.wroteHeader w = false ->
  let w' := JSONAdapter.Render w r resp in
  if json.serialisable (json.OfEnvelope (claimed.envelope r resp))
  then
    if http.checkWriteHeaderCode (response.statusCode (claimed.defaulted resp))
    then
      claimed.routed w r resp
      /\ json.Code (claimed.envelope r resp) = http.Code w'
      /\ json.Status (claimed.envelope r resp)
         = (if response.statusCode (claimed.defaulted resp) >? 299
            then "fail" else "success")
      /\ json.Data (claimed.envelope r resp)
         = json.Map (response.ViewData_Data r (claimed.defaulted resp))
      /\ (response.statusCode resp = 0 -> http.Code w' = 200)
    else
      http.panicked w' = true
      /\ http.wroteHeader w' = false
      /\ http.Code w' = http.Code w
      /\ http.Body w' = http.Body w
  else
    http.Code w' = 500
    /\ http.Body w'
       = http.Body w
         ++ json.indent (json.OfEnvelope
              (json.mkEnvelope "error" (errors.Error json.unsupported) json.Nil 500))
         ++ strings.nl.
Proof.
  intros Hfresh w'. subst w'. unfold claimed.routed.
  rewrite (Render_unfold w r resp Hfresh).
  destruct (json.serialisable _); [|done].
  destruct (http.checkWriteHeaderCode _); [|done].
  repeat split; unfold claimed.envelope;
    try (by destruct (response.statusCode (claimed.defaulted resp) >? 299)).
  intros Hzero. unfold claimed.defaulted. by rewrite Hzero.
Qed.

End JSON.

Lemma Render_status_routing_witness :
  @claimed.routed samples.tagEncoder http.NewRecorder (samples.get [])
    inputs.notFoundResp.
Proof.
  exact (proj1 (@Render_status_routing samples.tagEncoder http.NewRecorder
    (samples.get []) inputs.notFoundResp eq_refl)).
Defined.

(** C4, as the specification states it, fails: a 404 response whose
    page data holds a function value is not answered with the "fail"
    envelope and status 404, but with status 500. *)
Lemma Render_not_routed :
  ~ @claimed.routed samples.tagEncoder http.NewRecorder (samples.get [])
      inputs.callbackResp.
Proof.
  intros [Hcode _]. vm_compute in Hcode. discriminate Hcode.
Qed.


(** A status that [WriteHeader] does not take: the JSON adapter sets the
    headers and panics, and nothing is sent. *)
Example Render_sample_low_status :
  let w' := @JSONAdapter.Render samples.tagEncoder http.NewRecorder (samples.get [])
              (response.Status 42 inputs.notFoundResp) in
  http.panicked w' = true /\ http.wroteHeader w' = false /\ http.Body w' = EmptyString.
Proof. repeat split; vm_compute; reflexivity. Qed.
(** ** The facade: dispatch *)

Section Dispatch.
Implicit Types (s : HyperView.HyperView) (σ : adapter.store) (w : http.ResponseWriter)
  (r : http.Request) (resp : response.Response).



(** With no adapter under the key, the client receives the 500
    diagnostic. *)
Lemma handOff_unregistered s σ w r key resp :
  HyperView.adapters s !! key = None ->
  http.wroteHeader w = false ->
  exists w', claimed.handOff s σ w r key resp = Some (σ, w')
    /\ http.Code w' = 500
    /\ strings.Contains (http.Body w') "Adapter not found" = true.
Proof.
  intros Hnone Hfresh. unfold claimed.handOff. rewrite Hnone.
  eexists. split; [done|]. rewrite Error_spec, Hfresh by done. split; [done|]. simpl.
  apply Contains_app_r, (Contains_app_l "Adapter not found" strings.nl).
Qed.


End Dispatch.


(** The cases of TestViewService_Render: which mock is called, and the
    diagnostic for an extension without adapter. *)
Example Render_sample_html :
  HyperView.Render inputs.twoMocks inputs.twoMocksStore http.NewRecorder (samples.get [])
    (response.Path "sample.html" (response.NewResponse 0))
  = Some ({[ 0%nat := samples.mock true; 1%nat := samples.mock false ]}, http.NewRecorder).
Proof. vm_compute. reflexivity. Qed.

Example Render_sample :
  HyperView.Render inputs.twoMocks inputs.twoMocksStore http.NewRecorder (samples.get [])
    (response.Path "sample" (response.NewResponse 0))
  = Some ({[ 0%nat := samples.mock true; 1%nat := samples.mock false ]}, http.NewRecorder).
Proof. vm_compute. reflexivity. Qed.

Example Render_sample_json :
  HyperView.Render inputs.twoMocks inputs.twoMocksStore http.NewRecorder (samples.get [])
    (response.Path "sample.json" (response.NewResponse 0))
  = Some ({[ 0%nat := samples.mock false; 1%nat := samples.mock true ]}, http.NewRecorder).
Proof. vm_compute. reflexivity. Qed.

Example Render_json_header :
  HyperView.Render inputs.twoMocks inputs.twoMocksStore http.NewRecorder (samples.get [])
    (response.SetHeader "Content-Type" "application/json"
       (response.Path "sample" (response.NewResponse 0)))
  = Some ({[ 0%nat := samples.mock false; 1%nat := samples.mock true ]}, http.NewRecorder).
Proof. vm_compute. reflexivity. Qed.

Example Render_sample_pdf :
  HyperView.Render inputs.twoMocks inputs.twoMocksStore http.NewRecorder (samples.get [])
    (response.Path "sample.pdf" (response.NewResponse 0))
  = Some (inputs.twoMocksStore,
          http.Error http.NewRecorder "Adapter not found" 500).
Proof. vm_compute. reflexivity. Qed.

Example Render_sample_dot :
  HyperView.Render inputs.htmlOnly inputs.htmlOnlyStore http.NewRecorder (samples.get [])
    inputs.dotResp
  = Some ({[ 0%nat := samples.mock true ]}, http.NewRecorder).
Proof. vm_compute. reflexivity. Qed.

(** ** The facade: registration *)

Section Registration.
Implicit Types (s : HyperView.HyperView) (σ : adapter.store).

(** The name is bound before [Init] runs, whatever [Init] does. *)
Lemma RegisterAdapter_binds name a s σ :
  HyperView.Adapter (fst (HyperView.RegisterAdapter name a s σ)) name = Some a.
Proof.
  unfold HyperView.RegisterAdapter, HyperView.Adapter. simpl. apply lookup_insert_eq.
Qed.

(** C9.  [RegisterAdapter] binds the name to the adapter, then runs
    the adapter's [Init] and returns its result.  Whatever that result
    is, an error included, the name stays bound: [Adapter] returns the
    same adapter, which is in the state [Init] left it in. *)
Theorem RegisterAdapter_not_rolled_back name a s σ
    (A : Type) (M : adapter.Adapter A) (self : A) :
  σ !! a = Some (adapter.mkObject A M self) ->
  let s' := fst (HyperView.RegisterAdapter name a s σ) in
  let σ' := <[a := adapter.mkObject A M (fst (adapter.Init self))]> σ in
  HyperView.RegisterAdapter name a s σ
  = (HyperView.setAdapters s (<[name := a]> (HyperView.adapters s)),
     Some (σ', snd (adapter.Init self)))
  /\ HyperView.Adapter s' name = Some a
  /\ σ' !! a = Some (adapter.mkObject A M (fst (adapter.Init self))).
Proof.
  intros Hobj s' σ'. split; [|split].
  - unfold HyperView.RegisterAdapter, HyperView.call. simpl.
    rewrite lookup_insert_eq. simpl. rewrite Hobj.
    by destruct (adapter.Init self).
  - apply RegisterAdapter_binds.
  - apply lookup_insert_eq.
Qed.

End Registration.

(** A template adapter whose page [views/home.tmpl] does not parse is
    registered as "html": [Init] fails, the registration stands. *)
Lemma RegisterAdapter_not_rolled_back_witness :
  let '(s', res) :=
    HyperView.RegisterAdapter "html" 7%nat inputs.emptyFacade inputs.failingStore in
  snd <$> res = Some (Failure (errors.New "template: views/home.tmpl: unexpected EOF"))
  /\ HyperView.Adapter s' "html" = Some 7%nat.
Proof.
  pose proof (RegisterAdapter_not_rolled_back "html" 7%nat inputs.emptyFacade
    inputs.failingStore TemplateAdapter.TemplateAdapter
    (adapter.TemplateAdapter_Adapter "goroutine 1 [running]:")
    (samples.siteAdapter ["views/home.tmpl"]) eq_refl) as (Hreg & Hbound & _).
  rewrite Hreg. split; [vm_compute; reflexivity | exact Hbound].
Defined.

(** ** The facade: redirects *)

Section Redirects.
Context `{http.URLRules} `{json.Encoder}.

(** C6.  On a fresh recorder [Redirect] answers in exactly one of three
    shapes, chosen by the request: for an HTMX request that is not
    boosted, status 303 with the header [HX-Redirect] set to the target
    and the body "redirecting..."; else for an XMLHttpRequest, status
    200 with content type [application/json] and the JSON object of
    status "redirect", message "redirecting..." and the url; else the
    standard redirect, status 302 with a [Location] header. *)
Theorem Redirect_shapes (s : HyperView.HyperView) (w : http.ResponseWriter)
    (r : http.Request) (url : string) :
  http.wroteHeader w = false ->
  let w' := HyperView.Redirect s w r url in
  match htmx.IsHtmxRequest r, request.IsXMLHttpRequest r with
  | true, _ =>
      http.Code w' = 303
      /\ http.HeaderMap w' !! "HX-Redirect" = Some [url]
      /\ http.Body w' = http.Body w ++ "redirecting..."
  | false, true =>
      http.Code w' = 200
      /\ http.HeaderMap w' !! "Content-Type" = Some ["application/json"]
      /\ http.Body w'
         = http.Body w
           ++ json.compact (json.OfStrings
                {[ "status" := "redirect"; "message" := "redirecting..."; "url" := url ]})
  | false, false =>
      http.Code w' = 302
      /\ http.HeaderMap w' !! "Location" = Some [http.location (http.URLPath r) url]
  end.
Proof.
  intros Hfresh w'. subst w'. unfold HyperView.Redirect.
  destruct (htmx.IsHtmxRequest r); [|destruct (request.IsXMLHttpRequest r)].
  - unfold HyperView.HxRedirect. cbv zeta. rewrite Write_after_WriteHeader by done.
    cbn [http.Code http.HeaderMap http.Body http.wroteHeader http.SetHeader].
    rewrite Hfresh. by rewrite lookup_insert_eq.
  - cbv zeta. unfold json.Marshal. cbn [json.serialisable].
    rewrite Write_after_WriteHeader by done.
    cbn [http.Code http.HeaderMap http.Body http.wroteHeader http.SetHeader].
    rewrite Hfresh. by rewrite lookup_insert_eq.
  - unfold http.Redirect, http.Fprintln. cbv zeta.
    set (hadCT := bool_decide _).
    destruct (negb hadCT && (String.eqb (http.Method r) "GET"
                             || String.eqb (http.Method r) "HEAD"))%bool;
      rewrite WriteHeader_accepted by done;
      destruct (negb hadCT && String.eqb (http.Method r) "GET")%bool;
      rewrite ?Write_spec;
      cbn [http.Code http.HeaderMap http.Body http.wroteHeader http.SetHeader];
      rewrite Hfresh; split; try done;
      rewrite ?lookup_insert_ne by done; by rewrite lookup_insert_eq.
Qed.

End Redirects.

(** The three cases of TestViewService_Redirect. *)
Lemma Redirect_shapes_witness :
  let redirect := @HyperView.Redirect samples.plainURLs samples.tagEncoder in
  let hx := samples.get [("HX-Request", "true")] in
  let xhr := samples.get [("X-Requested-With", "XMLHttpRequest")] in
  let s := inputs.htmlOnly in
  http.Code (redirect s http.NewRecorder hx "https://example.com") = 303
  /\ http.Code (redirect s http.NewRecorder xhr "https://example.com") = 200
  /\ http.Code (redirect s http.NewRecorder (samples.get []) "https://example.com") = 302.
Proof.
  cbv zeta. split; [|split].
  - exact (proj1 (@Redirect_shapes samples.plainURLs samples.tagEncoder
      inputs.htmlOnly http.NewRecorder
      (samples.get [("HX-Request", "true")]) "https://example.com" eq_refl)).
  - exact (proj1 (@Redirect_shapes samples.plainURLs samples.tagEncoder
      inputs.htmlOnly http.NewRecorder
      (samples.get [("X-Requested-With", "XMLHttpRequest")]) "https://example.com"
      eq_refl)).
  - exact (proj1 (@Redirect_shapes samples.plainURLs samples.tagEncoder
      inputs.htmlOnly http.NewRecorder
      (samples.get []) "https://example.com" eq_refl)).
Defined.

(** ** Request predicates *)

(** C8.  [IsHtmxRequest] holds exactly when [HX-Request] is set and
    [HX-Boosted] is not; [IsAnyHtmxRequest] holds exactly when at least
    one of the two is set. *)
Theorem HTMX_predicates (r : http.Request) :
  (htmx.IsHtmxRequest r = true
   <-> htmx.headerSet r "HX-Request" = true /\ htmx.headerSet r "HX-Boosted" = false)
  /\ (htmx.IsAnyHtmxRequest r = true
      <-> htmx.headerSet r "HX-Request" = true \/ htmx.headerSet r "HX-Boosted" = true).
Proof.
  unfold htmx.IsHtmxRequest, htmx.IsAnyHtmxRequest, htmx.HXRequest, htmx.HXBoosted.
  destruct (htmx.headerSet r "HX-Request"), (htmx.headerSet r "HX-Boosted");
    simpl; intuition congruence.
Qed.

(** The rows of TestHXHeaders. *)
Example TestHXHeaders :
  let both := samples.get [("HX-Request", "true"); ("HX-Boosted", "true")] in
  htmx.IsHtmxRequest (samples.get [("HX-Request", "true")]) = true
  /\ htmx.IsBoostedRequest (samples.get [("HX-Boosted", "true")]) = true
  /\ htmx.IsAnyHtmxRequest both = true
  /\ htmx.IsHtmxRequest both = false
  /\ htmx.IsHtmxRequest (samples.get []) = false
  /\ htmx.IsBoostedRequest (samples.get []) = false
  /\ htmx.IsAnyHtmxRequest (samples.get []) = false.
Proof. vm_compute. repeat split. Qed.

(** ** View data *)

Section ViewData.
Implicit Types (h : response.heap) (v : response.loc) (d : response.Data)
  (pd : option response.PageData).

Lemma initData_Error pd :
  response.initData pd !! "Error"
  = Some (default (response.Str EmptyString) (pd ≫= (.!! "Error"))).
Proof.
  unfold response.initData.
  set (m := match pd with None => ∅ | Some m => m end).
  assert (Hm : pd ≫= (.!! "Error") = m !! "Error") by (by destruct pd).
  rewrite Hm. clear Hm.
  destruct (m !! "Error") as [x|] eqn:HE; simpl.
  - destruct (m !! "Errors"); [done|]. by rewrite lookup_insert_ne.
  - destruct (<["Error" := _]> m !! "Errors");
      rewrite ?lookup_insert_ne by done; by rewrite lookup_insert_eq.
Qed.

Lemma initData_Errors pd :
  response.initData pd !! "Errors"
  = Some (default (response.StrMap ∅) (pd ≫= (.!! "Errors"))).
Proof.
  unfold response.initData.
  set (m := match pd with None => ∅ | Some m => m end).
  assert (Hm : pd ≫= (.!! "Errors") = m !! "Errors") by (by destruct pd).
  rewrite Hm. clear Hm.
  destruct (m !! "Error") as [x|] eqn:HE; simpl.
  - destruct (m !! "Errors") eqn:HEs; [done|]. by rewrite lookup_insert_eq.
  - rewrite lookup_insert_ne by done.
    destruct (m !! "Errors") eqn:HEs; simpl.
    + by rewrite lookup_insert_ne.
    + by rewrite lookup_insert_eq.
Qed.

Lemma initData_other pd (k : string) :
  k <> "Error" -> k <> "Errors" -> response.initData pd !! k = pd ≫= (.!! k).
Proof.
  intros H1 H2. unfold response.initData.
  set (m := match pd with None => ∅ | Some m => m end).
  assert (Hm : pd ≫= (.!! k) = m !! k) by (by destruct pd).
  rewrite Hm. clear Hm.
  destruct (m !! "Error"); simpl;
    match goal with |- context [match ?x with Some _ => _ | None => _ end] =>
      destruct x end;
    by rewrite ?lookup_insert_ne by done.
Qed.

(** The memory: reading an object, and the map at an address after a
    write. *)
Lemma heap_lookup_Some h v d :
  h !! v = Some d ->
  exists o : response.object,
    response.objects h !! v = Some o
    /\ d = response.mkData (response.objTitle o) (response.objRequest o)
             (response.deref h <$> response.pageMap o)
             (response.objCsrfToken o) (response.objEnvironment o).
Proof.
  unfold lookup at 1, response.heap_lookup.
  destruct (response.objects h !! v) as [o|]; cbn [mbind option_bind]; [|done].
  intros [= <-]. by exists o.
Qed.

Lemma heap_lookup_object h v (o : response.object) :
  response.objects h !! v = Some o ->
  h !! v = Some (response.mkData (response.objTitle o) (response.objRequest o)
                   (response.deref h <$> response.pageMap o)
                   (response.objCsrfToken o) (response.objEnvironment o)).
Proof. unfold lookup at 2, response.heap_lookup. by intros ->. Qed.

Lemma deref_setMap h (m m' : response.mapref) (pd : response.PageData) :
  response.deref (response.setMap m pd h) m' = if decide (m = m') then pd
                                                else response.deref h m'.
Proof.
  unfold response.deref, response.setMap. cbn [response.maps].
  destruct (decide (m = m')) as [->|Hne].
  - by rewrite lookup_insert_eq.
  - by rewrite lookup_insert_ne.
Qed.

Lemma deref_setObject h v (o : response.object) (m : response.mapref) :
  response.deref (response.setObject v o h) m = response.deref h m.
Proof. done. Qed.

(** An address that an object refers to is in use. *)
Lemma used_referred h v (o : response.object) (m : response.mapref) :
  response.objects h !! v = Some o -> response.pageMap o = Some m ->
  m ∈ response.used h.
Proof.
  intros Ho Hm. unfold response.used. apply elem_of_union_r, elem_of_list_to_set.
  apply list_elem_of_omap. exists (v, o). split; [|done].
  by apply elem_of_map_to_list.
Qed.

(** [initData] in memory leaves the objects alone; the map it returns
    holds what [initData] makes of the map it was given, and every
    other map is as before. *)
Lemma initDataAt_spec (pm : option response.mapref) h :
  let m := fst (response.initDataAt pm h) in
  let h1 := snd (response.initDataAt pm h) in
  response.objects h1 = response.objects h
  /\ response.deref h1 m = response.initData (response.deref h <$> pm)
  /\ (forall m', m' <> m -> response.deref h1 m' = response.deref h m')
  /\ (forall m', pm = Some m' -> m = m')
  /\ (pm = None ->
      forall v' (o' : response.object),
        response.objects h !! v' = Some o' -> response.pageMap o' <> Some m).
Proof.
  destruct pm as [m0|]; cbn [response.initDataAt response.makeMap fst snd fmap option_fmap
    option_map].
  - split; [done|]. rewrite deref_setMap, decide_True by done. split; [done|].
    split; [|split; [by intros m' [= <-]|done]].
    intros m' Hm'. rewrite deref_setMap. by rewrite decide_False.
  - split; [done|]. rewrite deref_setMap, decide_True by done. split; [done|].
    split; [|split; [done|]].
    + intros m' Hm'. rewrite deref_setMap. by rewrite decide_False.
    + intros _ v' o' Ho' Hm. by apply (is_fresh (response.used h)), (used_referred h v' o').
Qed.

(** C10.  For every view-data object, [Data()] returns, and stores
    back, a map that binds "View" to the object itself, "Error" to the
    caller's value or else to the empty string, and "Errors" to the
    caller's value or else to an empty string map; this covers the
    object whose page-data map is nil.  Every other key is as the
    caller supplied it. *)
Theorem Data_map_invariant h v d :
  h !! v = Some d ->
  exists m h',
    response.Data_Data v h = Some (m, h')
    /\ m !! "View" = Some (response.DataPtr v)
    /\ m !! "Error"
       = Some (default (response.Str EmptyString) (response.pageData d ≫= (.!! "Error")))
    /\ m !! "Errors"
       = Some (default (response.StrMap ∅) (response.pageData d ≫= (.!! "Errors")))
    /\ (forall k : string, k <> "View" -> k <> "Error" -> k <> "Errors" ->
        m !! k = response.pageData d ≫= (.!! k))
    /\ response.pageData <$> h' !! v = Some (Some m).
Proof.
  intros (o & Ho & ->)%heap_lookup_Some. unfold response.Data_Data. rewrite Ho.
  cbn [mbind option_bind response.pageData].
  destruct (initDataAt_spec (response.pageMap o) h) as (Hobj & Hmap & _).
  destruct (response.initDataAt (response.pageMap o) h) as [m h1].
  cbn [fst snd] in Hobj, Hmap. rewrite Hmap.
  eexists _, _. split; [done|].
  split; [by rewrite lookup_insert_eq|].
  split; [by rewrite lookup_insert_ne, initData_Error|].
  split; [by rewrite lookup_insert_ne, initData_Errors|].
  split.
  - intros k H1 H2 H3. by rewrite lookup_insert_ne, initData_other.
  - erewrite heap_lookup_object
      by (unfold response.setMap, response.setObject; cbn [response.objects];
          apply lookup_insert_eq).
    cbn [fmap option_fmap option_map response.pageData response.setPageMap
         response.pageMap].
    by rewrite deref_setMap, decide_True.
Qed.

(** The map a response hands to its adapter is the map [Data()]
    returns for the response's view-data object. *)
Lemma ViewData_Data_Data (r : http.Request) (resp : response.Response) h d :
  h !! response.view resp = Some d ->
  response.pageData d = Some (response.respData resp) ->
  fst <$> response.Data_Data (response.view resp) h
  = Some (response.ViewData_Data r resp).
Proof.
  intros (o & Ho & ->)%heap_lookup_Some Hpd. cbn [response.pageData] in Hpd.
  unfold response.Data_Data, response.ViewData_Data. rewrite Ho.
  cbn [mbind option_bind].
  destruct (initDataAt_spec (response.pageMap o) h) as (_ & Hmap & _).
  destruct (response.initDataAt (response.pageMap o) h) as [m h1].
  cbn [fst snd] in Hmap. cbn [fmap option_fmap option_map fst]. by rewrite Hmap, Hpd.
Qed.

End ViewData.

(** The object built from a nil page-data map. *)
Lemma Data_map_invariant_witness :
  exists m h',
    response.Data_Data (fst inputs.nilData) (snd inputs.nilData) = Some (m, h')
    /\ m !! "View" = Some (response.DataPtr (fst inputs.nilData))
    /\ m !! "Error" = Some (response.Str EmptyString)
    /\ m !! "Errors" = Some (response.StrMap ∅).
Proof.
  destruct (Data_map_invariant (snd inputs.nilData) (fst inputs.nilData)
    (response.mkData EmptyString None (Some (response.initData None))
       EmptyString EmptyString)
    ltac:(vm_compute; reflexivity))
    as (m & h' & Hdata & Hview & Herror & Herrors & _).
  exists m, h'. split; [exact Hdata|]. split; [exact Hview|].
  split; [exact Herror | exact Herrors].
Defined.

(** ** The template adapter: initialisation *)

Section Walk.
Context {S E : Type}.
Implicit Types (fn : S -> fs.WalkStep -> S * option E) (steps : list fs.WalkStep).



(** The walk stops at the first entry for which the callback fails. *)
Lemma walk_stops fn pre step post s s1 s2 e :
  fs.walk fn pre s = (s1, None) ->
  fn s1 step = (s2, Some e) ->
  fs.walk fn (pre ++ step :: post) s = (s2, Some e).
Proof.
  revert s. induction pre as [|x pre IH]; intros s; simpl.
  - intros [= <-] Hstep. by rewrite Hstep.
  - destruct (fn s x) as [s' [e'|]]; [done|]. apply IH.
Qed.

End Walk.

Section Init.
Context `{template.Engine}.
Implicit Types (a : TemplateAdapter.TemplateAdapter)
  (order : list (string * template.FS)) (cache : gmap string template.Template).

Lemma Rel_Ok (p q : string) : filepath.Rel p = Ok q -> q = p.
Proof. unfold filepath.Rel. destruct (strings.HasPrefix p "/"); congruence. Qed.









(** [Init] aborts at the first views file that does not parse: the
    files after it and the file systems after its own are not
    visited, and the registry holds what was parsed before it. *)
Lemma Init_aborts_at_parse_failure
    (partialsOrder before after : list (string * template.FS))
    (fsID : string) (fsys : template.FS) (pre post : list fs.WalkStep)
    (step : fs.WalkStep) a base clone cache1 cache2 e :
  let a0 := TemplateAdapter.setTemplates a ∅ in
  TemplateAdapter.loadPartials a0 partialsOrder = Ok base ->
  TemplateAdapter.processAll a0 before base ∅ = (cache1, Success) ->
  template.Open fsys constants.ViewsDir = true ->
  template.WalkDir fsys constants.ViewsDir = (pre ++ step :: post)%list ->
  fs.walk (TemplateAdapter.processDirectory a0 fsID fsys base) pre cache1
  = (cache2, None) ->
  fs.walkErr step = None ->
  fs.IsDir step = false ->
  filepath.Ext (fs.path step) = TemplateAdapter.extension a ->
  strings.HasPrefix (fs.path step) "/" = false ->
  template.Clone base = Ok clone ->
  template.ParseFS clone (Some fsys) (fs.path step) = Err e ->
  TemplateAdapter.InitIn partialsOrder (before ++ (fsID, fsys) :: after)%list a
  = (TemplateAdapter.setTemplates a cache2, Failure e).
Proof.
  intros a0 Hload Hbefore Hopen Hwalk Hpre Herr Hdir Hext Hrel Hclone Hparse.
  unfold TemplateAdapter.InitIn. fold a0. rewrite Hload.
  assert (Hall : forall order c c',
    TemplateAdapter.processAll a0 order base c = (c', Success) ->
    TemplateAdapter.processAll a0 (order ++ (fsID, fsys) :: after)%list base c
    = TemplateAdapter.processAll a0 ((fsID, fsys) :: after) base c').
  { induction order as [|[i f] rest IH]; intros c c'; simpl.
    - by intros [= <-].
    - destruct (template.Open f constants.ViewsDir); [|apply IH].
      destruct (fs.walk _ _ c) as [c1 [[e0|e0]|]]; [done|done|apply IH]. }
  simpl TemplateAdapter.templates. rewrite (Hall _ _ _ Hbefore). simpl.
  rewrite Hopen, Hwalk.
  rewrite (walk_stops _ pre step post cache1 cache2 cache2 (ByError e) Hpre); [done|].
  unfold TemplateAdapter.processDirectory.
  rewrite Herr, Hdir. simpl. change (TemplateAdapter.extension a0)
    with (TemplateAdapter.extension a).
  rewrite Hext, String.eqb_refl. unfold filepath.Rel. rewrite Hrel, Hclone, Hparse. done.
Qed.

End Init.


(** ** Further properties: strings *)

Lemma append_cons (x : ascii) (a b : string) : String x a ++ b = String x (a ++ b).
Proof. reflexivity. Qed.

Lemma append_assoc (a b c : string) : (a ++ b) ++ c = a ++ (b ++ c).
Proof. induction a as [|x a IH]; [done|]. by rewrite !append_cons, IH. Qed.

Lemma append_nil_r (s : string) : s ++ EmptyString = s.
Proof. induction s as [|x s IH]; [done|]. by rewrite append_cons, IH. Qed.

Lemma length_append (a b : string) :
  String.length (a ++ b) = (String.length a + String.length b)%nat.
Proof. induction a as [|x a IH]; [done|]. rewrite append_cons. simpl. by rewrite IH. Qed.

Lemma substring_all (s : string) : substring 0 (String.length s) s = s.
Proof. induction s as [|x s IH]; simpl; [done|by rewrite IH]. Qed.

Lemma substring_skip_append (a b : string) (n : nat) :
  substring (String.length a) n (a ++ b) = substring 0 n b.
Proof. induction a as [|x a IH]; [done|]. rewrite append_cons. by simpl. Qed.

Lemma length_substring_0 (s : string) (n : nat) :
  (n <= String.length s)%nat -> String.length (substring 0 n s) = n.
Proof.
  revert n; induction s as [|x s IH]; intros [|n] Hn; simpl in *; try done; try lia.
  rewrite IH; [done|lia].
Qed.

Lemma HasSuffix_append (s suf : string) : strings.HasSuffix (s ++ suf) suf = true.
Proof.
  unfold strings.HasSuffix. rewrite length_append.
  replace (String.length s + String.length suf - String.length suf)%nat
    with (String.length s) by lia.
  rewrite substring_skip_append, substring_all, String.eqb_refl.
  rewrite andb_true_r. apply Nat.leb_le. lia.
Qed.

Lemma Join_app (xs ys : list string) (sep : string) :
  xs <> [] -> ys <> [] ->
  strings.Join (xs ++ ys)%list sep = strings.Join xs sep ++ sep ++ strings.Join ys sep.
Proof.
  intros Hxs Hys. induction xs as [|x xs IH]; [done|].
  destruct xs as [|x' xs].
  - simpl. by destruct ys.
  - change (strings.Join ((x :: x' :: xs) ++ ys)%list sep)
      with (x ++ sep ++ strings.Join ((x' :: xs) ++ ys)%list sep).
    rewrite IH by done.
    change (strings.Join (x :: x' :: xs) sep)
      with (x ++ sep ++ strings.Join (x' :: xs) sep).
    by rewrite !append_assoc.
Qed.

(** ** Package [funcs] *)

Lemma classPairs_length (pairs : list (string * bool)) :
  (length (described.classPairs pairs) mod 2 = 0)%nat.
Proof.
  induction pairs as [|p pairs IH]; [done|].
  change (length (described.classPairs (p :: pairs)))
    with (2 + length (described.classPairs pairs))%nat.
  by rewrite <- Nat.Div0.add_mod_idemp_l.
Qed.

Lemma classMapLoop_pairs (pairs : list (string * bool)) (classes : list string) :
  funcs.classMapLoop (described.classPairs pairs) classes
  = funcs.Value (classes ++ described.active pairs)%list.
Proof.
  revert classes; induction pairs as [|[name cond] pairs IH]; intros classes.
  - simpl. by rewrite app_nil_r.
  - cbn [described.classPairs flat_map app fst snd funcs.classMapLoop].
    fold (described.classPairs pairs). rewrite IH.
    unfold described.active. destruct cond; simpl; [|done].
    by rewrite <- app_assoc.
Qed.

(** X1.  Called with (class name, condition) pairs, [ClassMap] returns
    the names whose condition is true, in the order given, separated by
    single spaces. *)
Theorem ClassMap_active (pairs : list (string * bool)) :
  funcs.ClassMap (described.classPairs pairs)
  = funcs.Value (strings.Join (described.active pairs) " ").
Proof.
  unfold funcs.ClassMap.
  by rewrite classPairs_length, classMapLoop_pairs.
Qed.

Lemma even_length_split {A : Type} (l : list A) :
  (length l mod 2 = 0)%nat ->
  l = [] \/ exists a b l', l = a :: b :: l' /\ (length l' mod 2 = 0)%nat.
Proof.
  destruct l as [|a [|b l']]; [by left|done|]. intros Hl. right.
  exists a, b, l'. split; [done|].
  change (length (a :: b :: l')) with (2 + length l')%nat in Hl.
  by rewrite <- Nat.Div0.add_mod_idemp_l in Hl.
Qed.

Lemma even_length_ind {A : Type} (P : list A -> Prop) :
  P [] -> (forall a b l, P l -> P (a :: b :: l)) ->
  forall l, (length l mod 2 = 0)%nat -> P l.
Proof.
  intros Hnil Hcons l.
  remember (length l) as n eqn:Hn. revert l Hn.
  induction (lt_wf n) as [n _ IH]. intros l -> Hl.
  destruct (even_length_split l Hl) as [->|(a & b & l' & -> & Hl')]; [done|].
  apply Hcons. eapply IH; [|done|done]. simpl. lia.
Qed.

Lemma classMapLoop_never_crashes (classMap : list funcs.arg) :
  (length classMap mod 2 = 0)%nat ->
  forall classes, funcs.classMapLoop classMap classes <> funcs.Crash.
Proof.
  revert classMap. apply (even_length_ind (λ l, forall classes,
    funcs.classMapLoop l classes <> funcs.Crash)); [done|].
  intros a b l IH classes. destruct a, b; simpl; done.
Qed.

Lemma classMapLoop_value (classMap : list funcs.arg) :
  forall classes out, funcs.classMapLoop classMap classes = funcs.Value out ->
  exists pairs, classMap = described.classPairs pairs.
Proof.
  remember (length classMap) as n eqn:Hn. revert classMap Hn.
  induction (lt_wf n) as [n _ IH]. intros classMap -> classes out.
  destruct classMap as [|a [|b l]].
  - by exists [].
  - by destruct a.
  - destruct a as [name| | |], b as [|cond| |]; simpl; try done.
    intros Hrun.
    destruct (IH (length l) ltac:(simpl; lia) l eq_refl _ _ Hrun) as [pairs ->].
    by exists ((name, cond) :: pairs).
Qed.

(** X2.  [ClassMap] never panics on an index out of range, and it
    returns a string exactly when its arguments are (string, boolean)
    pairs; every other argument list is answered with an error. *)
Theorem ClassMap_outcomes (classMap : list funcs.arg) :
  funcs.ClassMap classMap <> funcs.Crash /\
  ((exists classes, funcs.ClassMap classMap = funcs.Value classes)
   <-> exists pairs, classMap = described.classPairs pairs).
Proof.
  split; [|split].
  - unfold funcs.ClassMap.
    destruct (length classMap mod 2 =? 0)%nat eqn:Hl; [|done]. simpl.
    apply Nat.eqb_eq in Hl.
    pose proof (classMapLoop_never_crashes classMap Hl []) as Hc.
    by destruct (funcs.classMapLoop classMap []).
  - intros [classes Hrun]. unfold funcs.ClassMap in Hrun.
    destruct (negb _); [done|].
    destruct (funcs.classMapLoop classMap []) eqn:Hloop; [|done|done].
    by eapply classMapLoop_value.
  - intros [pairs ->]. unfold funcs.ClassMap.
    rewrite classPairs_length, classMapLoop_pairs. by eexists.
Qed.

(** X3.  [Truncate] with a negative limit panics on every input: no
    string has a length below zero, so the slice [s[:n]] is taken with a
    negative bound. *)
Theorem Truncate_negative (s : string) (n : Z) :
  n < 0 -> funcs.Truncate s n = funcs.Crash.
Proof.
  intros Hn. unfold funcs.Truncate.
  destruct (Z.leb_spec (Z.of_nat (String.length s)) n); [lia|].
  destruct (Z.ltb_spec n 0); [done|lia].
Qed.

Lemma Truncate_negative_witness : -1 < 0 /\ funcs.Truncate "hello" (-1) = funcs.Crash.
Proof. split; [lia|]. apply (Truncate_negative "hello" (-1)). lia. Defined.

(** X4.  With a limit [n >= 0], [Truncate] returns a string: the input
    itself when it has at most [n] bytes, and otherwise its first [n]
    bytes followed by three dots, which is [n + 3] bytes long; so the
    result is longer than the input when the input has fewer than
    [n + 3] bytes but more than [n]. *)
Theorem Truncate_length (s : string) (n : Z) :
  0 <= n ->
  exists t, funcs.Truncate s n = funcs.Value t
    /\ (Z.of_nat (String.length s) <= n -> t = s)
    /\ (n < Z.of_nat (String.length s) ->
        t = strings.slice_to s n ++ "..."
        /\ Z.of_nat (String.length t) = n + 3
        /\ strings.HasPrefix s (strings.slice_to s n) = true).
Proof.
  intros Hn. unfold funcs.Truncate.
  destruct (Z.leb_spec (Z.of_nat (String.length s)) n) as [Hle|Hlt].
  - exists s. split; [done|]. split; [done|lia].
  - destruct (Z.ltb_spec n 0); [lia|]. eexists. split; [done|].
    split; [lia|]. intros _. split; [done|]. split.
    + rewrite length_append. unfold strings.slice_to.
      rewrite length_substring_0 by lia. simpl. lia.
    + unfold strings.slice_to. generalize (Z.to_nat n). clear.
      induction s as [|x s IH]; intros [|k]; simpl; try done.
      by rewrite Ascii.eqb_refl, IH.
Qed.

Lemma Truncate_length_witness :
  exists t, funcs.Truncate "abcd" 3 = funcs.Value t
    /\ (Z.of_nat (String.length "abcd") <= 3 -> t = "abcd")
    /\ (3 < Z.of_nat (String.length "abcd") ->
        t = strings.slice_to "abcd" 3 ++ "..."
        /\ Z.of_nat (String.length t) = 3 + 3
        /\ strings.HasPrefix "abcd" (strings.slice_to "abcd" 3) = true).
Proof. apply (Truncate_length "abcd" 3). lia. Defined.

Lemma slugByte_fixed (c b : ascii) :
  funcs.slugByte c = Some b ->
  described.slugAlphabet b = true /\ funcs.slugByte b = Some b.
Proof.
  intros Hb.
  destruct c as [[] [] [] [] [] [] [] []]; vm_compute in Hb;
    try discriminate Hb; injection Hb as <-; vm_compute; split; reflexivity.
Qed.

(** X5.  A slug consists of lower-case ASCII letters, digits, "_" and
    "-" only, and is never longer than the input. *)
Theorem Slugify_alphabet (s : string) :
  described.allBytes described.slugAlphabet (funcs.Slugify s) = true
  /\ (String.length (funcs.Slugify s) <= String.length s)%nat.
Proof.
  induction s as [|c s [IHa IHl]]; [done|]. cbn [funcs.Slugify String.length].
  destruct (funcs.slugByte c) as [b|] eqn:Hc.
  - apply slugByte_fixed in Hc as [Hb _].
    cbn [described.allBytes String.length]. rewrite Hb. split; [done|lia].
  - split; [done|lia].
Qed.

(** X6.  [Slugify] is idempotent: a slug is its own slug. *)
Theorem Slugify_idempotent (s : string) :
  funcs.Slugify (funcs.Slugify s) = funcs.Slugify s.
Proof.
  induction s as [|c s IH]; [done|]. cbn [funcs.Slugify].
  destruct (funcs.slugByte c) as [b|] eqn:Hc; [|done]. cbn [funcs.Slugify].
  apply slugByte_fixed in Hc as [_ ->]. by rewrite IH.
Qed.
Lemma srcsetLoop_crash (src : string) (i : nat) (w : string) (widths : list string)
    (srcset : string) :
  strings.LastIndex src "." < 0 ->
  funcs.srcsetLoop src i (w :: widths) srcset = funcs.Crash.
Proof.
  intros Hdot. simpl. by destruct (Z.ltb_spec (strings.LastIndex src ".") 0); [|lia].
Qed.

Lemma srcsetLoop_entries (src : string) (widths : list string) :
  0 <= strings.LastIndex src "." ->
  forall (i : nat) (srcset : string),
  funcs.srcsetLoop src i widths srcset
  = funcs.Value
      (match widths with
       | [] => srcset
       | _ :: _ =>
           (if (0 <? i)%nat then srcset ++ ", " else srcset)
           ++ strings.Join (described.srcsetEntry src <$> widths) ", "
       end).
Proof.
  intros Hdot. induction widths as [|w widths IH]; intros i srcset; [done|].
  cbn [funcs.srcsetLoop]. cbv zeta.
  destruct (Z.ltb_spec (strings.LastIndex src ".") 0); [lia|].
  rewrite IH. f_equal. destruct widths as [|w' widths]; [done|].
  change (0 <? S i)%nat with true. cbv iota.
  change (described.srcsetEntry src <$> w :: w' :: widths)
    with (described.srcsetEntry src w :: (described.srcsetEntry src <$> w' :: widths)).
  change (strings.Join (described.srcsetEntry src w
           :: (described.srcsetEntry src <$> w' :: widths)) ", ")
    with (described.srcsetEntry src w ++ ", "
          ++ strings.Join (described.srcsetEntry src <$> w' :: widths) ", ").
  unfold described.srcsetEntry, described.descriptor.
  by rewrite !append_assoc.
Qed.

(** X7.  [Srcset] in full: a blank source or an empty list of widths
    gives the empty string; a non-blank source without a dot panics as
    soon as there is one width, on the slice at index -1; otherwise the
    result is one entry per width, stem-descriptor.extension, joined
    by ", ". *)
Theorem Srcset_entries `{funcs.Spaces} (src : string) (widths : list string) :
  funcs.Srcset src widths =
    if String.eqb (funcs.TrimSpace src) EmptyString then funcs.Value EmptyString
    else match widths with
         | [] => funcs.Value EmptyString
         | _ :: _ =>
             if strings.LastIndex src "." <? 0 then funcs.Crash
             else funcs.Value (strings.Join (described.srcsetEntry src <$> widths) ", ")
         end.
Proof.
  unfold funcs.Srcset. destruct (String.eqb _ _); [done|].
  destruct widths as [|w widths]; [done|].
  destruct (Z.ltb_spec (strings.LastIndex src ".") 0) as [Hdot|Hdot].
  - by apply srcsetLoop_crash.
  - by rewrite srcsetLoop_entries.
Qed.

Lemma descriptor_idempotent (w : string) :
  described.descriptor (described.descriptor w) = described.descriptor w.
Proof.
  unfold described.descriptor at 2 3.
  destruct (negb (strings.HasSuffix w "w") && negb (strings.HasSuffix w "x")) eqn:Hw.
  - unfold described.descriptor. by rewrite HasSuffix_append.
  - unfold described.descriptor. by rewrite Hw.
Qed.

Lemma srcsetLoop_descriptor (src : string) (widths : list string) :
  forall (i : nat) (srcset : string),
  funcs.srcsetLoop src i (described.descriptor <$> widths) srcset
  = funcs.srcsetLoop src i widths srcset.
Proof.
  induction widths as [|w widths IH]; intros i srcset; [done|].
  change (described.descriptor <$> w :: widths)
    with (described.descriptor w :: (described.descriptor <$> widths)).
  cbn [funcs.srcsetLoop]. cbv zeta.
  destruct (strings.LastIndex src "." <? 0); [done|].
  rewrite IH. fold (described.descriptor w).
  fold (described.descriptor (described.descriptor w)).
  by rewrite descriptor_idempotent.
Qed.

(** X8.  The "w" of a width is optional: writing the descriptor out
    ("100w" for "100", and "2x" or "100w" left as they are) for all or
    some of the widths does not change the result of [Srcset]. *)
Theorem Srcset_descriptor_optional `{funcs.Spaces} (src : string) (widths : list string) :
  funcs.Srcset src (described.descriptor <$> widths) = funcs.Srcset src widths
  /\ (forall w, strings.HasSuffix (described.descriptor w) "w" = true
                \/ strings.HasSuffix (described.descriptor w) "x" = true).
Proof.
  split.
  - unfold funcs.Srcset. by rewrite srcsetLoop_descriptor.
  - intros w. unfold described.descriptor.
    destruct (strings.HasSuffix w "w") eqn:Hw; [by left|].
    destruct (strings.HasSuffix w "x") eqn:Hx; [by right|].
    left. apply HasSuffix_append.
Qed.

(** The cases of TestSrcset, with the trimming of ASCII blanks. *)
Example TestSrcset :
  let Srcset := @funcs.Srcset moreSamples.asciiSpaces in
  Srcset "/foo/example.webp" ["100"; "200"; "300"]
    = funcs.Value "/foo/example-100w.webp, /foo/example-200w.webp, /foo/example-300w.webp"
  /\ Srcset "/foo/example.webp" ["100w"; "200w"; "300w"]
    = funcs.Value "/foo/example-100w.webp, /foo/example-200w.webp, /foo/example-300w.webp"
  /\ Srcset "/example.jpg" ["1x"; "2x"] = funcs.Value "/example-1x.jpg, /example-2x.jpg"
  /\ Srcset "https://cdn.example.com/image-54.png" ["1000"; "1500"]
    = funcs.Value ("https://cdn.example.com/image-54-1000w.png, "
                   ++ "https://cdn.example.com/image-54-1500w.png")
  /\ Srcset "example.tiff" [] = funcs.Value EmptyString
  /\ Srcset EmptyString ["100"; "200"] = funcs.Value EmptyString.
Proof. repeat split; vm_compute; reflexivity. Qed.

(** *** [InputAttrs] *)

Lemma attrsLoop_pairs (specialAttrs : gmap string string)
    (pairs : list (string * funcs.arg)) :
  forall i data attributes,
  funcs.attrsLoop specialAttrs i (described.attrPairs pairs) data attributes
  = funcs.Value (foldl (described.attrStep specialAttrs) (data, attributes) pairs).
Proof.
  induction pairs as [|[key value] pairs IH]; intros i data attributes; [done|].
  change (described.attrPairs ((key, value) :: pairs))
    with (funcs.AStr key :: value :: described.attrPairs pairs).
  cbn [funcs.attrsLoop foldl]. unfold described.attrStep at 2. cbn [fst snd].
  destruct (specialAttrs !! key) as [sk|]; rewrite IH; by destruct value.
Qed.

Lemma attrStep_data (specialAttrs : gmap string string)
    (pairs : list (string * funcs.arg)) (sk : string) :
  forall data attributes,
  fst (foldl (described.attrStep specialAttrs) (data, attributes) pairs) !! sk
  = match List.find (λ p, bool_decide (specialAttrs !! fst p = Some sk)) (rev pairs) with
    | Some p => Some (funcs.Text (described.text (snd p)))
    | None => data !! sk
    end.
Proof.
  induction pairs as [|p pairs IH] using rev_ind; intros data attributes; [done|].
  rewrite foldl_app, rev_app_distr. cbn [foldl rev app List.find].
  unfold described.attrStep at 1.
  destruct (specialAttrs !! fst p) as [sk'|] eqn:Hp; cbn [fst snd].
  - destruct (decide (sk' = sk)) as [->|Hne].
    + rewrite bool_decide_eq_true_2 by done. by rewrite lookup_insert_eq.
    + rewrite bool_decide_eq_false_2 by congruence.
      rewrite lookup_insert_ne by done. apply IH.
  - rewrite bool_decide_eq_false_2 by congruence. apply IH.
Qed.

Lemma attrStep_attributes (specialAttrs : gmap string string)
    (pairs : list (string * funcs.arg)) (k : string) :
  forall data attributes,
  snd (foldl (described.attrStep specialAttrs) (data, attributes) pairs) !! k
  = match List.find (λ p, bool_decide (fst p = k ∧ specialAttrs !! k = None)) (rev pairs) with
    | Some p => Some (described.text (snd p))
    | None => attributes !! k
    end.
Proof.
  induction pairs as [|p pairs IH] using rev_ind; intros data attributes; [done|].
  rewrite foldl_app, rev_app_distr. cbn [foldl rev app List.find].
  unfold described.attrStep at 1.
  destruct (specialAttrs !! fst p) as [sk'|] eqn:Hp; cbn [fst snd].
  - rewrite bool_decide_eq_false_2; [apply IH|]. intros [<- Hk]. congruence.
  - destruct (decide (fst p = k)) as [<-|Hne].
    + rewrite bool_decide_eq_true_2 by done. by rewrite lookup_insert_eq.
    + rewrite bool_decide_eq_false_2 by (by intros [? _]).
      rewrite lookup_insert_ne by done. apply IH.
Qed.

Lemma attrStep_dom (specialAttrs : gmap string string)
    (pairs : list (string * funcs.arg)) (k : string) :
  (forall key sk, specialAttrs !! key = Some sk -> sk <> k) ->
  forall data attributes,
  fst (foldl (described.attrStep specialAttrs) (data, attributes) pairs) !! k = data !! k.
Proof.
  intros Hk. induction pairs as [|p pairs IH] using rev_ind; intros data attributes; [done|].
  rewrite foldl_app. cbn [foldl]. unfold described.attrStep at 1.
  destruct (specialAttrs !! fst p) as [sk'|] eqn:Hp; cbn [fst snd]; [|apply IH].
  rewrite lookup_insert_ne by eauto. apply IH.
Qed.

Lemma attrPairs_length (pairs : list (string * funcs.arg)) :
  (length (described.attrPairs pairs) mod 2 = 0)%nat.
Proof.
  induction pairs as [|p pairs IH]; [done|].
  change (length (described.attrPairs (p :: pairs)))
    with (2 + length (described.attrPairs pairs))%nat.
  by rewrite <- Nat.Div0.add_mod_idemp_l.
Qed.

Lemma attrStep_dom_eq (specialAttrs : gmap string string)
    (pairs : list (string * funcs.arg)) :
  forall data attributes,
  (forall key sk, specialAttrs !! key = Some sk -> sk ∈ dom data) ->
  dom (fst (foldl (described.attrStep specialAttrs) (data, attributes) pairs)) = dom data.
Proof.
  induction pairs as [|p pairs IH] using rev_ind; intros data attributes Hsp; [done|].
  rewrite foldl_app. cbn [foldl]. unfold described.attrStep at 1.
  destruct (specialAttrs !! fst p) as [sk'|] eqn:Hp; cbn [fst snd]; [|by apply IH].
  rewrite dom_insert_L, IH by done. apply Hsp in Hp. set_solver.
Qed.

Lemma attrsToMap_pairs (data : gmap string funcs.field) (specialAttrs : gmap string string)
    (pairs : list (string * funcs.arg)) :
  data !! "Hyperscript" = None -> data !! "Class" = None ->
  specialAttrs !! "class" = None ->
  funcs.attrsToMap data specialAttrs (described.attrPairs pairs)
  = let state :=
      foldl (described.attrStep (<["hyperscript" := "Hyperscript"]>
                         (<["_" := "Hyperscript"]> (<["class" := "Class"]> specialAttrs))))
        (<["Class" := funcs.Text EmptyString]>
           (<["Hyperscript" := funcs.Text EmptyString]> data), ∅) pairs in
    funcs.Value (<["Attributes" := funcs.Attrs (snd state)]> (fst state)).
Proof.
  intros Hh Hc Hs. unfold funcs.attrsToMap.
  rewrite Hh, Hs, lookup_insert_ne, Hc by done.
  rewrite attrsLoop_pairs. cbv zeta. by destruct (foldl _ _ _).
Qed.

Lemma inputSpecials_built :
  <["hyperscript" := "Hyperscript"]>
    (<["_" := "Hyperscript"]> (<["class" := "Class"]>
       ({[ "error" := "Error"; "hint" := "Hint"; "label" := "Label"; "type" := "Type" ]}
          : gmap string string)))
  = described.inputSpecials.
Proof. vm_compute. reflexivity. Qed.

Lemma inputSpecials_fields (key sk : string) :
  described.inputSpecials !! key = Some sk ->
  sk ∈ ["Error"; "Hint"; "Label"; "Type"; "Class"; "Hyperscript"].
Proof.
  unfold described.inputSpecials. intros Hk.
  repeat (apply lookup_insert_Some in Hk as [[_ <-]|[_ Hk]]; [set_solver|]).
  apply lookup_singleton_Some in Hk as [_ <-]. set_solver.
Qed.

(** X9.  Called with (key, value) pairs, [InputAttrs] returns a map
    with exactly eight keys.  "NameID" is the first argument and no
    attribute can overwrite it.  "Error", "Hint", "Label", "Class" and
    "Hyperscript" hold the text of the last pair that addresses them
    (by the keys "error", "hint", "label", "class", and "_" or
    "hyperscript"), or the empty string; "Type" likewise for "type",
    with "text" by default.  "Attributes" holds every other key with
    the text of its last pair.  A value that is not a string counts as
    the empty text. *)
Theorem InputAttrs_fields (nameID : string) (pairs : list (string * funcs.arg)) :
  exists (m : gmap string funcs.field) (attributes : gmap string string),
    funcs.InputAttrs nameID (described.attrPairs pairs) = funcs.Value m
    /\ dom m = list_to_set ["NameID"; "Error"; "Hint"; "Label"; "Type"; "Class";
                            "Hyperscript"; "Attributes"]
    /\ m !! "NameID" = Some (funcs.Text nameID)
    /\ (forall sk, sk ∈ ["Error"; "Hint"; "Label"; "Class"; "Hyperscript"] ->
        m !! sk = Some (funcs.Text (default EmptyString (described.lastFor pairs sk))))
    /\ m !! "Type" = Some (funcs.Text (default "text" (described.lastFor pairs "Type")))
    /\ m !! "Attributes" = Some (funcs.Attrs attributes)
    /\ (forall k, attributes !! k = described.lastPlain pairs k).
Proof.
  unfold funcs.InputAttrs. rewrite attrPairs_length. cbn [Nat.eqb negb].
  rewrite attrsToMap_pairs by done. rewrite inputSpecials_built. cbv zeta.
  set (data := <["Class" := funcs.Text EmptyString]> _).
  assert (Hdom : dom data = list_to_set ["NameID"; "Error"; "Hint"; "Label"; "Type";
                                          "Class"; "Hyperscript"]).
  { subst data. rewrite !dom_insert_L, dom_singleton_L. set_solver. }
  assert (Hfield : forall sk dflt,
    data !! sk = Some (funcs.Text dflt) ->
    fst (foldl (described.attrStep described.inputSpecials) (data, ∅) pairs) !! sk
    = Some (funcs.Text (default dflt (described.lastFor pairs sk)))).
  { intros sk dflt Hsk. rewrite attrStep_data. unfold described.lastFor.
    by destruct (List.find _ _). }
  eexists _, _. split; [done|]. split; [|split; [|split; [|split; [|split]]]].
  - rewrite dom_insert_L, attrStep_dom_eq, Hdom; [set_solver|].
    intros key sk Hk%inputSpecials_fields. rewrite Hdom. set_solver.
  - rewrite lookup_insert_ne by done. rewrite attrStep_dom; [done|].
    intros key sk Hk%inputSpecials_fields ->. set_solver.
  - intros sk Hsk. rewrite lookup_insert_ne by (intros <-; set_solver).
    apply Hfield. set_solver.
  - rewrite lookup_insert_ne by done. by apply Hfield.
  - by rewrite lookup_insert_eq.
  - intros k. rewrite attrStep_attributes. unfold described.lastPlain.
    by destruct (List.find _ _).
Qed.

Lemma attrsLoop_never_crashes (specialAttrs : gmap string string) (attrs : list funcs.arg) :
  (length attrs mod 2 = 0)%nat ->
  forall i data attributes,
  funcs.attrsLoop specialAttrs i attrs data attributes <> funcs.Crash.
Proof.
  revert attrs. apply (even_length_ind (λ l, forall i data attributes,
    funcs.attrsLoop specialAttrs i l data attributes <> funcs.Crash)); [done|].
  intros a b l IH i data attributes. destruct a; cbn [funcs.attrsLoop]; try done.
  destruct (specialAttrs !! s); apply IH.
Qed.

Lemma attrsLoop_value (specialAttrs : gmap string string) (attrs : list funcs.arg) :
  forall i data attributes out,
  funcs.attrsLoop specialAttrs i attrs data attributes = funcs.Value out ->
  exists pairs, attrs = described.attrPairs pairs.
Proof.
  remember (length attrs) as n eqn:Hn. revert attrs Hn.
  induction (lt_wf n) as [n _ IH]. intros attrs -> i data attributes out.
  destruct attrs as [|a [|b l]].
  - by exists [].
  - by destruct a.
  - destruct a as [key| | |]; cbn [funcs.attrsLoop]; try done.
    intros Hrun.
    assert (exists pairs, l = described.attrPairs pairs) as [pairs ->].
    { destruct (specialAttrs !! key);
        exact (IH (length l) ltac:(simpl; lia) l eq_refl _ _ _ _ Hrun). }
    by exists ((key, b) :: pairs).
Qed.

(** X10.  [InputAttrs] never panics on an index out of range, and it
    returns a map exactly when its attributes are pairs whose first
    component is a string; every other argument list is answered with
    an error and no map. *)
Theorem InputAttrs_outcomes (nameID : string) (attrs : list funcs.arg) :
  funcs.InputAttrs nameID attrs <> funcs.Crash /\
  ((exists m, funcs.InputAttrs nameID attrs = funcs.Value m)
   <-> exists pairs, attrs = described.attrPairs pairs).
Proof.
  split; [|split].
  - unfold funcs.InputAttrs.
    destruct (length attrs mod 2 =? 0)%nat eqn:Hl; [|done]. cbn [negb].
    apply Nat.eqb_eq in Hl. unfold funcs.attrsToMap.
    match goal with
    | |- context [funcs.attrsLoop ?sp ?i ?l ?d ?a] =>
        pose proof (attrsLoop_never_crashes sp l Hl i d a) as Hc;
        destruct (funcs.attrsLoop sp i l d a) as [[? ?]| |]; done
    end.
  - intros [m Hrun]. unfold funcs.InputAttrs in Hrun.
    destruct (negb _); [done|]. unfold funcs.attrsToMap in Hrun.
    match type of Hrun with
    | context [funcs.attrsLoop ?sp ?i ?l ?d ?a] =>
        destruct (funcs.attrsLoop sp i l d a) eqn:Hloop; [|done|done]
    end.
    by eapply attrsLoop_value.
  - intros [pairs ->]. unfold funcs.InputAttrs.
    rewrite attrPairs_length. cbn [Nat.eqb negb].
    rewrite attrsToMap_pairs by done. by eexists.
Qed.

Lemma attrsLoop_bad_key (specialAttrs : gmap string string)
    (pairs : list (string * funcs.arg)) (bad : funcs.arg) (rest : list funcs.arg) :
  (forall s, bad <> funcs.AStr s) ->
  forall i data attributes,
  funcs.attrsLoop specialAttrs i (described.attrPairs pairs ++ bad :: rest)%list
    data attributes
  = funcs.Error (errors.New ("[InputAttrs] attribute key at position "
      ++ funcs.decimal (i + 2 * length pairs) ++ " is not a string")).
Proof.
  intros Hbad. induction pairs as [|[key value] pairs IH]; intros i data attributes.
  - cbn [described.attrPairs flat_map app length]. rewrite Nat.mul_0_r, Nat.add_0_r.
    destruct bad as [s| | |]; [by destruct (Hbad s)|done..].
  - change (described.attrPairs ((key, value) :: pairs) ++ bad :: rest)%list
      with (funcs.AStr key :: value :: (described.attrPairs pairs ++ bad :: rest))%list.
    cbn [funcs.attrsLoop length].
    replace (i + 2 * S (length pairs))%nat with (i + 2 + 2 * length pairs)%nat by lia.
    destruct (specialAttrs !! key); apply IH.
Qed.

Lemma attrPairs_length_double (pairs : list (string * funcs.arg)) :
  length (described.attrPairs pairs) = (2 * length pairs)%nat.
Proof.
  induction pairs as [|p pairs IH]; [done|].
  change (length (described.attrPairs (p :: pairs)))
    with (S (S (length (described.attrPairs pairs)))).
  rewrite IH. simpl. lia.
Qed.

(** X11.  When the attributes come in an even number and the first key
    that is not a string stands at position [2 * k] (after [k]
    well-formed pairs), [InputAttrs] returns no map and the error that
    names that position, whatever the pairs before it had set. *)
Theorem InputAttrs_bad_key (nameID : string) (pairs : list (string * funcs.arg))
    (bad : funcs.arg) (rest : list funcs.arg) :
  (forall s, bad <> funcs.AStr s) ->
  (length rest mod 2 = 1)%nat ->
  funcs.InputAttrs nameID (described.attrPairs pairs ++ bad :: rest)%list
  = funcs.Error (errors.New ("[InputAttrs] attribute key at position "
      ++ funcs.decimal (2 * length pairs) ++ " is not a string")).
Proof.
  intros Hbad Hrest. unfold funcs.InputAttrs.
  assert (Hlen : (length (described.attrPairs pairs ++ bad :: rest) mod 2 = 0)%nat).
  { rewrite length_app, attrPairs_length_double. cbn [length].
    rewrite (Nat.div_mod_eq (length rest) 2), Hrest.
    replace (2 * length pairs + S (2 * (length rest / 2) + 1))%nat
      with ((length pairs + length rest / 2 + 1) * 2)%nat by lia.
    apply Nat.Div0.mod_mul. }
  rewrite Hlen. cbn [Nat.eqb negb]. unfold funcs.attrsToMap.
  by rewrite attrsLoop_bad_key.
Qed.

Lemma InputAttrs_bad_key_witness :
  funcs.InputAttrs "email" (described.attrPairs [("label", funcs.AStr "Name")]
                              ++ funcs.AInt 7 :: [funcs.AStr "x"])%list
  = funcs.Error (errors.New ("[InputAttrs] attribute key at position "
      ++ funcs.decimal (2 * length [("label", funcs.AStr "Name")]) ++ " is not a string")).
Proof.
  apply (InputAttrs_bad_key "email" [("label", funcs.AStr "Name")] (funcs.AInt 7)
           [funcs.AStr "x"]); [discriminate|reflexivity].
Defined.

(** ** Package [response]: reading and writing the view data *)

Section ViewDataAccess.
Implicit Types (h : response.heap) (v : response.loc) (d : response.Data)
  (pd data : response.PageData).

Lemma Get_lookup d (key : string) :
  response.Get d key
  = default (response.Str EmptyString) (response.pageData d ≫= (.!! key)).
Proof.
  unfold response.Get. destruct (response.pageData d) as [pd|]; simpl; [done|].
  by rewrite lookup_empty.
Qed.

Lemma initData_fixed pd :
  is_Some (pd !! "Error") -> is_Some (pd !! "Errors") ->
  response.initData (Some pd) = pd.
Proof. intros [x Hx] [y Hy]. unfold response.initData. by rewrite Hx, Hy. Qed.

(** An object with a page-data map refers to a map in memory. *)
Lemma pageData_Some h v d pd :
  h !! v = Some d -> response.pageData d = Some pd ->
  exists (o : response.object) (m : response.mapref),
    response.objects h !! v = Some o /\ response.pageMap o = Some m
    /\ pd = response.deref h m
    /\ d = response.mkData (response.objTitle o) (response.objRequest o) (Some pd)
             (response.objCsrfToken o) (response.objEnvironment o).
Proof.
  intros (o & Ho & ->)%heap_lookup_Some. cbn [response.pageData].
  destruct (response.pageMap o) as [m|] eqn:Hm; [|done].
  intros [= <-]. by exists o, m.
Qed.

(** Reading an object after a write into the map at [m]: it reads the
    new map when it refers to [m], and what it read before when it
    does not. *)
Lemma heap_lookup_setMap h (m : response.mapref) pd v (o : response.object) :
  response.objects h !! v = Some o ->
  response.setMap m pd h !! v
  = Some (response.mkData (response.objTitle o) (response.objRequest o)
            (if decide (response.pageMap o = Some m) then Some pd
             else response.deref h <$> response.pageMap o)
            (response.objCsrfToken o) (response.objEnvironment o)).
Proof.
  intros Ho. erewrite heap_lookup_object by exact Ho. do 2 f_equal.
  destruct (response.pageMap o) as [m'|]; [|by rewrite decide_False].
  cbn [fmap option_fmap option_map]. rewrite deref_setMap.
  destruct (decide (m = m')) as [->|Hne].
  - by rewrite decide_True.
  - by rewrite decide_False by congruence.
Qed.

Lemma heap_lookup_setMap_None h (m : response.mapref) pd v :
  response.objects h !! v = None -> response.setMap m pd h !! v = None.
Proof.
  intros Ho. unfold lookup, response.heap_lookup, response.setMap.
  cbn [response.objects]. by rewrite Ho.
Qed.

(** A write into the map of [v] is read by the objects that share the
    map, and by no other object. *)
Lemma setMap_frame h (m : response.mapref) pd v (o : response.object) :
  response.objects h !! v = Some o -> response.pageMap o = Some m ->
  (forall v', described.sharesMap h v v' ->
     response.pageData <$> response.setMap m pd h !! v' = Some (Some pd))
  /\ (forall v', ~ described.sharesMap h v v' ->
     response.setMap m pd h !! v' = h !! v').
Proof.
  intros Ho Hm. split.
  - intros v' (m' & Hv & Hv'). rewrite Ho in Hv. cbn in Hv.
    assert (m' = m) as -> by congruence.
    destruct (response.objects h !! v') as [o'|] eqn:Ho'; [|done].
    injection Hv' as Hv'. erewrite heap_lookup_setMap by exact Ho'.
    cbn [fmap option_fmap option_map response.pageData]. by rewrite decide_True.
  - intros v' Hshare.
    destruct (response.objects h !! v') as [o'|] eqn:Ho'.
    + erewrite heap_lookup_setMap, heap_lookup_object by exact Ho'.
      rewrite decide_False; [done|]. intros Hm'. apply Hshare. exists m.
      rewrite Ho, Ho'. cbn. by rewrite Hm, Hm'.
    + rewrite heap_lookup_setMap_None by done.
      unfold lookup, response.heap_lookup. by rewrite Ho'.
Qed.

(** The map [Data()] returns. *)
Lemma Data_Data_returns h v d :
  h !! v = Some d ->
  exists h',
    response.Data_Data v h
    = Some (<["View" := response.DataPtr v]> (response.initData (response.pageData d)), h').
Proof.
  intros (o & Ho & ->)%heap_lookup_Some. unfold response.Data_Data. rewrite Ho.
  cbn [mbind option_bind response.pageData].
  destruct (initDataAt_spec (response.pageMap o) h) as (_ & Hmap & _).
  destruct (response.initDataAt (response.pageMap o) h) as [m h1].
  cbn [fst snd] in Hmap. rewrite Hmap. by eexists.
Qed.

(** X12.  On an object with a page-data map, [AddErrors] stores the
    message and the field errors so that [Error], [Errors], [HasError]
    and [HasErrors] read them back: [HasError] holds exactly for a
    non-empty message, [HasErrors] exactly for a non-empty map.  Every
    other key reads as before, and the map that [Data()] then hands to
    the template carries the same message and field errors. *)
Theorem AddErrors_read_back h v d pd (msg : string) (fieldErrors : gmap string string) :
  h !! v = Some d -> response.pageData d = Some pd ->
  exists h' d',
    response.AddErrors v msg fieldErrors h = Some h' /\ h' !! v = Some d'
    /\ response.Error d' = msg
    /\ response.Errors d' = fieldErrors
    /\ response.HasError d' = negb (String.eqb msg EmptyString)
    /\ response.HasErrors d' = negb (bool_decide (fieldErrors = ∅))
    /\ (forall k : string, k <> "Error" -> k <> "Errors" ->
        response.Get d' k = response.Get d k)
    /\ exists m h'',
        response.Data_Data v h' = Some (m, h'')
        /\ m !! "Error" = Some (response.Str msg)
        /\ m !! "Errors" = Some (response.StrMap fieldErrors).
Proof.
  intros Hd Hpd.
  destruct (pageData_Some h v d pd Hd Hpd) as (o & m & Ho & Hm & -> & ->).
  unfold response.AddErrors. rewrite Ho. cbn [mbind option_bind]. rewrite Hm.
  cbn [mbind option_bind].
  set (pd' := <["Errors" := response.StrMap fieldErrors]>
                (<["Error" := response.Str msg]> (response.deref h m))).
  assert (Hd' : response.setMap m pd' h !! v
                = Some (response.mkData (response.objTitle o) (response.objRequest o)
                          (Some pd') (response.objCsrfToken o)
                          (response.objEnvironment o))).
  { erewrite heap_lookup_setMap by exact Ho. by rewrite decide_True. }
  eexists _, _. split; [done|]. split; [exact Hd'|].
  assert (HE : response.Error (response.mkData (response.objTitle o)
      (response.objRequest o) (Some pd') (response.objCsrfToken o)
      (response.objEnvironment o)) = msg).
  { unfold response.Error, response.GetString. rewrite Get_lookup. simpl.
    subst pd'. by rewrite lookup_insert_ne, lookup_insert_eq. }
  assert (HEs : response.Errors (response.mkData (response.objTitle o)
      (response.objRequest o) (Some pd') (response.objCsrfToken o)
      (response.objEnvironment o)) = fieldErrors).
  { unfold response.Errors. rewrite Get_lookup. simpl. subst pd'.
    by rewrite lookup_insert_eq. }
  split; [done|]. split; [done|].
  split; [unfold response.HasError; by rewrite HE|].
  split; [unfold response.HasErrors; by rewrite HEs|].
  split.
  - intros k H1 H2. rewrite !Get_lookup. simpl. subst pd'.
    by rewrite !lookup_insert_ne.
  - destruct (Data_Data_returns _ _ _ Hd') as [h'' Hdata].
    eexists _, _. split; [exact Hdata|]. cbn [response.pageData].
    rewrite !lookup_insert_ne by done.
    rewrite initData_Error, initData_Errors. simpl. subst pd'.
    by rewrite lookup_insert_ne, !lookup_insert_eq.
Qed.

(** X13.  The writers assign into the page-data map, so they panic
    exactly on an object whose map is nil: [AddDataItem] and
    [AddErrors] always, [AddData] unless there is nothing to add.
    [Data()] repairs the object: after it, the writers succeed. *)
Theorem writers_panic_on_nil_map h v d :
  h !! v = Some d ->
  (forall (key : string) value,
     viewdata.AddDataItem v key value h = None <-> response.pageData d = None)
  /\ (forall (msg : string) fieldErrors,
     response.AddErrors v msg fieldErrors h = None <-> response.pageData d = None)
  /\ (forall data,
     viewdata.AddData v data h = None <-> response.pageData d = None /\ data <> ∅)
  /\ exists m h',
       response.Data_Data v h = Some (m, h')
       /\ forall (key : string) value, is_Some (viewdata.AddDataItem v key value h').
Proof.
  intros (o & Ho & ->)%heap_lookup_Some. cbn [response.pageData].
  assert (Hnil : response.deref h <$> response.pageMap o = None
                 <-> response.pageMap o = None)
    by (by destruct (response.pageMap o)).
  split; [|split; [|split]].
  - intros key value. unfold viewdata.AddDataItem. rewrite Ho, Hnil.
    cbn [mbind option_bind]. by destruct (response.pageMap o).
  - intros msg fieldErrors. unfold response.AddErrors. rewrite Ho, Hnil.
    cbn [mbind option_bind]. by destruct (response.pageMap o).
  - intros data. unfold viewdata.AddData. rewrite Ho, Hnil. cbn [mbind option_bind].
    destruct (response.pageMap o) as [m|].
    + split; [done|]. by intros [? _].
    + destruct (decide (data = ∅)) as [->|Hne].
      * rewrite bool_decide_eq_true_2 by done. split; [done|]. by intros [_ ?].
      * by rewrite bool_decide_eq_false_2.
  - unfold response.Data_Data. rewrite Ho. cbn [mbind option_bind].
    destruct (response.initDataAt (response.pageMap o) h) as [m h1].
    eexists _, _. split; [done|].
    intros key value. unfold viewdata.AddDataItem, response.setMap, response.setObject.
    cbn [response.objects]. rewrite lookup_insert_eq. by cbn.
Qed.

(** X14.  On an object with a page-data map, [AddData] merges: a key
    of the added map reads as its new value, every other key as
    before; adding a one-entry map is [AddDataItem].  The write goes
    into the map itself: every object that shares the map (objects
    made by [NewData] from one map do) reads the same page data
    afterwards, and the objects that do not share it are unchanged. *)
Theorem AddData_Get h v d pd data :
  h !! v = Some d -> response.pageData d = Some pd ->
  exists h' d',
    viewdata.AddData v data h = Some h' /\ h' !! v = Some d'
    /\ (forall k : string,
        response.Get d' k = match data !! k with
                            | Some value => value
                            | None => response.Get d k
                            end)
    /\ (forall (key : string) value,
        viewdata.AddData v {[ key := value ]} h = viewdata.AddDataItem v key value h)
    /\ response.title d' = response.title d
    /\ response.request d' = response.request d
    /\ (forall v', described.sharesMap h v v' ->
        response.pageData <$> h' !! v' = Some (response.pageData d'))
    /\ (forall v', ~ described.sharesMap h v v' -> h' !! v' = h !! v').
Proof.
  intros Hd Hpd.
  destruct (pageData_Some h v d pd Hd Hpd) as (o & m & Ho & Hm & -> & ->).
  unfold viewdata.AddData. rewrite Ho. cbn [mbind option_bind]. rewrite Hm.
  assert (Hd' : response.setMap m (data ∪ response.deref h m) h !! v
                = Some (response.mkData (response.objTitle o) (response.objRequest o)
                          (Some (data ∪ response.deref h m)) (response.objCsrfToken o)
                          (response.objEnvironment o))).
  { erewrite heap_lookup_setMap by exact Ho. by rewrite decide_True. }
  destruct (setMap_frame h m (data ∪ response.deref h m) v o Ho Hm) as [Hshared Hrest].
  eexists _, _. split; [done|]. split; [exact Hd'|].
  split; [|split; [|split; [done|split; [done|split; [exact Hshared|exact Hrest]]]]].
  - intros k. rewrite !Get_lookup. simpl. rewrite lookup_union.
    destruct (data !! k), (response.deref h m !! k); done.
  - intros key value. unfold viewdata.AddDataItem. rewrite Ho. cbn [mbind option_bind].
    rewrite Hm. cbn [mbind option_bind]. by rewrite <- insert_union_singleton_l.
Qed.

(** X15.  [HasError] holds exactly when "Error" is bound to a
    non-empty string, and [HasErrors] exactly when "Errors" is bound
    to a non-empty map of strings: a value of another type stored under
    these keys (an error value, a list of messages) is read as no
    error at all. *)
Theorem HasError_by_type d :
  (response.HasError d = true
   <-> exists s : string,
         response.pageData d ≫= (.!! "Error") = Some (response.Str s)
         /\ s <> EmptyString)
  /\ (response.HasErrors d = true
   <-> exists m : gmap string string,
         response.pageData d ≫= (.!! "Errors") = Some (response.StrMap m) /\ m <> ∅).
Proof.
  split.
  - unfold response.HasError, response.Error, response.GetString. rewrite Get_lookup.
    destruct (response.pageData d ≫= (.!! "Error")) as [[s| | | | |]|]; simpl;
      try (split; [done|by intros (? & ? & ?)]).
    rewrite negb_true_iff. split.
    + intros Hs. exists s. split; [done|]. intros ->. by rewrite String.eqb_refl in Hs.
    + intros (s' & [= <-] & Hs). by apply String.eqb_neq.
  - unfold response.HasErrors, response.Errors. rewrite Get_lookup.
    destruct (response.pageData d ≫= (.!! "Errors")) as [[| | |m| |]|]; simpl;
      try (rewrite bool_decide_eq_true_2 by done; split; [done|by intros (? & ? & ?)]).
    rewrite negb_true_iff, bool_decide_eq_false. split.
    + intros Hm. by exists m.
    + by intros (m' & [= <-] & Hm).
Qed.

(** X16.  [Data()] is idempotent: called again on the heap it left, it
    returns the same map and leaves the heap as it is. *)
Theorem Data_Data_idempotent h v m h' :
  response.Data_Data v h = Some (m, h') -> response.Data_Data v h' = Some (m, h').
Proof.
  unfold response.Data_Data at 1.
  destruct (response.objects h !! v) as [o|] eqn:Ho; [|done]. cbn [mbind option_bind].
  destruct (initDataAt_spec (response.pageMap o) h) as (Hobj & Hmap & _).
  destruct (response.initDataAt (response.pageMap o) h) as [m0 h1].
  cbn [fst snd] in Hobj, Hmap. rewrite Hmap.
  set (pd := <["View" := response.DataPtr v]>
               (response.initData (response.deref h <$> response.pageMap o))).
  set (o1 := response.setPageMap o (Some m0)).
  intros [= <- <-].
  set (h' := response.setMap m0 pd (response.setObject v o1 h1)).
  assert (Ho1 : response.objects h' !! v = Some o1) by apply lookup_insert_eq.
  assert (Hpd : response.deref h' m0 = pd).
  { unfold h'. by rewrite deref_setMap, decide_True. }
  assert (Hfixed : response.initData (Some pd) = pd).
  { apply initData_fixed; unfold pd; rewrite lookup_insert_ne by done.
    - rewrite initData_Error. by eexists.
    - rewrite initData_Errors. by eexists. }
  unfold response.Data_Data. rewrite Ho1. cbn [mbind option_bind].
  change (response.pageMap o1) with (Some m0). cbn [response.initDataAt].
  rewrite Hpd, Hfixed, deref_setMap, decide_True by done.
  assert (Hview : <["View" := response.DataPtr v]> pd = pd)
    by (unfold pd; apply insert_insert_eq).
  rewrite Hview. do 2 f_equal.
  change (response.setPageMap o1 (Some m0)) with o1.
  unfold h', response.setMap, response.setObject.
  cbn [response.objects response.maps]. by rewrite !insert_insert_eq.
Qed.

(** X17.  [NewData] makes an object at an address that was unused, and
    the object accepts every writer at once, also when it was made from
    nil.  Made from a map, the object keeps that very map, completed
    in place with the defaults for "Error" and "Errors": it shares the
    map with every object that referred to it before, and those
    objects read the completed map too.  An object that does not refer
    to the given map is unchanged. *)
Theorem NewData_writable h (pm : option response.mapref) :
  let v := fst (response.NewData pm h) in
  let h' := snd (response.NewData pm h) in
  h !! v = None
  /\ response.pageData <$> h' !! v
     = Some (Some (response.initData (response.deref h <$> pm)))
  /\ (forall (key : string) value, is_Some (viewdata.AddDataItem v key value h'))
  /\ (forall data, is_Some (viewdata.AddData v data h'))
  /\ (forall (msg : string) fieldErrors, is_Some (response.AddErrors v msg fieldErrors h'))
  /\ (forall m : response.mapref, pm = Some m ->
      described.refersTo h' v m
      /\ forall v', described.refersTo h v' m ->
            described.sharesMap h' v v'
            /\ response.pageData <$> h' !! v'
               = Some (Some (response.initData (Some (response.deref h m)))))
  /\ (forall v', v' <> v ->
      (forall m : response.mapref, pm = Some m -> ~ described.refersTo h v' m) ->
      h' !! v' = h !! v').
Proof.
  unfold response.NewData.
  destruct (initDataAt_spec pm h) as (Hobj & Hmap & Hother & Hsame & Hnew).
  destruct (response.initDataAt pm h) as [m0 h1] eqn:Hinit. cbn [fst snd] in *.
  set (v := fresh (dom (response.objects h1))).
  set (o := response.mkObject EmptyString None (Some m0) EmptyString EmptyString).
  assert (Hv : response.objects h !! v = None).
  { rewrite <- Hobj. apply not_elem_of_dom, is_fresh. }
  assert (Ho : response.objects (response.setObject v o h1) !! v = Some o)
    by apply lookup_insert_eq.
  split; [unfold lookup, response.heap_lookup; by rewrite Hv|].
  split.
  { erewrite heap_lookup_object by exact Ho.
    cbn [fmap option_fmap option_map response.pageData response.pageMap o].
    by rewrite deref_setObject, Hmap. }
  split.
  { intros key value. unfold viewdata.AddDataItem. rewrite Ho. by cbn. }
  split.
  { intros data. unfold viewdata.AddData. rewrite Ho. by cbn. }
  split.
  { intros msg fieldErrors. unfold response.AddErrors. rewrite Ho. by cbn. }
  split.
  - intros m ->. specialize (Hsame m eq_refl) as ->.
    split; [unfold described.refersTo; by rewrite Ho|].
    intros v' Hv'. unfold described.refersTo in Hv'.
    destruct (response.objects h !! v') as [o'|] eqn:Ho'; [|done].
    injection Hv' as Hm'.
    assert (v' <> v) as Hne by (intros ->; congruence).
    assert (Ho1 : response.objects (response.setObject v o h1) !! v' = Some o').
    { unfold response.setObject. cbn [response.objects].
      by rewrite lookup_insert_ne, Hobj. }
    split.
    + exists m. rewrite Ho, Ho1. cbn. by rewrite Hm'.
    + erewrite heap_lookup_object by exact Ho1. rewrite Hm'.
      cbn [fmap option_fmap option_map response.pageData].
      by rewrite deref_setObject, Hmap.
  - intros v' Hne Hrefers.
    unfold lookup, response.heap_lookup, response.setObject. cbn [response.objects].
    rewrite lookup_insert_ne, Hobj by done.
    destruct (response.objects h !! v') as [o'|] eqn:Ho'; [|done].
    cbn [mbind option_bind]. do 2 f_equal.
    destruct (response.pageMap o') as [m'|] eqn:Hm'; [|done].
    cbn [fmap option_fmap option_map]. f_equal.
    change (response.deref (response.mkHeap (<[v:=o]> (response.objects h1))
                              (response.maps h1)) m')
      with (response.deref h1 m').
    apply Hother. intros ->.
    destruct pm as [m|].
    + specialize (Hsame m eq_refl) as ->. apply (Hrefers m eq_refl).
      unfold described.refersTo. rewrite Ho'. cbn. by rewrite Hm'.
    + by apply (Hnew eq_refl v' o' Ho').
Qed.

End ViewDataAccess.

Lemma AddErrors_read_back_witness :
  exists h' d',
    response.AddErrors 3%nat "invalid" {[ "email" := "required" ]} moreSamples.itemHeap
    = Some h' /\ h' !! 3%nat = Some d'
    /\ response.Error d' = "invalid"
    /\ response.Errors d' = {[ "email" := "required" ]}
    /\ response.HasError d' = true
    /\ response.HasErrors d' = negb (bool_decide (({[ "email" := "required" ]} : gmap string string) = ∅)).
Proof.
  destruct (AddErrors_read_back moreSamples.itemHeap 3%nat moreSamples.itemData
    (response.initData (Some {[ "item" := response.Str "book" ]}))
    "invalid" {[ "email" := "required" ]} eq_refl eq_refl)
    as (h' & d' & H1 & H2 & H3 & H4 & H5 & H6 & _).
  exists h', d'. repeat split; assumption.
Defined.

Lemma writers_panic_on_nil_map_witness :
  viewdata.AddDataItem 3%nat "item" (response.Str "book") moreSamples.zeroHeap = None.
Proof.
  apply (writers_panic_on_nil_map moreSamples.zeroHeap 3%nat moreSamples.zeroData eq_refl).
  reflexivity.
Defined.

(** Two objects made from one map: what is added through the first is
    read through the second. *)
Lemma AddData_Get_witness :
  exists h' d1,
    viewdata.AddData 0%nat {[ "item" := response.Str "pen" ]} moreSamples.twoViews = Some h'
    /\ h' !! 1%nat = Some d1
    /\ response.Get d1 "item" = response.Str "pen".
Proof.
  destruct (AddData_Get moreSamples.twoViews 0%nat moreSamples.itemData
    (response.initData (Some {[ "item" := response.Str "book" ]}))
    {[ "item" := response.Str "pen" ]}
    ltac:(vm_compute; reflexivity) eq_refl)
    as (h' & d' & H1 & H2 & H3 & _ & _ & _ & Hshared & _).
  assert (Hshare : described.sharesMap moreSamples.twoViews 0%nat 1%nat)
    by (exists 0%nat; split; vm_compute; reflexivity).
  apply Hshared in Hshare.
  destruct (h' !! 1%nat) as [d1|] eqn:Hd1; [|discriminate Hshare].
  exists h', d1. split; [exact H1|]. split; [exact Hd1|].
  injection Hshare as Hpd. specialize (H3 "item").
  unfold response.Get in *. rewrite Hpd. exact H3.
Defined.

Lemma Data_Data_idempotent_witness :
  exists m h',
    response.Data_Data 3%nat moreSamples.zeroHeap = Some (m, h')
    /\ response.Data_Data 3%nat h' = Some (m, h').
Proof.
  destruct (response.Data_Data 3%nat moreSamples.zeroHeap) as [[m h']|] eqn:Hdata;
    [|vm_compute in Hdata; discriminate Hdata].
  exists m, h'. split; [reflexivity|].
  exact (Data_Data_idempotent moreSamples.zeroHeap 3%nat m h' Hdata).
Defined.

(** [NewData] on a map that an object refers to already: the two
    objects share it. *)
Lemma NewData_writable_witness :
  described.sharesMap moreSamples.twoViews 1%nat 0%nat.
Proof.
  destruct (NewData_writable (snd (response.NewData (Some 0%nat) moreSamples.oneMap))
    (Some 0%nat)) as (_ & _ & _ & _ & _ & Hshare & _).
  destruct (Hshare 0%nat eq_refl) as [_ Hall].
  apply (Hall 0%nat). vm_compute. reflexivity.
Defined.
(** ** json.go and the JSON adapter *)

Section JSONWriters.
Context `{json.Encoder}.
Implicit Types (w : http.ResponseWriter) (headers : list http.Header)
  (r : http.Request) (resp : response.Response).

Lemma assignAll_fold headers w :
  foldl (λ w header, json.assignAll header w) w headers
  = http.mkWriter (described.merged headers (http.HeaderMap w))
      (http.wroteHeader w) (http.Code w) (http.Body w) (http.panicked w).
Proof.
  revert w. induction headers as [|header headers IH]; intros w; [by destruct w|].
  cbn [foldl]. by rewrite IH, assignAll_spec.
Qed.

Lemma JSONWithHeaders_general w status (v : json.value) headers :
  json.JSONWithHeaders w status v headers
  = if json.serialisable v
    then
      if http.accepts status w
      then (http.mkWriter
              (<["Content-Type" := ["application/json; charset=UTF-8"]]>
                 (described.merged headers (http.HeaderMap w)))
              true (if http.wroteHeader w then http.Code w else status)
              (http.Body w ++ json.indent v ++ strings.nl) (http.panicked w), None)
      else (http.mkWriter
              (<["Content-Type" := ["application/json; charset=UTF-8"]]>
                 (described.merged headers (http.HeaderMap w)))
              false (http.Code w) (http.Body w) true, None)
    else (w, Some json.unsupported).
Proof.
  unfold json.JSONWithHeaders, json.MarshalIndent.
  destruct (json.serialisable v); [|done].
  cbv zeta. rewrite assignAll_fold.
  destruct (http.accepts status w) eqn:Hcode.
  - rewrite WriteHeader_accepted by done. by rewrite Write_spec.
  - rewrite WriteHeader_refused by done. unfold http.panic.
    cbn [http.SetHeader http.HeaderMap http.wroteHeader http.Code http.Body].
    apply orb_false_iff in Hcode as [_ ->]. done.
Qed.

(** X18.  [JSONWithHeaders] in its three outcomes.  A value without
    JSON encoding is answered with the error and nothing is written:
    the recorder is as before.  Otherwise the headers are assigned:
    the content type is the JSON one whatever the caller's headers
    say, and every other header is taken from the last header map that
    has it, else from the recorder.  Then, when [WriteHeader] takes the
    status (a code from 100 to 999, or a status was written before),
    there is no error, the status is written (unless one was written
    before) and the body gains the document and a newline; on any other
    status [WriteHeader] panics, and no status and no byte is written. *)
Theorem JSONWithHeaders_outcome w status (v : json.value) headers :
  let w' := fst (json.JSONWithHeaders w status v headers) in
  let err := snd (json.JSONWithHeaders w status v headers) in
  (json.serialisable v = false -> err = Some json.unsupported /\ w' = w)
  /\ (json.serialisable v = true ->
      http.Get (http.HeaderMap w') "Content-Type" = "application/json; charset=UTF-8"
      /\ (forall k : string, k <> "Content-Type" ->
          http.HeaderMap w' !! k = described.merged headers (http.HeaderMap w) !! k)
      /\ if http.accepts status w
         then err = None
              /\ http.panicked w' = http.panicked w
              /\ http.wroteHeader w' = true
              /\ http.Code w' = (if http.wroteHeader w then http.Code w else status)
              /\ http.Body w' = http.Body w ++ json.indent v ++ strings.nl
         else http.panicked w' = true
              /\ http.wroteHeader w' = false
              /\ http.Code w' = http.Code w
              /\ http.Body w' = http.Body w)
  /\ (forall (header : http.Header) (base : http.Header) (k : string),
      described.merged (headers ++ [header])%list base !! k
      = match header !! k with
        | Some values => Some values
        | None => described.merged headers base !! k
        end).
Proof.
  cbv zeta. rewrite JSONWithHeaders_general. split; [|split].
  - by intros ->.
  - intros ->. destruct (http.accepts status w);
      cbn [fst snd http.HeaderMap http.Code http.Body http.wroteHeader http.panicked];
      (split; [unfold http.Get; by rewrite lookup_insert_eq|]);
      (split; [|done]); intros k Hk; by rewrite lookup_insert_ne.
  - intros header base k. unfold described.merged. rewrite foldl_app. cbn [foldl].
    rewrite lookup_union. by destruct (header !! k), (foldl _ base headers !! k).
Qed.


Lemma renderFixed_sent w (message : string) status :
  http.checkWriteHeaderCode status = true ->
  http.wroteHeader w = false ->
  JSONAdapter.renderFixed w message status
  = described.sentJSON w (json.mkEnvelope "fail" message json.Nil status).
Proof.
  intros Hcode Hfresh. unfold JSONAdapter.renderFixed, json.JSONFailure. cbv zeta.
  rewrite JSONWithHeaders_general. cbn [json.serialisable json.Data].
  unfold http.accepts. rewrite Hcode. cbn [orb].
  unfold described.sentJSON, described.merged. cbn [foldl json.Code].
  by rewrite Hfresh, (left_id_L ∅ (∪)).
Qed.

Lemma JSON_RenderSystemError_sent w r (err : error) resp :
  http.wroteHeader w = false ->
  JSONAdapter.RenderSystemError w r err resp
  = described.sentJSON w (json.mkEnvelope "error" (errors.Error err) json.Nil 500).
Proof.
  intros Hfresh. unfold JSONAdapter.RenderSystemError, json.JSONError. cbv zeta.
  rewrite JSONWithHeaders_general. cbn [json.serialisable json.Data].
  change (http.accepts http.StatusInternalServerError w) with true. cbv iota.
  unfold described.sentJSON, described.merged. cbn [foldl json.Code].
  by rewrite Hfresh, (left_id_L ∅ (∪)).
Qed.

(** X20.  On a recorder with no status yet, each error page of the
    JSON adapter is the JSON envelope of that page, sent under its
    code: "fail" with 403, 503, 405, 404 and 401, and "error" with the
    message of the error and 500.  The plain-text fallback behind each
    of them is never taken. *)
Theorem JSONAdapter_error_pages w r (err : error) resp :
  http.wroteHeader w = false ->
  JSONAdapter.RenderForbidden w
    = described.sentJSON w (json.mkEnvelope "fail" "Forbidden" json.Nil 403)
  /\ JSONAdapter.RenderMaintenance w
    = described.sentJSON w (json.mkEnvelope "fail" "Maintenance" json.Nil 503)
  /\ JSONAdapter.RenderMethodNotAllowed w
    = described.sentJSON w (json.mkEnvelope "fail" "Method not allowed" json.Nil 405)
  /\ JSONAdapter.RenderNotFound w
    = described.sentJSON w (json.mkEnvelope "fail" "Not found" json.Nil 404)
  /\ JSONAdapter.RenderUnauthorized w
    = described.sentJSON w (json.mkEnvelope "fail" "Unauthorized" json.Nil 401)
  /\ JSONAdapter.RenderSystemError w r err resp
    = described.sentJSON w (json.mkEnvelope "error" (errors.Error err) json.Nil 500).
Proof.
  intros Hfresh.
  unfold JSONAdapter.RenderForbidden, JSONAdapter.RenderMaintenance,
    JSONAdapter.RenderMethodNotAllowed, JSONAdapter.RenderNotFound,
    JSONAdapter.RenderUnauthorized.
  rewrite !renderFixed_sent by done. repeat (split; [done|]).
  by apply JSON_RenderSystemError_sent.
Qed.




End JSONWriters.

Lemma JSONAdapter_error_pages_witness :
  http.Code (@JSONAdapter.RenderForbidden samples.tagEncoder http.NewRecorder) = 403
  /\ http.Body (@JSONAdapter.RenderNotFound samples.tagEncoder http.NewRecorder)
     = "fail: Not found" ++ strings.nl.
Proof.
  destruct (@JSONAdapter_error_pages samples.tagEncoder http.NewRecorder (samples.get [])
    (errors.New "boom") inputs.homeResp eq_refl) as (H403 & _ & _ & H404 & _).
  rewrite H403, H404. split; reflexivity.
Defined.


(** ** The template adapter: pages, error pages and headers *)

Section TemplatePages.
Context `{template.Engine}.
Implicit Types (a : TemplateAdapter.TemplateAdapter) (w : http.ResponseWriter)
  (r : http.Request) (resp : response.Response).



Lemma page_headers a r resp (key value : string) :
  described.page a r (response.SetHeader key value resp) = described.page a r resp.
Proof. done. Qed.





End TemplatePages.




(** ** The facade: error pages *)

Section FacadePages.
Implicit Types (s : HyperView.HyperView) (σ : adapter.store) (w : http.ResponseWriter)
  (r : http.Request) (a : adapter.ref).

(** A call that leaves the receiver as it is leaves the store as it is. *)
Lemma call_pure {R : Type} σ a (obj : adapter.Object)
    (method : forall A : Type, adapter.Adapter A -> A -> A * R) :
  σ !! a = Some obj ->
  fst (method (adapter.impl obj) (adapter.methods obj) (adapter.self obj))
    = adapter.self obj ->
  HyperView.call σ a method
  = Some (σ, snd (method (adapter.impl obj) (adapter.methods obj) (adapter.self obj))).
Proof.
  intros Hobj Hself. unfold HyperView.call. rewrite Hobj.
  destruct obj as [A M self]. cbn [adapter.impl adapter.methods adapter.self] in *.
  destruct (method A M self) as [self' res]. cbn [fst snd] in *. subst self'.
  by rewrite insert_id.
Qed.

Lemma adapterFor_registered s w (key : string) a :
  HyperView.adapters s !! described.keyOf key = Some a ->
  HyperView.adapterFor s w key = (Some a, w).
Proof.
  intros Ha. unfold HyperView.adapterFor, HyperView.Adapter. cbv zeta.
  fold (described.keyOf key). by rewrite Ha.
Qed.

Lemma adapterFor_missing s w (key : string) :
  HyperView.adapters s !! described.keyOf key = None ->
  HyperView.adapterFor s w key
  = (None, http.Error w "Adapter not found" http.StatusInternalServerError).
Proof.
  intros Ha. unfold HyperView.adapterFor, HyperView.Adapter. cbv zeta.
  fold (described.keyOf key). by rewrite Ha.
Qed.


(** X26.  The error pages of the facade through the JSON adapter, on a
    recorder with no status yet: the client always gets the status of
    the page with a JSON content type. *)
Theorem error_pages_by_json `{json.Encoder} s σ w r (key : string) (err : error)
    (v : response.loc) a (u : unit) :
  HyperView.adapters s !! described.keyOf key = Some a ->
  σ !! a = Some (adapter.mkObject unit adapter.JSONAdapter_Adapter u) ->
  http.wroteHeader w = false ->
  Forall (λ p, exists w',
            snd p s σ w key = Some (σ, w')
            /\ http.Code w' = fst p
            /\ http.Get (http.HeaderMap w') "Content-Type"
               = "application/json; charset=UTF-8")
    (described.errorPages r err v).
Proof.
  intros Ha Hobj Hfresh. unfold described.errorPages.
  repeat apply Forall_cons_2; [..|apply Forall_nil_2]; cbn [fst snd];
    unfold HyperView.RenderNotFoundAs, HyperView.RenderSystemErrorAs,
      pages.RenderMaintenanceAs, pages.RenderForbiddenAs,
      pages.RenderMethodNotAllowedAs, pages.RenderUnauthorizedAs, pages.renderAs;
    rewrite (adapterFor_registered _ _ _ _ Ha);
    (erewrite call_pure; [|exact Hobj|reflexivity]);
    eexists; (split; [reflexivity|]);
    cbn [adapter.impl adapter.methods adapter.self snd
         adapter.RenderNotFound adapter.RenderSystemError adapter.RenderMaintenance
         adapter.RenderForbidden adapter.RenderMethodNotAllowed
         adapter.RenderUnauthorized adapter.JSONAdapter_Adapter];
    unfold JSONAdapter.RenderForbidden, JSONAdapter.RenderMaintenance,
      JSONAdapter.RenderMethodNotAllowed, JSONAdapter.RenderNotFound,
      JSONAdapter.RenderUnauthorized;
    rewrite ?renderFixed_sent, ?JSON_RenderSystemError_sent by done;
    unfold described.sentJSON, http.Get; cbn [http.Code http.HeaderMap json.Code];
    by rewrite lookup_insert_eq.
Qed.

(** X27.  With no adapter under the key (the empty key standing for
    "html"), none of the entry points of the facade calls an adapter:
    [RenderAs] and the six error pages answer with the 500 diagnostic
    "Adapter not found" and leave the store as it is. *)
Theorem no_adapter_no_call s σ w r (key : string) (err : error) (v : response.loc)
    (resp : response.Response) :
  HyperView.adapters s !! described.keyOf key = None ->
  HyperView.RenderAs s σ w r key resp
    = Some (σ, http.Error w "Adapter not found" http.StatusInternalServerError)
  /\ Forall (λ p, snd p s σ w key
                  = Some (σ, http.Error w "Adapter not found"
                               http.StatusInternalServerError))
       (described.errorPages r err v).
Proof.
  intros Ha. split.
  - unfold HyperView.RenderAs. by rewrite (adapterFor_missing _ _ _ Ha).
  - unfold described.errorPages.
    repeat apply Forall_cons_2; [..|apply Forall_nil_2]; cbn [fst snd];
      unfold HyperView.RenderNotFoundAs, HyperView.RenderSystemErrorAs,
        pages.RenderMaintenanceAs, pages.RenderForbiddenAs,
        pages.RenderMethodNotAllowedAs, pages.RenderUnauthorizedAs, pages.renderAs;
      by rewrite (adapterFor_missing _ _ _ Ha).
Qed.

End FacadePages.


Lemma error_pages_by_json_witness :
  Forall (λ p, exists w',
            snd p moreSamples.jsonFacade moreSamples.jsonStore http.NewRecorder "json"
              = Some (moreSamples.jsonStore, w')
            /\ http.Code w' = fst p
            /\ http.Get (http.HeaderMap w') "Content-Type"
               = "application/json; charset=UTF-8")
    (described.errorPages (samples.get []) (errors.New "boom") 0%nat).
Proof.
  apply (@error_pages_by_json samples.tagEncoder moreSamples.jsonFacade
    moreSamples.jsonStore http.NewRecorder (samples.get []) "json" (errors.New "boom")
    0%nat 6%nat tt eq_refl eq_refl eq_refl).
Defined.

Lemma no_adapter_no_call_witness :
  HyperView.RenderAs inputs.emptyFacade inputs.failingStore http.NewRecorder
    (samples.get []) "pdf" inputs.homeResp
  = Some (inputs.failingStore,
          http.Error http.NewRecorder "Adapter not found" http.StatusInternalServerError).
Proof.
  apply (no_adapter_no_call inputs.emptyFacade inputs.failingStore http.NewRecorder
    (samples.get []) "pdf" (errors.New "boom") 0%nat inputs.homeResp eq_refl).
Defined.

(** ** The template adapter: what a successful [Init] registers *)

Section InitCoverage.
Context `{template.Engine}.
Implicit Types (a : TemplateAdapter.TemplateAdapter)
  (order : list (string * template.FS)) (cache : gmap string template.Template).

(** A walk that ends without error called the callback on every entry
    without error; [R] is a preorder along which the callback moves the
    state. *)
Lemma walk_visits {S E : Type} (R : S -> S -> Prop)
    (fn : S -> fs.WalkStep -> S * option E) (steps : list fs.WalkStep) (s s' : S) :
  (forall x, R x x) -> (forall x y z, R x y -> R y z -> R x z) ->
  (forall s0 step, R s0 (fst (fn s0 step))) ->
  fs.walk fn steps s = (s', None) ->
  R s s'
  /\ forall step, step ∈ steps ->
       exists s0, snd (fn s0 step) = None /\ R (fst (fn s0 step)) s'.
Proof.
  intros Hrefl Htrans Hfn. revert s.
  induction steps as [|step rest IH]; intros s; cbn [fs.walk].
  - intros [= <-]. split; [done|]. intros step Hin. by apply elem_of_nil in Hin.
  - pose proof (Hfn s step) as Hstep.
    destruct (fn s step) as [s1 [e|]] eqn:Hcall; [done|]. cbn [fst] in Hstep.
    intros Hwalk. destruct (IH _ Hwalk) as [Hs1 Hrest]. split; [by eapply Htrans|].
    intros step' [->|Hin]%elem_of_cons; [|by apply Hrest].
    exists s. by rewrite Hcall.
Qed.

(** The registry only grows. *)
Lemma processDirectory_grows a (fsID : string) fsys base cache step :
  described.grows cache (fst (TemplateAdapter.processDirectory a fsID fsys base cache step)).
Proof.
  unfold TemplateAdapter.processDirectory, described.grows.
  destruct (fs.walkErr step); [done|].
  destruct (negb _ && _)%bool; [|done].
  destruct (filepath.Rel (fs.path step)); [|done].
  destruct (template.Clone base); [|done].
  destruct (template.ParseFS _ _ _); [|done].
  intros k Hk. cbn [fst]. rewrite lookup_insert_is_Some'. by right.
Qed.

Lemma processDirectory_registers a (fsID : string) fsys base cache step :
  snd (TemplateAdapter.processDirectory a fsID fsys base cache step) = None ->
  fs.IsDir step = false ->
  filepath.Ext (fs.path step) = TemplateAdapter.extension a ->
  is_Some (fst (TemplateAdapter.processDirectory a fsID fsys base cache step)
             !! claimed.pageKey fsID (fs.path step))
  /\ fs.walkErr step = None
  /\ filepath.Rel (fs.path step) = Ok (fs.path step).
Proof.
  unfold TemplateAdapter.processDirectory. intros Hnone Hdir Hext.
  destruct (fs.walkErr step); [done|].
  rewrite Hdir, Hext, String.eqb_refl in *. cbn [negb andb] in *.
  destruct (filepath.Rel (fs.path step)) as [relPath|e] eqn:Hrel; [|done].
  apply Rel_Ok in Hrel as ->.
  destruct (template.Clone base); [|done].
  destruct (template.ParseFS _ _ _); [|done].
  cbn [fst]. split; [|done]. fold (claimed.pageKey fsID (fs.path step)).
  by rewrite lookup_insert_eq.
Qed.

Lemma processAll_registers a order base cache cache' :
  TemplateAdapter.processAll a order base cache = (cache', Success) ->
  described.grows cache cache'
  /\ forall (fsID : string) fsys step,
       (fsID, fsys) ∈ order ->
       template.Open fsys constants.ViewsDir = true ->
       step ∈ template.WalkDir fsys constants.ViewsDir ->
       fs.IsDir step = false ->
       filepath.Ext (fs.path step) = TemplateAdapter.extension a ->
       is_Some (cache' !! claimed.pageKey fsID (fs.path step))
       /\ fs.walkErr step = None
       /\ filepath.Rel (fs.path step) = Ok (fs.path step).
Proof.
  revert cache. induction order as [|[fsID fsys] rest IH]; intros cache;
    cbn [TemplateAdapter.processAll].
  - intros [= <-]. split; [by unfold described.grows|].
    intros ? ? ? Hin. by apply elem_of_nil in Hin.
  - destruct (template.Open fsys constants.ViewsDir) eqn:Hopen.
    + destruct (fs.walk _ _ cache) as [cache1 [stop|]] eqn:Hwalk;
        [by destruct stop|].
      intros Hrest. destruct (IH _ Hrest) as [Hgrow Hall].
      apply (walk_visits described.grows) in Hwalk as [Hgrow1 Hsteps];
        [|by unfold described.grows|unfold described.grows; by eauto
         |apply processDirectory_grows].
      split; [unfold described.grows in *; by eauto|].
      intros fsID' fsys' step [[= -> ->]|Hin]%elem_of_cons Hopen' Hstep Hdir Hext;
        [|by eapply Hall].
      destruct (Hsteps step Hstep) as (c0 & Hnone & Hc0).
      destruct (processDirectory_registers a fsID fsys base c0 step Hnone Hdir Hext)
        as (Hkey & Herr & Hrel).
      split; [|done]. by apply Hgrow, Hc0.
    + intros Hrest. destruct (IH _ Hrest) as [Hgrow Hall]. split; [done|].
      intros fsID' fsys' step [[= -> ->]|Hin]%elem_of_cons Hopen' Hstep Hdir Hext;
        [congruence|by eapply Hall].
Qed.

(** X28.  After an [Init] that returns no error, the registry holds an
    entry for every file with the adapter's extension that the walk of
    "views" visits in any mounted file system, under the key [Init]
    derives from its path (the layouts and the system pages among
    them); no such file had a walk error or a rooted path.  The
    extension, the file systems and the function map are as before. *)
Theorem Init_registers_every_view (partialsOrder viewsOrder : list (string * template.FS))
    a a' :
  TemplateAdapter.InitIn partialsOrder viewsOrder a = (a', Success) ->
  TemplateAdapter.extension a' = TemplateAdapter.extension a
  /\ TemplateAdapter.fileSystemMap a' = TemplateAdapter.fileSystemMap a
  /\ TemplateAdapter.funcMap a' = TemplateAdapter.funcMap a
  /\ forall (fsID : string) fsys step,
       (fsID, fsys) ∈ viewsOrder ->
       template.Open fsys constants.ViewsDir = true ->
       step ∈ template.WalkDir fsys constants.ViewsDir ->
       fs.IsDir step = false ->
       filepath.Ext (fs.path step) = TemplateAdapter.extension a ->
       is_Some (TemplateAdapter.templates a' !! claimed.pageKey fsID (fs.path step))
       /\ fs.walkErr step = None
       /\ filepath.Rel (fs.path step) = Ok (fs.path step).
Proof.
  unfold TemplateAdapter.InitIn. cbv zeta.
  destruct (TemplateAdapter.loadPartials _ partialsOrder) as [base|e]; [|done].
  destruct (TemplateAdapter.processAll _ viewsOrder base _) as [cache res] eqn:Hall.
  intros [= <- ->]. repeat (split; [done|]).
  apply processAll_registers in Hall as [_ Hall].
  intros fsID fsys step Hin Hopen Hstep Hdir Hext.
  by apply (Hall fsID fsys step).
Qed.

End InitCoverage.

Lemma Init_registers_every_view_witness :
  is_Some (TemplateAdapter.templates samples.site !! "views/system/500").
Proof.
  destruct (@Init_registers_every_view samples.listEngine
    [(constants.RootFSID, samples.siteFS [])] [(constants.RootFSID, samples.siteFS [])]
    (samples.siteAdapter []) samples.site ltac:(vm_compute; reflexivity))
    as (_ & _ & _ & Hall).
  apply (Hall constants.RootFSID (samples.siteFS [])
           (samples.file "views/system/500.tmpl")).
  - apply list_elem_of_singleton. reflexivity.
  - vm_compute. reflexivity.
  - vm_compute. repeat constructor.
  - reflexivity.
  - vm_compute. reflexivity.
Defined.

(** ** The facade: the extension of a template path, and [Reinit] *)

Lemma LastIndex_bound (s : string) (c : ascii) : -1 <= strings.LastIndex s c.
Proof.
  induction s as [|x s IH]; cbn [strings.LastIndex]; [done|]. cbv zeta.
  destruct (Z.eqb_spec (strings.LastIndex s c) (-1)); [by destruct (Ascii.eqb x c)|lia].
Qed.

Lemma LastIndex_append (stem ext : string) (c : ascii) :
  strings.LastIndex ext c = -1 ->
  strings.LastIndex (stem ++ String c ext) c = Z.of_nat (String.length stem).
Proof.
  intros Hext. induction stem as [|x stem IH].
  - change (EmptyString ++ String c ext) with (String c ext).
    cbn [strings.LastIndex String.length]. cbv zeta.
    by rewrite Hext, Ascii.eqb_refl.
  - rewrite append_cons. cbn [strings.LastIndex String.length]. cbv zeta. rewrite IH.
    destruct (Z.eqb_spec (Z.of_nat (String.length stem)) (-1)); lia.
Qed.

Lemma substring_0_append (a b : string) : substring 0 (String.length a) (a ++ b) = a.
Proof.
  induction a as [|x a IH]; [by destruct b|].
  rewrite append_cons. cbn [String.length substring]. by rewrite IH.
Qed.

Lemma slice_at_append (stem rest : string) :
  strings.slice_to (stem ++ rest) (Z.of_nat (String.length stem)) = stem
  /\ strings.slice_from (stem ++ rest) (Z.of_nat (String.length stem)) = rest.
Proof.
  unfold strings.slice_to, strings.slice_from. rewrite Nat2Z.id. split.
  - apply substring_0_append.
  - rewrite substring_skip_append, length_append.
    replace (String.length stem + String.length rest - String.length stem)%nat
      with (String.length rest) by lia.
    apply substring_all.
Qed.

Section Extension.
Implicit Types (s : HyperView.HyperView) (σ : adapter.store) (w : http.ResponseWriter)
  (r : http.Request) (resp : response.Response).

(** X29.  How [Render] reads a template path.  A path without a dot
    goes to the "json" adapter when the response declares the content
    type "application/json", else to "html", unchanged.  A path
    [stem.ext], where [ext] has no dot, goes with the path [stem] to
    "json" under the same condition, else to "html" when [ext] is
    "html", else to the adapter named [ext].  The split is at the last
    dot of the whole path, so [ext] may contain slashes: a dot in a
    directory name makes the rest of the path an adapter name. *)
Theorem Render_by_extension s σ w r resp :
  let json :=
    String.eqb (http.Get (response.HTTPHeader resp) "Content-Type") "application/json" in
  (strings.LastIndex (response.templatePath resp) "." = -1 ->
   HyperView.Render s σ w r resp
   = HyperView.RenderAs s σ w r (if json then "json" else "html") resp)
  /\ (forall stem ext : string,
      response.templatePath resp = stem ++ "." ++ ext ->
      strings.LastIndex ext "." = -1 ->
      HyperView.Render s σ w r resp
      = HyperView.RenderAs s σ w r
          (if json then "json" else if String.eqb ext "html" then "html" else ext)
          (response.Path stem resp)).
Proof.
  cbv zeta. split.
  - intros Hnone. unfold HyperView.Render. cbv zeta. rewrite Hnone, Z.eqb_refl.
    cbn [negb]. by destruct (String.eqb _ "application/json").
  - intros stem ext Hpath Hext. unfold HyperView.Render. cbv zeta.
    rewrite Hpath. change ("." ++ ext) with (String "." ext).
    rewrite (LastIndex_append stem ext "." Hext).
    destruct (slice_at_append stem (String "." ext)) as [-> ->].
    destruct (Z.eqb_spec (Z.of_nat (String.length stem)) (-1)) as [Hneg|_]; [lia|].
    cbn [negb]. change (response.HTTPHeader (response.Path stem resp))
      with (response.HTTPHeader resp).
    destruct (String.eqb _ "application/json"); [done|].
    change (String.eqb (String "." ext) EmptyString) with false.
    change (String.eqb (String "." ext) ".html") with (String.eqb ext "html").
    cbn [orb].
    assert (Hcut : strings.slice_from (String "." ext) 1 = ext).
    { unfold strings.slice_from. change (Z.to_nat 1) with 1%nat.
      cbn [String.length].
      replace (S (String.length ext) - 1)%nat with (String.length ext) by lia.
      cbn [substring]. apply substring_all. }
    rewrite Hcut. by destruct (String.eqb ext "html").
Qed.

Lemma call_others {R : Type} σ (a : adapter.ref)
    (method : forall A : Type, adapter.Adapter A -> A -> A * R) σ' res :
  HyperView.call σ a method = Some (σ', res) ->
  forall b, b <> a -> σ' !! b = σ !! b.
Proof.
  unfold HyperView.call. destruct (σ !! a) as [[A M self]|]; [|done].
  destruct (method A M self) as [self' res']. intros [= <- _] b Hb.
  by rewrite lookup_insert_ne.
Qed.

(** X30.  [Reinit] stops at the first adapter whose [Init] does not
    succeed and returns its error: the adapters before it were
    initialised again, and every adapter that comes only after it is
    left in the state it had, not initialised again. *)
Theorem Reinit_stops_at_first_failure (order : list adapter.ref) σ (out : outcome) :
  snd <$> pages.ReinitIn order σ = Some out ->
  out <> Success ->
  exists σ' (pre : list adapter.ref) (a : adapter.ref) (post : list adapter.ref) σ0,
    pages.ReinitIn order σ = Some (σ', out)
    /\ order = (pre ++ a :: post)%list
    /\ pages.ReinitIn pre σ = Some (σ0, Success)
    /\ HyperView.call σ0 a (λ A M self, adapter.Init self) = Some (σ', out)
    /\ forall b, b ∉ pre -> b <> a -> σ' !! b = σ !! b.
Proof.
  destruct (pages.ReinitIn order σ) as [[σ' out']|] eqn:Hrun; [|done].
  intros [= ->] Hout. exists σ'.
  enough (exists pre a post σ0,
    order = (pre ++ a :: post)%list
    /\ pages.ReinitIn pre σ = Some (σ0, Success)
    /\ HyperView.call σ0 a (λ A M self, adapter.Init self) = Some (σ', out)
    /\ forall b, b ∉ pre -> b <> a -> σ' !! b = σ !! b)
    as (pre & a & post & σ0 & Hrest) by (by exists pre, a, post, σ0).
  revert σ Hrun. induction order as [|a rest IH]; intros σ; cbn [pages.ReinitIn].
  - intros [= _ <-]. done.
  - destruct (HyperView.call σ a _) as [[σ1 res]|] eqn:Hcall; [|done].
    destruct res as [|e|e].
    + intros Hrest.
      destruct (IH σ1 Hrest) as (pre & a' & post & σ0 & -> & Hpre & Ha' & Hkeep).
      exists (a :: pre), a', post, σ0. split; [done|].
      split; [cbn [pages.ReinitIn]; by rewrite Hcall|]. split; [done|].
      intros b Hb Hba'. apply not_elem_of_cons in Hb as [Hba Hb].
      rewrite (Hkeep b Hb Hba'). by apply (call_others _ _ _ _ _ Hcall).
    + intros [= <- <-]. exists [], a, rest, σ. split; [done|]. split; [done|].
      split; [done|]. intros b _ Hb. by apply (call_others _ _ _ _ _ Hcall).
    + intros [= <- <-]. exists [], a, rest, σ. split; [done|]. split; [done|].
      split; [done|]. intros b _ Hb. by apply (call_others _ _ _ _ _ Hcall).
Qed.

End Extension.

Lemma Render_by_extension_witness :
  HyperView.Render inputs.htmlOnly inputs.htmlOnlyStore http.NewRecorder (samples.get [])
    moreSamples.versionedResp
  = HyperView.RenderAs inputs.htmlOnly inputs.htmlOnlyStore http.NewRecorder
      (samples.get []) "2/page" (response.Path "v1" moreSamples.versionedResp).
Proof.
  apply (proj2 (Render_by_extension inputs.htmlOnly inputs.htmlOnlyStore http.NewRecorder
    (samples.get []) moreSamples.versionedResp) "v1" "2/page"); reflexivity.
Defined.

Lemma Reinit_stops_at_first_failure_witness :
  exists σ' (pre : list adapter.ref) (a : adapter.ref) (post : list adapter.ref),
    pages.ReinitIn [1%nat; 2%nat] moreSamples.pairStore
    = Some (σ', Failure (errors.New "template: views/home.tmpl: unexpected EOF"))
    /\ [1%nat; 2%nat] = (pre ++ a :: post)%list
    /\ forall b, b ∉ pre -> b <> a -> σ' !! b = moreSamples.pairStore !! b.
Proof.
  destruct (Reinit_stops_at_first_failure [1%nat; 2%nat] moreSamples.pairStore
    (Failure (errors.New "template: views/home.tmpl: unexpected EOF"))
    ltac:(vm_compute; reflexivity) ltac:(discriminate))
    as (σ' & pre & a & post & σ0 & H1 & H2 & H3 & H4 & H5).
  exists σ', pre, a, post. split; [exact H1|]. split; [exact H2|exact H5].
Defined.

